(** * Error values, wrapping and chain traversal of go-error-handling

    A shallow embedding of the Go packages [database], [custom], [user],
    [utils] and [wrapping], together with the fragments of the standard
    packages [errors], [fmt], [time], [io/fs] and [syscall] they call.

    Go error values are interface values holding pointers. Pointer identity
    is what [errors.Is] compares, exported struct fields can be reassigned,
    and a cause chain can therefore even be cyclic; so objects live in an
    explicit heap and an [error] is either the nil interface, a reference to
    a heap object, or a [syscall.Errno] (the one non-pointer error type that
    occurs). Every Go function is a computation in the monad [M]: it reads a
    step budget, threads the heap, and either returns or stops with a panic
    or with the budget exhausted. *)

From Stdlib Require Import ZArith List String Ascii Bool Lia.
From Stdlib Require Import DecimalString DecimalPos.
Import ListNotations.
Open Scope list_scope.
Open Scope string_scope.

(** ** Values *)

Definition addr := nat.

(** [syscall.Errno], restricted to the four numbers whose [Is] method
    answers to an [oserror] sentinel that a failed file read can carry. *)
Inductive Errno : Type := EPERM | ENOENT | EACCES | EEXIST.

(** A value of interface type [error]. *)
Inductive error : Type :=
| Nil
| Ref (a : addr)
| Sys (e : Errno).

(** [interface{}] as stored in [ValidationError.Value]: the kinds of values
    the repository stores there. *)
Inductive any : Type :=
| AnyNil
| AnyInt (z : Z)
| AnyString (s : string).

(** [time.Time], seen through its civil date, clock and zone offset
    (seconds east of UTC), which is all that [Format] reads. *)
Record Time : Type := mkTime {
  Year : Z; Month : Z; Day : Z;
  Hour : Z; Minute : Z; Second : Z;
  Offset : Z
}.

(** [database.DatabaseError] *)
Record DatabaseError : Type := mkDatabaseError {
  Operation : string;
  Table : string;
  Query : string;
  Err : error;
  Timestamp : Time;
  Retryable : bool
}.

(** [custom.ValidationError] *)
Record ValidationError : Type := mkValidationError {
  Field : string;
  Message : string;
  Code : Z;
  Value : any
}.

(** [user.User] *)
Record User : Type := mkUser {
  ID : Z;
  Email : string;
  Age : Z
}.

(** [fmt.wrapError]: what [fmt.Errorf] returns for a format with one [%w]. *)
Record wrapError : Type := mkWrapError {
  msg : string;
  err : error
}.

(** [fs.PathError]: what [os.ReadFile] returns on failure. *)
Record PathError : Type := mkPathError {
  PathOp : string;
  PathPath : string;
  PathErr : error
}.

(** Heap objects, tagged by their dynamic type. *)
Inductive object : Type :=
| OerrorString (s : string)
| OwrapError (w : wrapError)
| ODatabaseError (d : DatabaseError)
| OValidationError (v : ValidationError)
| OPathError (p : PathError).

(** Dynamic types of non-nil error values. *)
Inductive type : Type :=
| T_errorString | T_wrapError | T_DatabaseError | T_ValidationError
| T_PathError | T_Errno.

Definition heap := list object.

(** ** The monad of Go computations *)

(** How a computation ends: with a result; with a run-time panic (a method
    call on a nil interface, a dangling pointer); at a step of the standard
    library that is not modelled; or with its step budget used up, which is
    how a computation that never returns shows. *)
Inductive res (A : Type) : Type :=
| Ok (a : A)
| Panic
| Unsupported
| OutOfFuel.
Arguments Ok {A} a.
Arguments Panic {A}.
Arguments Unsupported {A}.
Arguments OutOfFuel {A}.

Definition M (A : Type) : Type := nat -> heap -> res (A * heap).

Definition ret {A} (a : A) : M A := fun _ h => Ok (a, h).

Definition bind {A B} (m : M A) (k : A -> M B) : M B :=
  fun g h =>
    match m g h with
    | Ok (a, h') => k a g h'
    | Panic => Panic
    | Unsupported => Unsupported
    | OutOfFuel => OutOfFuel
    end.

Definition panic {A} : M A := fun _ _ => Panic.
Definition unsupported {A} : M A := fun _ _ => Unsupported.
Definition out_of_fuel {A} : M A := fun _ _ => OutOfFuel.

Notation "x <- m ;; k" := (bind m (fun x => k))
  (at level 61, m at next level, right associativity).

Definition lift {A} (o : option A) : M A :=
  match o with Some a => ret a | None => unsupported end.

(** A call under [recover]: what [fmt] does with a panicking [Error]
    method is to print a diagnostic in its place, which is outside the
    fragment. *)
Definition recovered {A} (m : M A) : M A :=
  fun g h =>
    match m g h with
    | Panic => Unsupported
    | r => r
    end.

(** Allocation: the new object gets the next free address. *)
Definition new (o : object) : M error :=
  fun _ h => Ok (Ref (List.length h), (h ++ [o])%list).

(** Pointer dereference. *)
Definition load (a : addr) : M object :=
  fun _ h => match nth_error h a with
             | Some o => Ok (o, h)
             | None => Panic
             end.

(** Assignment through a pointer ([*p = o]). *)
Fixpoint update (h : heap) (a : addr) (o : object) : heap :=
  match h, a with
  | [], _ => []
  | _ :: h', O => o :: h'
  | x :: h', S a' => x :: update h' a' o
  end.

Definition store (a : addr) (o : object) : M unit :=
  fun _ h => match nth_error h a with
             | Some _ => Ok (tt, update h a o)
             | None => Panic
             end.

(** [==] on error interface values: same dynamic type and same pointer
    (or same number for [Errno]). *)
Definition error_eqb (x y : error) : bool :=
  match x, y with
  | Nil, Nil => true
  | Ref a, Ref b => Nat.eqb a b
  | Sys EPERM, Sys EPERM | Sys ENOENT, Sys ENOENT
  | Sys EACCES, Sys EACCES | Sys EEXIST, Sys EEXIST => true
  | _, _ => false
  end.

Definition type_eqb (s t : type) : bool :=
  match s, t with
  | T_errorString, T_errorString | T_wrapError, T_wrapError
  | T_DatabaseError, T_DatabaseError | T_ValidationError, T_ValidationError
  | T_PathError, T_PathError | T_Errno, T_Errno => true
  | _, _ => false
  end.

Definition type_of_object (o : object) : type :=
  match o with
  | OerrorString _ => T_errorString
  | OwrapError _ => T_wrapError
  | ODatabaseError _ => T_DatabaseError
  | OValidationError _ => T_ValidationError
  | OPathError _ => T_PathError
  end.

(** The dynamic type of an interface value; [None] for the nil interface. *)
Definition dyn_type (e : error) : M (option type) :=
  match e with
  | Nil => ret None
  | Sys _ => ret (Some T_Errno)
  | Ref a => o <- load a ;; ret (Some (type_of_object o))
  end.

(** ** Package strconv / fmt: formatting *)

(** [strconv.Itoa]: decimal digits, with a leading minus sign. *)
Definition itoa (z : Z) : string := NilZero.string_of_int (Z.to_int z).

(** An operand of a [fmt] call, once an error operand's [Error()] has been
    consulted. *)
Inductive arg : Type :=
| ArgString (s : string)
| ArgInt (z : Z)
| ArgBool (b : bool)
| ArgError (text : string)
| ArgNil.

Definition fmt_bool (b : bool) : string := if b then "true" else "false".

(** One verb applied to one operand. [%w] is a verb only inside
    [fmt.Errorf] ([wrapErrs]), where it prints like [%v]. Combinations Go
    reports as bad verbs are outside the fragment ([None]). *)
Definition fmt_verb (wrapErrs : bool) (verb : ascii) (a : arg) : option string :=
  if (verb =? "s")%char then
    match a with
    | ArgString s => Some s
    | ArgError t => Some t
    | _ => None
    end
  else if (verb =? "d")%char then
    match a with
    | ArgInt z => Some (itoa z)
    | _ => None
    end
  else if (verb =? "v")%char then
    match a with
    | ArgString s => Some s
    | ArgInt z => Some (itoa z)
    | ArgBool b => Some (fmt_bool b)
    | ArgError t => Some t
    | ArgNil => Some "<nil>"
    end
  else if (verb =? "w")%char then
    match a with
    | ArgError t => if wrapErrs then Some t else None
    | _ => None
    end
  else None.

(** The printing loop of [fmt]: literal text is copied, [%%] prints a
    percent sign, [%verb] consumes the next operand. A format with missing
    or extra operands is outside the fragment. *)
Fixpoint doPrintf (wrapErrs : bool) (format : string) (a : list arg) : option string :=
  match format with
  | EmptyString => match a with [] => Some "" | _ :: _ => None end
  | String c rest =>
      if (c =? "%")%char then
        match rest with
        | EmptyString => None
        | String verb rest' =>
            if (verb =? "%")%char then
              option_map (String "%") (doPrintf wrapErrs rest' a)
            else
              match a with
              | [] => None
              | x :: a' =>
                  match fmt_verb wrapErrs verb x, doPrintf wrapErrs rest' a' with
                  | Some s, Some r => Some (s ++ r)
                  | _, _ => None
                  end
              end
        end
      else option_map (String c) (doPrintf wrapErrs rest a)
  end.

(** An operand as the caller passes it ([a ...any]). *)
Inductive operand : Type :=
| OpString (s : string)
| OpInt (z : Z)
| OpBool (b : bool)
| OpError (e : error)
| OpAny (x : any).

Section Fmt.

(** The [Error] method of whatever error an operand holds: the dynamic
    dispatch is tied further down, once every method is defined. *)
Variable Error : error -> M string.

(** [fmt] calls [Error()] when it reaches the operand's verb; the operands
    are evaluated up front here, which is the same for formats that print
    every operand once, as all formats of the repository do. *)
Definition eval_operand (o : operand) : M arg :=
  match o with
  | OpString s => ret (ArgString s)
  | OpInt z => ret (ArgInt z)
  | OpBool b => ret (ArgBool b)
  | OpError Nil => ret ArgNil
  | OpError e => t <- recovered (Error e) ;; ret (ArgError t)
  | OpAny AnyNil => ret ArgNil
  | OpAny (AnyInt z) => ret (ArgInt z)
  | OpAny (AnyString s) => ret (ArgString s)
  end.

Fixpoint eval_operands (os : list operand) : M (list arg) :=
  match os with
  | [] => ret []
  | o :: os' =>
      a <- eval_operand o ;;
      l <- eval_operands os' ;;
      ret (a :: l)
  end.

(** [fmt.Sprintf] *)
Definition Sprintf_with (format : string) (os : list operand) : M string :=
  a <- eval_operands os ;;
  lift (doPrintf false format a).

(** The operands that stand at a [%w] verb and hold an error. *)
Fixpoint wrappedErrs (format : string) (os : list operand) : list error :=
  match format with
  | EmptyString => []
  | String c rest =>
      if (c =? "%")%char then
        match rest with
        | EmptyString => []
        | String verb rest' =>
            if (verb =? "%")%char then wrappedErrs rest' os
            else
              match os with
              | [] => []
              | o :: os' =>
                  ((if (verb =? "w")%char then
                      match o with OpError e => [e] | _ => [] end
                    else []) ++ wrappedErrs rest' os')%list
              end
        end
      else wrappedErrs rest os
  end.

(** [errors.New]: a fresh [*errorString] on every call. *)
Definition New (text : string) : M error := new (OerrorString text).

(** [fmt.Errorf]: the message is printed once, at construction; with no
    [%w] the result is an [errors.New], with one it is a [*wrapError]
    holding the operand. (Several [%w] are outside the fragment.) *)
Definition Errorf_with (format : string) (os : list operand) : M error :=
  a <- eval_operands os ;;
  s <- lift (doPrintf true format a) ;;
  match wrappedErrs format os with
  | [] => New s
  | [e] => new (OwrapError (mkWrapError s e))
  | _ :: _ :: _ => unsupported
  end.

End Fmt.

(** ** Package time *)

Fixpoint zeros (n : nat) : string :=
  match n with
  | O => ""
  | S n' => String "0" (zeros n')
  end.

(** [time.appendInt]: a minus sign for a negative number, then the decimal
    digits of its magnitude, padded with zeros on the left up to [width]. *)
Definition appendInt (x : Z) (width : nat) : string :=
  let digits := itoa (Z.abs x) in
  (if (x <? 0)%Z then "-" else "")
  ++ zeros (width - String.length digits) ++ digits.

(** The zone suffix of RFC3339: [Z] for UTC, else [+hh:mm] or [-hh:mm]. *)
Definition appendZone (offset : Z) : string :=
  if (offset =? 0)%Z then "Z"
  else
    let zone := Z.quot offset 60 in
    (if (zone <? 0)%Z then "-" else "+")
    ++ appendInt (Z.quot (Z.abs zone) 60) 2 ++ ":"
    ++ appendInt (Z.rem (Z.abs zone) 60) 2.

(** [t.Format(time.RFC3339)], layout [2006-01-02T15:04:05Z07:00]. *)
Definition Format_RFC3339 (t : Time) : string :=
  appendInt (Year t) 4 ++ "-" ++ appendInt (Month t) 2 ++ "-"
  ++ appendInt (Day t) 2 ++ "T" ++ appendInt (Hour t) 2 ++ ":"
  ++ appendInt (Minute t) 2 ++ ":" ++ appendInt (Second t) 2
  ++ appendZone (Offset t).

(** ** Package-level variables

    Package initialisation runs the [errors.New] calls of the variable
    declarations in order, from the empty heap: first the five sentinels of
    [internal/oserror], then the five of [utils]. *)

Definition oserror_ErrInvalid : error := Ref 0.
Definition oserror_ErrPermission : error := Ref 1.
Definition oserror_ErrExist : error := Ref 2.
Definition oserror_ErrNotExist : error := Ref 3.
Definition oserror_ErrClosed : error := Ref 4.

Definition ErrUserNotFound : error := Ref 5.
Definition ErrDuplicateEmail : error := Ref 6.
Definition ErrInvalidPassword : error := Ref 7.
Definition ErrUnauthorized : error := Ref 8.
Definition ErrDatabaseTimeout : error := Ref 9.

Definition sentinels : list error :=
  [ErrUserNotFound; ErrDuplicateEmail; ErrInvalidPassword; ErrUnauthorized;
   ErrDatabaseTimeout].

Definition package_init : M unit :=
  _ <- New "invalid argument" ;;
  _ <- New "permission denied" ;;
  _ <- New "file already exists" ;;
  _ <- New "file does not exist" ;;
  _ <- New "file already closed" ;;
  _ <- New "user not found" ;;
  _ <- New "email already exists" ;;
  _ <- New "invalid password" ;;
  _ <- New "unauthorized access" ;;
  _ <- New "database operation timed out" ;;
  ret tt.

(** The heap when [main] starts. *)
Definition init_heap : heap :=
  [OerrorString "invalid argument"; OerrorString "permission denied";
   OerrorString "file already exists"; OerrorString "file does not exist";
   OerrorString "file already closed";
   OerrorString "user not found"; OerrorString "email already exists";
   OerrorString "invalid password"; OerrorString "unauthorized access";
   OerrorString "database operation timed out"].

(** A later heap: the package-level [*errorString] objects are still where
    initialisation put them (their one field is unexported and never
    assigned). *)
Definition initialized (h : heap) : Prop :=
  forall a o, nth_error init_heap a = Some o -> nth_error h a = Some o.

(** ** Package syscall *)

Definition Errno_Error (e : Errno) : string :=
  match e with
  | EPERM => "operation not permitted"
  | ENOENT => "no such file or directory"
  | EACCES => "permission denied"
  | EEXIST => "file exists"
  end.

(** [func (e Errno) Is(target error) bool] *)
Definition Errno_Is (e : Errno) (target : error) : bool :=
  if error_eqb target oserror_ErrPermission then
    match e with EACCES | EPERM => true | _ => false end
  else if error_eqb target oserror_ErrExist then
    match e with EEXIST => true | _ => false end
  else if error_eqb target oserror_ErrNotExist then
    match e with ENOENT => true | _ => false end
  else false.

(** ** Methods *)

Section Methods.

Variable Error : error -> M string.

(** [func (e *DatabaseError) Error() string] *)
Definition DatabaseError_Error (e : DatabaseError) : M string :=
  Sprintf_with Error
    "database error [%s on %s]: %v (retryable: %v, timestamp: %s)"
    [OpString (Operation e); OpString (Table e); OpError (Err e);
     OpBool (Retryable e); OpString (Format_RFC3339 (Timestamp e))].

(** [func (e *ValidationError) Error() string] *)
Definition ValidationError_Error (e : ValidationError) : M string :=
  Sprintf_with Error
    "Validation error on field '%s': %s (code: %d, value: %v)"
    [OpString (Field e); OpString (Message e); OpInt (Code e);
     OpAny (Value e)].

(** [func (e *PathError) Error() string]: a nil [Err] is a nil-interface
    method call. *)
Definition PathError_Error (e : PathError) : M string :=
  match PathErr e with
  | Nil => panic
  | c => t <- Error c ;; ret (PathOp e ++ " " ++ PathPath e ++ ": " ++ t)
  end.

End Methods.

(** [func (e *DatabaseError) Unwrap() error] *)
Definition DatabaseError_Unwrap (e : DatabaseError) : M error := ret (Err e).

Definition wrapError_Unwrap (e : wrapError) : M error := ret (err e).

Definition PathError_Unwrap (e : PathError) : M error := ret (PathErr e).

(** ** Dynamic dispatch *)

(** [e.Error()] on an interface value: each nested call spends one unit of
    the budget, so that a cause chain that loops back on itself exhausts
    it. *)
Fixpoint Error_fix (g : nat) (e : error) {struct g} : heap -> res (string * heap) :=
  match g with
  | O => fun _ => OutOfFuel
  | S g' =>
      let self : error -> M string := fun e' _ => Error_fix g' e' in
      match e with
      | Nil => panic g'
      | Sys n => ret (Errno_Error n) g'
      | Ref a =>
          (o <- load a ;;
           match o with
           | OerrorString s => ret s
           | OwrapError w => ret (msg w)
           | ODatabaseError d => DatabaseError_Error self d
           | OValidationError v => ValidationError_Error self v
           | OPathError p => PathError_Error self p
           end) g'
      end
  end.

Definition Error (e : error) : M string := fun g => Error_fix g e.

(** The type assertion [err.(interface{ Unwrap() error })]. *)
Definition has_Unwrap (t : type) : bool :=
  match t with
  | T_wrapError | T_DatabaseError | T_PathError => true
  | T_errorString | T_ValidationError | T_Errno => false
  end.

Definition implements_unwrapper (e : error) : M bool :=
  t <- dyn_type e ;;
  match t with
  | None => ret false
  | Some t => ret (has_Unwrap t)
  end.

(** [ue.Unwrap()] on a value that passed the assertion. *)
Definition Unwrap (e : error) : M error :=
  match e with
  | Ref a =>
      o <- load a ;;
      match o with
      | OwrapError w => wrapError_Unwrap w
      | ODatabaseError d => DatabaseError_Unwrap d
      | OPathError p => PathError_Unwrap p
      | OerrorString _ | OValidationError _ => panic
      end
  | Nil | Sys _ => panic
  end.

Definition Sprintf : string -> list operand -> M string := Sprintf_with Error.
Definition Errorf : string -> list operand -> M error := Errorf_with Error.

(** ** Package database *)

(** [func Unwramp(err error) error] *)
Definition Unwramp (err : error) : M error :=
  ok <- implements_unwrapper err ;;
  if ok then Unwrap err else ret Nil.

(** ** Package errors *)

(** The loop of [errors.Is]: compare, ask an [Is] method (only [Errno] has
    one), else unwrap one step. *)
Fixpoint is_loop (g : nat) (err target : error) : M bool :=
  match g with
  | O => out_of_fuel
  | S g' =>
      if error_eqb err target then ret true
      else if match err with Sys e => Errno_Is e target | _ => false end
      then ret true
      else
        ok <- implements_unwrapper err ;;
        if ok then
          next <- Unwrap err ;;
          match next with
          | Nil => ret false
          | _ => is_loop g' next target
          end
        else ret false
  end.

(** [errors.Is] *)
Definition Is (err target : error) : M bool :=
  match err, target with
  | Nil, _ | _, Nil => ret (error_eqb err target)
  | _, _ => fun g => is_loop g err target g
  end.

(** The loop of [errors.As] for a target of pointer type [targetType]:
    the first chain element of that dynamic type (no type here has an [As]
    method). *)
Fixpoint as_loop (g : nat) (err : error) (targetType : type) : M (option error) :=
  match g with
  | O => out_of_fuel
  | S g' =>
      t <- dyn_type err ;;
      if match t with Some t => type_eqb t targetType | None => false end
      then ret (Some err)
      else
        ok <- implements_unwrapper err ;;
        if ok then
          next <- Unwrap err ;;
          match next with
          | Nil => ret None
          | _ => as_loop g' next targetType
          end
        else ret None
  end.

(** [errors.As]: [Some e] stands for [true] with the target set to [e]. *)
Definition As (err : error) (targetType : type) : M (option error) :=
  match err with
  | Nil => ret None
  | _ => fun g => as_loop g err targetType g
  end.

(** ** Package user *)

(** [func ValidateUser(user User) error] *)
Definition ValidateUser (user : User) : M error :=
  if (Age user <? 0)%Z then
    new (OValidationError
           (mkValidationError "Age" "Age cannot be negative" 2001
              (AnyInt (Age user))))
  else if (130 <? Age user)%Z then
    new (OValidationError
           (mkValidationError "Age" "Age cannot be greater than 130" 2002
              (AnyInt (Age user))))
  else if (Email user =? "")%string then
    new (OValidationError
           (mkValidationError "Email" "Email cannot be empty" 2003
              (AnyString (Email user))))
  else ret Nil.

(** [func FindUserByEmail(email string)], returning a [*User] and an
    [error]; the pointer result is an [option]. *)
Definition FindUserByEmail (email : string) : M (option User * error) :=
  if (email =? "")%string then
    e <- Errorf "email cannot be empty: %w" [OpError ErrUserNotFound] ;;
    ret (None, e)
  else ret (None, ErrUserNotFound).

(** [func QueryUsers(limit int) error]; [now] is what [time.Now()] returns
    at the call. *)
Definition QueryUsers (now : Time) (limit : Z) : M error :=
  q <- Sprintf "SELECT * FROM users LIMIT %d" [OpInt limit] ;;
  e <- New "connection timeout" ;;
  new (ODatabaseError (mkDatabaseError "SELECT" "users" q e now true)).

(** ** Package wrapping *)

Section Wrapping.

(** [os.ReadFile], as far as the package looks at it: the error it
    returns. *)
Variable os_ReadFile : string -> M error.

(** [func readConfigFile(filename string) error] *)
Definition readConfigFile (filename : string) : M error :=
  e <- os_ReadFile filename ;;
  match e with
  | Nil => ret Nil
  | _ => Errorf "failed to read config file %s: %w" [OpString filename; OpError e]
  end.

(** [func loadUserConfig(userID int) error] *)
Definition loadUserConfig (userID : Z) : M error :=
  filename <- Sprintf "user_%d.json" [OpInt userID] ;;
  e <- readConfigFile filename ;;
  match e with
  | Nil => ret Nil
  | _ => Errorf "failed to load config for user %d: %w" [OpInt userID; OpError e]
  end.

(** [func ProcessUserData(userID int) error] *)
Definition ProcessUserData (userID : Z) : M error :=
  e <- loadUserConfig userID ;;
  match e with
  | Nil => ret Nil
  | _ => Errorf "failed to process user %d: %w" [OpInt userID; OpError e]
  end.

End Wrapping.

(** [os.ReadFile] on a name that does not exist: a fresh [*PathError]
    holding [ENOENT]. *)
Definition ReadFile_missing (filename : string) : M error :=
  new (OPathError (mkPathError "open" filename (Sys ENOENT))).

(** ** Chain traversal, as the tests of package wrapping write it *)

(** The loop of [TestErrorChain_UnwrapBehavior]: collect [Error()] of the
    current error, then follow [Unwrap] while the value offers it. *)
Fixpoint WalkChain_loop (g : nat) (levels : list string) (currentErr : error)
  : M (list string) :=
  match g with
  | O => out_of_fuel
  | S g' =>
      match currentErr with
      | Nil => ret levels
      | _ =>
          s <- Error currentErr ;;
          let levels := (levels ++ [s])%list in
          ok <- implements_unwrapper currentErr ;;
          if ok then
            next <- Unwrap currentErr ;;
            WalkChain_loop g' levels next
          else ret levels
      end
  end.

Definition WalkChain (e : error) : M (list string) :=
  fun g => WalkChain_loop g [] e g.

(** The loop of [TestProcessUserData_ErrorChain]: count the levels, and
    give up with a report once the count passes 10. The result is the final
    [depth] and whether "Error chain too deep" was reported. *)
Fixpoint ErrorChain_loop (g : nat) (depth : Z) (currentErr : error)
  : M (Z * bool) :=
  match g with
  | O => out_of_fuel
  | S g' =>
      match currentErr with
      | Nil => ret (depth, false)
      | _ =>
          let depth := (depth + 1)%Z in
          if (10 <? depth)%Z then ret (depth, true)
          else
            ok <- implements_unwrapper currentErr ;;
            if ok then
              next <- Unwrap currentErr ;;
              ErrorChain_loop g' depth next
            else ret (depth, false)
      end
  end.

Definition ErrorChain_depth (e : error) : M (Z * bool) :=
  fun g => ErrorChain_loop g 0%Z e g.

(** [strings.Contains] *)
Fixpoint Contains (s substr : string) : bool :=
  String.prefix substr s
  || match s with
     | EmptyString => false
     | String _ s' => Contains s' substr
     end.


(** ** Views of the heap used to state properties *)

(** The immediate cause an object hands out through [Unwrap], for the
    types that have the method. *)
Definition cause_of (o : object) : option error :=
  match o with
  | OwrapError w => Some (err w)
  | ODatabaseError d => Some (Err d)
  | OPathError p => Some (PathErr p)
  | OerrorString _ | OValidationError _ => None
  end.

(** [wraps h target e n]: in [h], [e] is [target] under [n] layers of
    [*wrapError]. *)
Inductive wraps (h : heap) (target : error) : error -> nat -> Prop :=
| wraps_here : wraps h target target 0
| wraps_step a w n :
    nth_error h a = Some (OwrapError w) ->
    wraps h target (err w) n ->
    wraps h target (Ref a) (S n).

(** Wrapping once per context text, innermost first, as
    [fmt.Errorf("%s: %w", text, err)]. *)
Fixpoint wrap_all (texts : list string) (e : error) : M error :=
  match texts with
  | [] => ret e
  | t :: texts' =>
      e' <- Errorf "%s: %w" [OpString t; OpError e] ;;
      wrap_all texts' e'
  end.

(** [refines m m']: whenever [m] returns, it leaves the heap as it found
    it, and [m'] returns the same with any larger budget on any heap that
    has grown by allocation. A computation that refines itself only reads
    the heap. *)
Definition refines {A} (m m' : M A) : Prop :=
  forall g h r h',
    m g h = Ok (r, h') ->
    h' = h
    /\ forall g' l, g <= g' -> m' g' (h ++ l)%list = Ok (r, (h ++ l)%list).

Definition reads {A} (m : M A) : Prop := refines m m.

(** The text [%v] prints for a cause: ["<nil>"] for the nil interface,
    else what its [Error()] returns. *)
Definition cause_text (g : nat) (h : heap) (c : error) (t : string) : Prop :=
  match c with
  | Nil => t = "<nil>"
  | _ => Error c g h = Ok (t, h)
  end.

(** The dynamic type of [e] in [h]. *)
Definition type_in (h : heap) (e : error) : option type :=
  match e with
  | Nil => None
  | Sys _ => Some T_Errno
  | Ref a => option_map type_of_object (nth_error h a)
  end.

(** The immediate cause of [e] in [h], when its type offers [Unwrap]. *)
Definition cause_in (h : heap) (e : error) : option error :=
  match e with
  | Ref a => match nth_error h a with Some o => cause_of o | None => None end
  | Nil | Sys _ => None
  end.

(** [chain h e l]: following [Unwrap] from [e] in [h] visits exactly the
    values [l], [e] first, and ends at a value without [Unwrap] or at a
    nil cause. *)
Inductive chain (h : heap) : error -> list error -> Prop :=
| chain_nil : chain h Nil []
| chain_leaf e t :
    type_in h e = Some t -> cause_in h e = None -> chain h e [e]
| chain_step e c l :
    cause_in h e = Some c -> chain h c l -> chain h e (e :: l).

Definition has_type (h : heap) (t : type) (e : error) : bool :=
  match type_in h e with
  | Some t' => type_eqb t' t
  | None => false
  end.

(** [valid h e]: [e] is not a dangling pointer. *)
Definition valid (h : heap) (e : error) : Prop :=
  match e with
  | Ref a => a < List.length h
  | Nil | Sys _ => True
  end.

(** [closed h]: no object of [h] holds a dangling cause. *)
Definition closed (h : heap) : Prop :=
  forall a o c, nth_error h a = Some o -> cause_of o = Some c -> valid h c.

(** [ordered h]: every cause was allocated before the object that holds
    it. Allocation alone builds such heaps; only an assignment to an
    exported field ([e.Err = ...]) can break the order. *)
Definition ordered (h : heap) : Prop :=
  forall a o c, nth_error h a = Some o -> cause_of o = Some (Ref c) -> c < a.

(** [e := &DatabaseError{...}; e.Err = e]: an error that is its own
    cause. *)
Definition self_caused (now : Time) : M error :=
  p <- new (ODatabaseError (mkDatabaseError "SELECT" "users" "" Nil now true)) ;;
  match p with
  | Ref a =>
      _ <- store a
             (ODatabaseError (mkDatabaseError "SELECT" "users" "" p now true)) ;;
      ret p
  | Nil | Sys _ => panic
  end.

Definition cyclic_heap : heap :=
  (init_heap
   ++ [ODatabaseError
         (mkDatabaseError "SELECT" "users" "" (Ref 10)
            (mkTime 2023 10 5 10 30 0 0) true)])%list.

(** ** Views of strings used to state properties *)

(** The character [c] occurs in [s]. *)
Fixpoint mem (c : ascii) (s : string) : bool :=
  match s with
  | EmptyString => false
  | String d s' => (c =? d)%char || mem c s'
  end.

(** Every character of [s] satisfies [p]. *)
Fixpoint all_chars (p : ascii -> bool) (s : string) : bool :=
  match s with
  | EmptyString => true
  | String d s' => p d && all_chars p s'
  end.

(** No non-empty suffix of [w] is a prefix of [t]: no occurrence of [w]
    can end inside [t] after starting before it, nor start at its head. *)
Fixpoint no_straddle (w t : string) : bool :=
  match w with
  | EmptyString => true
  | String _ w' => negb (String.prefix w t) && no_straddle w' t
  end.

Definition is_digit (c : ascii) : bool :=
  (c =? "0")%char || (c =? "1")%char || (c =? "2")%char || (c =? "3")%char
  || (c =? "4")%char || (c =? "5")%char || (c =? "6")%char || (c =? "7")%char
  || (c =? "8")%char || (c =? "9")%char.

(** The characters an RFC3339 timestamp is made of, and the closing
    parenthesis that follows it in the rendering. *)
Definition is_stamp_char (c : ascii) : bool :=
  is_digit c || (c =? "-")%char || (c =? "+")%char || (c =? ":")%char
  || (c =? "T")%char || (c =? "Z")%char || (c =? ")")%char.

(** ** The wrappers of package wrapping

    The file name [loadUserConfig] builds, the texts of the three
    [fmt.Errorf] layers around an OS error that prints as [t], and the
    heap once the three layers are allocated on top of [h1]. *)
Definition config_file (userID : Z) : string :=
  "user_" ++ itoa userID ++ ".json".

Definition read_text (userID : Z) (t : string) : string :=
  "failed to read config file " ++ config_file userID ++ ": " ++ t.

Definition load_text (userID : Z) (t : string) : string :=
  "failed to load config for user " ++ itoa userID ++ ": "
  ++ read_text userID t.

Definition process_text (userID : Z) (t : string) : string :=
  "failed to process user " ++ itoa userID ++ ": " ++ load_text userID t.

Definition wrapped_heap (h1 : heap) (userID : Z) (oserr : error) (t : string)
  : heap :=
  (h1 ++ [OwrapError (mkWrapError (read_text userID t) oserr);
          OwrapError
            (mkWrapError (load_text userID t) (Ref (List.length h1)));
          OwrapError
            (mkWrapError (process_text userID t)
               (Ref (S (List.length h1))))])%list.

(** ** Package formatted *)

(** [func ValidateAge(age int) error] *)
Definition ValidateAge (age : Z) : M error :=
  if (age <? 0)%Z then
    Errorf "invalid age: %d. Age cannot be negative" [OpInt age]
  else if (130 <? age)%Z then
    Errorf "invalid age: %d. Age cannot be greater than 130" [OpInt age]
  else ret Nil.

(** ** Package example *)

(** [func CustomErrorExample(value int) error] *)
Definition CustomErrorExample (value : Z) : M error :=
  if (value <? 0)%Z then
    new (OValidationError
           (mkValidationError "value" "Value cannot be negative" 1001
              (AnyInt value)))
  else if (100 <? value)%Z then
    new (OValidationError
           (mkValidationError "value" "Value cannot be greater than 100" 1002
              (AnyInt value)))
  else ret Nil.

(** What [%v] prints for a value of [interface{}]. *)
Definition any_text (x : any) : string :=
  match x with
  | AnyNil => "<nil>"
  | AnyInt z => itoa z
  | AnyString s => s
  end.

(** [matches target x]: the test one turn of [errors.Is] makes on the chain
    element [x]. *)
Definition matches (target x : error) : bool :=
  error_eqb x target
  || match x with Sys n => Errno_Is n target | Nil | Ref _ => false end.

(** ** Output of the example functions *)

(** What a function writes: a message handed to the standard logger by
    [log.Printf] or [log.Println] (the date and time the logger puts in
    front are not part of the message), or text printed to standard
    output by [fmt.Printf]. *)
Inductive output : Type :=
| Logged (message : string)
| Printed (text : string).

(** The line feed that ends the formats of the examples. *)
Definition newline : string := String (ascii_of_nat 10) EmptyString.

(** [func FormattedErrorExample(age int)]; the result is what it wrote. *)
Definition FormattedErrorExample (age : Z) : M (list output) :=
  e <- ValidateAge age ;;
  match e with
  | Nil =>
      s <- Sprintf ("Valid age: %d" ++ newline) [OpInt age] ;;
      ret [Printed s]
  | _ =>
      s <- Sprintf ("Error: %v" ++ newline) [OpError e] ;;
      ret [Logged s]
  end.

Section WrappingExample.

Variable os_ReadFile : string -> M error.

(** [func WrappingErrorExample(filename string)]; the result is what it
    wrote. [os.ErrNotExist] is the sentinel of [internal/oserror]. *)
Definition WrappingErrorExample (filename : string) : M (list output) :=
  e <- ProcessUserData os_ReadFile 123 ;;
  match e with
  | Nil => ret []
  | _ =>
      s <- Sprintf ("Full error chain: %v" ++ newline) [OpError e] ;;
      found <- Is e oserror_ErrNotExist ;;
      if found
      then ret [Logged s;
                Logged ("File not found - using defaults" ++ newline)]
      else ret [Logged s]
  end.

End WrappingExample.

(** * Properties *)

(** ** The monad and the heap *)

Lemma bind_Ok {A B} (m : M A) (k : A -> M B) g h a h' :
  m g h = Ok (a, h') -> bind m k g h = k a g h'.
Proof. intros E. unfold bind. rewrite E. reflexivity. Qed.

Lemma bind_Ok_inv {A B} (m : M A) (k : A -> M B) g h r :
  bind m k g h = Ok r -> exists a h', m g h = Ok (a, h') /\ k a g h' = Ok r.
Proof.
  unfold bind. destruct (m g h) as [[a h']| | |]; try discriminate.
  intros E. exists a, h'. split; [reflexivity | exact E].
Qed.

Lemma nth_error_new (h : heap) (o : object) :
  nth_error (h ++ [o])%list (List.length h) = Some o.
Proof. rewrite nth_error_app2, Nat.sub_diag by lia. reflexivity. Qed.

Lemma nth_error_ext (h l : heap) a o :
  nth_error h a = Some o -> nth_error (h ++ l)%list a = Some o.
Proof.
  intros E. rewrite nth_error_app1; [exact E|].
  apply nth_error_Some. congruence.
Qed.

Lemma initialized_init : initialized init_heap.
Proof. intros a o E. exact E. Qed.

Lemma initialized_ext h l : initialized h -> initialized (h ++ l)%list.
Proof. intros I a o E. apply nth_error_ext, I, E. Qed.

Lemma initialized_length h : initialized h -> 10 <= List.length h.
Proof.
  intros I. specialize (I 9 _ eq_refl).
  assert (9 < List.length h) by (apply nth_error_Some; congruence). lia.
Qed.

(** Package initialisation builds [init_heap] from the empty heap. *)
Lemma package_init_heap g : package_init g [] = Ok (tt, init_heap).
Proof. reflexivity. Qed.

(** ** ValidateUser *)

(** C7. For every user, [ValidateUser] allocates a [ValidationError] with
    field "Age" and code 2001 holding the age when the age is negative,
    with field "Age" and code 2002 holding the age when it exceeds 130, and
    with field "Email" and code 2003 holding the email when the age is in
    range and the email is empty; the checks apply in that order, and the
    result is nil exactly when the age is within 0..130 and the email is
    not empty. *)
Theorem ValidateUser_diagnostics (u : User) (g : nat) (h : heap) :
  ((Age u < 0)%Z ->
     ValidateUser u g h
     = Ok (Ref (List.length h),
           (h ++ [OValidationError
                    (mkValidationError "Age" "Age cannot be negative" 2001
                       (AnyInt (Age u)))])%list))
  /\ ((130 < Age u)%Z ->
     ValidateUser u g h
     = Ok (Ref (List.length h),
           (h ++ [OValidationError
                    (mkValidationError "Age" "Age cannot be greater than 130"
                       2002 (AnyInt (Age u)))])%list))
  /\ ((0 <= Age u <= 130)%Z -> Email u = "" ->
     ValidateUser u g h
     = Ok (Ref (List.length h),
           (h ++ [OValidationError
                    (mkValidationError "Email" "Email cannot be empty" 2003
                       (AnyString (Email u)))])%list))
  /\ (ValidateUser u g h = Ok (Nil, h)
      <-> (0 <= Age u <= 130)%Z /\ Email u <> "").
Proof.
  unfold ValidateUser.
  destruct (Z.ltb_spec (Age u) 0) as [Hneg | Hnn].
  { repeat split; try reflexivity; try lia; try discriminate. }
  destruct (Z.ltb_spec 130 (Age u)) as [Hold | Hle].
  { repeat split; try reflexivity; try lia; try discriminate. }
  destruct (String.eqb_spec (Email u) "") as [Hemp | Hne].
  { repeat split; try reflexivity; try lia; try discriminate.
    intros [_ C]. contradiction. }
  repeat split; try lia; try contradiction; assumption.
Qed.

(** Instance: a user with a negative age, and one at the upper bound. *)
Lemma ValidateUser_diagnostics_witness :
  ValidateUser (mkUser 1 "test@example.com" (-1)) 0 []
  = Ok (Ref 0,
        [OValidationError
           (mkValidationError "Age" "Age cannot be negative" 2001
              (AnyInt (-1)))])
  /\ ValidateUser (mkUser 3 "senior@company.com" 130) 0 [] = Ok (Nil, []).
Proof.
  split.
  - apply (proj1 (ValidateUser_diagnostics
                    (mkUser 1 "test@example.com" (-1)) 0 [])).
    cbn. lia.
  - apply (proj2 (proj2 (proj2 (ValidateUser_diagnostics
                    (mkUser 3 "senior@company.com" 130) 0 [])))).
    cbn. split; [lia | discriminate].
Defined.

(** ** Error() of the leaf and wrapper types *)

Lemma Error_errorString g h a s :
  nth_error h a = Some (OerrorString s) ->
  Error (Ref a) (S g) h = Ok (s, h).
Proof.
  intros E. unfold Error. cbn [Error_fix]. unfold bind, load.
  rewrite E. reflexivity.
Qed.

Lemma Error_wrapError g h a w :
  nth_error h a = Some (OwrapError w) ->
  Error (Ref a) (S g) h = Ok (msg w, h).
Proof.
  intros E. unfold Error. cbn [Error_fix]. unfold bind, load.
  rewrite E. reflexivity.
Qed.

Lemma error_eqb_refl e : error_eqb e e = true.
Proof. destruct e as [|a|[]]; cbn; auto using Nat.eqb_refl. Qed.

Lemma error_eqb_eq x y : error_eqb x y = true <-> x = y.
Proof.
  split; [|intros ->; apply error_eqb_refl].
  destruct x as [|a|[]], y as [|b|[]]; cbn; try discriminate; try reflexivity.
  intros E. apply Nat.eqb_eq in E. congruence.
Qed.

(** ** Unwramp *)

Lemma implements_unwrapper_Ref g h a o :
  nth_error h a = Some o ->
  implements_unwrapper (Ref a) g h = Ok (has_Unwrap (type_of_object o), h).
Proof.
  intros E. unfold implements_unwrapper, dyn_type, bind, load.
  rewrite E. reflexivity.
Qed.

Lemma Unwramp_Ref g h a o :
  nth_error h a = Some o ->
  Unwramp (Ref a) g h
  = Ok (match cause_of o with Some c => c | None => Nil end, h).
Proof.
  intros E. unfold Unwramp.
  rewrite (bind_Ok _ _ _ _ _ _ (implements_unwrapper_Ref g h a o E)).
  destruct o; cbn [type_of_object has_Unwrap cause_of];
    try reflexivity; unfold Unwrap, bind, load; rewrite E; reflexivity.
Qed.

(** C4. [Unwramp] is one step: on nil and on an [Errno] it answers nil; on
    a pointer it answers the immediate cause when the pointee's type has
    [Unwrap] ([*wrapError], [*DatabaseError], [*PathError]) and nil when it
    has not; [DatabaseError.Unwrap] answers the [Err] field, so a
    [DatabaseError] built with cause [c] unwraps to exactly [c], which is
    nil for a leaf. *)
Theorem Unwramp_single_step :
  (forall g h, Unwramp Nil g h = Ok (Nil, h))
  /\ (forall g h e, Unwramp (Sys e) g h = Ok (Nil, h))
  /\ (forall g h a o,
        nth_error h a = Some o ->
        Unwramp (Ref a) g h
        = Ok (match cause_of o with Some c => c | None => Nil end, h))
  /\ (forall g h e, DatabaseError_Unwrap e g h = Ok (Err e, h))
  /\ (forall g h op tbl q c now r,
        exists p h',
          new (ODatabaseError (mkDatabaseError op tbl q c now r)) g h
          = Ok (p, h')
          /\ Unwramp p g h' = Ok (c, h')).
Proof.
  split; [reflexivity|]. split; [reflexivity|].
  split; [exact Unwramp_Ref|]. split; [reflexivity|].
  intros g h op tbl q c now r.
  eexists _, _. split; [reflexivity|].
  rewrite (Unwramp_Ref _ _ _ _ (nth_error_new h _)). reflexivity.
Qed.

(** Instance: in a heap holding a leaf, a [DatabaseError] over it and a
    [*wrapError] over that, [Unwramp] of the wrapper is the [DatabaseError],
    not the leaf. *)
Lemma Unwramp_single_step_witness :
  Unwramp (Ref 2) 0
    [OerrorString "connection timeout";
     ODatabaseError
       (mkDatabaseError "SELECT" "users" "" (Ref 0)
          (mkTime 2023 10 5 10 30 0 0) true);
     OwrapError (mkWrapError "query failed" (Ref 1))]
  = Ok (Ref 1,
        [OerrorString "connection timeout";
         ODatabaseError
           (mkDatabaseError "SELECT" "users" "" (Ref 0)
              (mkTime 2023 10 5 10 30 0 0) true);
         OwrapError (mkWrapError "query failed" (Ref 1))]).
Proof.
  apply (proj1 (proj2 (proj2 Unwramp_single_step)) 0 _ 2
           (OwrapError (mkWrapError "query failed" (Ref 1)))).
  reflexivity.
Defined.

(** ** errors.Is along a chain of wrappers *)

Lemma Unwrap_wrapError g h a w :
  nth_error h a = Some (OwrapError w) -> Unwrap (Ref a) g h = Ok (err w, h).
Proof. intros E. unfold Unwrap, bind, load. rewrite E. reflexivity. Qed.

Lemma wraps_Ref h s e n : wraps h (Ref s) e n -> exists a, e = Ref a.
Proof. destruct 1; eauto. Qed.

Lemma Is_Ref a s g h : Is (Ref a) (Ref s) g h = is_loop g (Ref a) (Ref s) g h.
Proof. reflexivity. Qed.

Lemma is_loop_wraps_true h s e n :
  wraps h (Ref s) e n ->
  forall g g0, n < g -> is_loop g e (Ref s) g0 h = Ok (true, h).
Proof.
  induction 1 as [|a w n Ha Hw IH]; intros g g0 Hg;
    (destruct g as [|g]; [lia|]); cbn [is_loop].
  - rewrite error_eqb_refl. reflexivity.
  - destruct (error_eqb (Ref a) (Ref s)); [reflexivity|].
    rewrite (bind_Ok _ _ _ _ _ _ (implements_unwrapper_Ref g0 h a _ Ha)).
    cbn [type_of_object has_Unwrap].
    rewrite (bind_Ok _ _ _ _ _ _ (Unwrap_wrapError g0 h a w Ha)).
    destruct (wraps_Ref _ _ _ _ Hw) as [b Eb]. rewrite Eb in *.
    apply IH. lia.
Qed.

(** A different [*errorString] is never found: every wrapper lives at
    another address than the target, and the innermost error is another
    object. *)
Lemma is_loop_wraps_false h s t e n txs txt :
  wraps h (Ref s) e n ->
  nth_error h s = Some (OerrorString txs) ->
  nth_error h t = Some (OerrorString txt) ->
  t <> s ->
  forall g g0, n < g -> is_loop g e (Ref t) g0 h = Ok (false, h).
Proof.
  intros W Hs Ht Hne.
  induction W as [|a w n Ha Hw IH]; intros g g0 Hg;
    (destruct g as [|g]; [lia|]); cbn [is_loop].
  - replace (error_eqb (Ref s) (Ref t)) with false
      by (symmetry; apply Nat.eqb_neq; congruence).
    rewrite (bind_Ok _ _ _ _ _ _ (implements_unwrapper_Ref g0 h s _ Hs)).
    reflexivity.
  - replace (error_eqb (Ref a) (Ref t)) with false
      by (symmetry; apply Nat.eqb_neq; congruence).
    rewrite (bind_Ok _ _ _ _ _ _ (implements_unwrapper_Ref g0 h a _ Ha)).
    cbn [type_of_object has_Unwrap].
    rewrite (bind_Ok _ _ _ _ _ _ (Unwrap_wrapError g0 h a w Ha)).
    destruct (wraps_Ref _ _ _ _ Hw) as [b Eb]. rewrite Eb in *.
    apply IH. lia.
Qed.

Lemma wraps_ext h l target e n :
  wraps h target e n -> wraps (h ++ l)%list target e n.
Proof.
  induction 1; [constructor|].
  econstructor; [apply nth_error_ext|]; eassumption.
Qed.

Lemma append_empty_r (s : string) : s ++ "" = s.
Proof. induction s as [|c s IH]; cbn; [reflexivity | rewrite IH; reflexivity]. Qed.

Lemma append_assoc (a b c : string) : (a ++ b) ++ c = a ++ b ++ c.
Proof. induction a as [|x a IH]; cbn; [reflexivity | rewrite IH; reflexivity]. Qed.

Lemma recovered_Ok {A} (m : M A) g h r :
  m g h = Ok r -> recovered m g h = Ok r.
Proof. intros E. unfold recovered. rewrite E. reflexivity. Qed.

Lemma eval_operand_error g h e t :
  e <> Nil -> Error e g h = Ok (t, h) ->
  eval_operand Error (OpError e) g h = Ok (ArgError t, h).
Proof.
  intros Hne E. destruct e as [|a|n]; [contradiction| |];
    cbn [eval_operand];
    rewrite (bind_Ok _ _ _ _ _ _ (recovered_Ok _ _ _ _ E)); reflexivity.
Qed.

(** One [fmt.Errorf("...%w", err)] over a [*errorString] or [*wrapError]
    whose text is [t]: a fresh [*wrapError] holding [err]. *)
Lemma Errorf_sentinel g h s txt :
  nth_error h s = Some (OerrorString txt) ->
  Errorf "email cannot be empty: %w" [OpError (Ref s)] (S g) h
  = Ok (Ref (List.length h),
        (h ++ [OwrapError
                 (mkWrapError ("email cannot be empty: " ++ txt) (Ref s))])%list).
Proof.
  intros E. unfold Errorf, Errorf_with.
  assert (Ev : eval_operands Error [OpError (Ref s)] (S g) h
               = Ok ([ArgError txt], h)).
  { cbn [eval_operands].
    rewrite (bind_Ok _ _ _ _ _ _
               (eval_operand_error (S g) h (Ref s) txt ltac:(discriminate)
                  (Error_errorString g h s txt E))).
    reflexivity. }
  rewrite (bind_Ok _ _ _ _ _ _ Ev).
  cbn. rewrite append_empty_r. reflexivity.
Qed.

(** ** FindUserByEmail *)

(** C10. [FindUserByEmail] never finds a user: for every email the user
    result is nil and the error is non-nil and matches [ErrUserNotFound]
    under [errors.Is]; for the empty email the error is a fresh wrapper
    with text "email cannot be empty: user not found" around the sentinel,
    and for any other email it is the sentinel itself. *)
Theorem FindUserByEmail_not_found (email : string) (g : nat) (h : heap) :
  initialized h -> 2 <= g ->
  exists e h',
    FindUserByEmail email g h = Ok ((None, e), h')
    /\ e <> Nil
    /\ Is e ErrUserNotFound g h' = Ok (true, h')
    /\ (email = "" ->
        e = Ref (List.length h)
        /\ e <> ErrUserNotFound
        /\ h' = (h ++ [OwrapError
                         (mkWrapError "email cannot be empty: user not found"
                            ErrUserNotFound)])%list
        /\ Error e g h' = Ok ("email cannot be empty: user not found", h')
        /\ Unwramp e g h' = Ok (ErrUserNotFound, h'))
    /\ (email <> "" -> e = ErrUserNotFound /\ h' = h).
Proof.
  intros I Hg. destruct g as [|g]; [lia|].
  pose proof (I 5 _ eq_refl) as H5.
  pose proof (initialized_length h I) as HL.
  unfold FindUserByEmail.
  destruct (String.eqb_spec email "") as [-> | Hne].
  - rewrite (bind_Ok _ _ _ _ _ _ (Errorf_sentinel g h 5 _ H5)).
    change ("email cannot be empty: " ++ "user not found")
      with "email cannot be empty: user not found".
    eexists _, _. split; [reflexivity|].
    split; [discriminate|].
    assert (W : wraps (h ++ [OwrapError
                         (mkWrapError "email cannot be empty: user not found"
                            ErrUserNotFound)])%list (Ref 5)
                  (Ref (List.length h)) 1).
    { econstructor; [apply nth_error_new|]. constructor. }
    split.
    { unfold ErrUserNotFound. rewrite Is_Ref.
      apply (is_loop_wraps_true _ _ _ _ W). lia. }
    split; [|intros C; contradiction].
    intros _. split; [reflexivity|].
    split; [unfold ErrUserNotFound; intros C; injection C; lia|].
    split; [reflexivity|].
    split.
    + exact (Error_wrapError g _ _ (mkWrapError _ _) (nth_error_new h _)).
    + rewrite (Unwramp_Ref _ _ _ _ (nth_error_new h _)). reflexivity.
  - exists ErrUserNotFound, h. split; [reflexivity|].
    split; [discriminate|].
    split.
    { unfold ErrUserNotFound. rewrite Is_Ref.
      apply (is_loop_wraps_true h 5 (Ref 5) 0); [constructor | lia]. }
    split; [intros C; contradiction|].
    intros _. split; reflexivity.
Qed.

(** Instance: the empty email on the heap of a freshly started program. *)
Lemma FindUserByEmail_not_found_witness :
  exists e h',
    FindUserByEmail "" 2 init_heap = Ok ((None, e), h')
    /\ e <> Nil
    /\ Is e ErrUserNotFound 2 h' = Ok (true, h')
    /\ ("" = "" ->
        e = Ref (List.length init_heap)
        /\ e <> ErrUserNotFound
        /\ h' = (init_heap
                 ++ [OwrapError
                       (mkWrapError "email cannot be empty: user not found"
                          ErrUserNotFound)])%list
        /\ Error e 2 h' = Ok ("email cannot be empty: user not found", h')
        /\ Unwramp e 2 h' = Ok (ErrUserNotFound, h'))
    /\ ("" <> "" -> e = ErrUserNotFound /\ h' = init_heap).
Proof.
  apply (FindUserByEmail_not_found "" 2 init_heap).
  - exact initialized_init.
  - lia.
Defined.

(** ** Computations that only read the heap *)

Lemma refines_ret {A} (a : A) : refines (ret a) (ret a).
Proof.
  intros g h r h' E. injection E as <- <-. split; [reflexivity|].
  reflexivity.
Qed.

Lemma refines_stuck {A} (m m' : M A) :
  (forall g h r, m g h <> Ok r) -> refines m m'.
Proof. intros N g h r h' E. destruct (N _ _ _ E). Qed.

Lemma refines_load a : refines (load a) (load a).
Proof.
  intros g h r h'. unfold load.
  destruct (nth_error h a) as [o|] eqn:E; [|discriminate].
  intros Eq. injection Eq as <- <-. split; [reflexivity|].
  intros g' l _. rewrite (nth_error_ext h l a o E). reflexivity.
Qed.

Lemma refines_bind {A B} (m m' : M A) (k k' : A -> M B) :
  refines m m' -> (forall a, refines (k a) (k' a)) ->
  refines (bind m k) (bind m' k').
Proof.
  intros Hm Hk g h r h' E.
  apply bind_Ok_inv in E. destruct E as (a & h1 & E1 & E2).
  destruct (Hm _ _ _ _ E1) as [-> Hm'].
  destruct (Hk a _ _ _ _ E2) as [-> Hk'].
  split; [reflexivity|].
  intros g' l Hg. rewrite (bind_Ok _ _ _ _ _ _ (Hm' g' l Hg)).
  apply Hk', Hg.
Qed.

Lemma recovered_Ok_inv {A} (m : M A) g h r :
  recovered m g h = Ok r -> m g h = Ok r.
Proof. unfold recovered. destruct (m g h); intros E; congruence. Qed.

Lemma refines_recovered {A} (m m' : M A) :
  refines m m' -> refines (recovered m) (recovered m').
Proof.
  intros R g h r h' E. apply recovered_Ok_inv in E.
  destruct (R _ _ _ _ E) as [-> R']. split; [reflexivity|].
  intros g' l Hg. apply recovered_Ok, R', Hg.
Qed.

Lemma refines_lift {A} (o : option A) : refines (lift o) (lift o).
Proof.
  destruct o; [apply refines_ret|].
  apply refines_stuck. discriminate.
Qed.

Section ReadsFmt.

Variables E E' : error -> M string.
Hypothesis HE : forall e, refines (E e) (E' e).

Lemma refines_eval_operand o : refines (eval_operand E o) (eval_operand E' o).
Proof.
  destruct o as [s|z|b|[|a|n]|[|z|s]]; cbn [eval_operand];
    try apply refines_ret;
    (apply refines_bind;
     [apply refines_recovered, HE | intros; apply refines_ret]).
Qed.

Lemma refines_eval_operands os :
  refines (eval_operands E os) (eval_operands E' os).
Proof.
  induction os as [|o os IH]; cbn [eval_operands]; [apply refines_ret|].
  apply refines_bind; [apply refines_eval_operand|]. intros a.
  apply refines_bind; [apply IH|]. intros; apply refines_ret.
Qed.

Lemma refines_Sprintf_with f os :
  refines (Sprintf_with E f os) (Sprintf_with E' f os).
Proof.
  apply refines_bind; [apply refines_eval_operands|].
  intros; apply refines_lift.
Qed.

Lemma refines_PathError_Error p :
  refines (PathError_Error E p) (PathError_Error E' p).
Proof.
  unfold PathError_Error. destruct (PathErr p);
    try (apply refines_stuck; discriminate);
    (apply refines_bind; [apply HE | intros; apply refines_ret]).
Qed.

End ReadsFmt.

(** [Error()] of any value only reads the heap, and what it returns does
    not change when the budget or the heap grows. *)
Lemma Error_fix_refines g :
  forall g' e, g <= g' ->
    refines (fun _ => Error_fix g e) (fun _ => Error_fix g' e).
Proof.
  induction g as [|g IH]; intros g' e Hg.
  { apply refines_stuck. discriminate. }
  destruct g' as [|g']; [lia|].
  assert (HS : forall e0 : error,
             refines (fun _ : nat => Error_fix g e0)
                     (fun _ : nat => Error_fix g' e0))
    by (intros; apply IH; lia).
  destruct e as [|a|n].
  - apply refines_stuck. discriminate.
  - assert (R : refines
      (o <- load a ;;
       match o with
       | OerrorString s => ret s
       | OwrapError w => ret (msg w)
       | ODatabaseError d =>
           DatabaseError_Error (fun e' _ => Error_fix g e') d
       | OValidationError v =>
           ValidationError_Error (fun e' _ => Error_fix g e') v
       | OPathError p => PathError_Error (fun e' _ => Error_fix g e') p
       end)
      (o <- load a ;;
       match o with
       | OerrorString s => ret s
       | OwrapError w => ret (msg w)
       | ODatabaseError d =>
           DatabaseError_Error (fun e' _ => Error_fix g' e') d
       | OValidationError v =>
           ValidationError_Error (fun e' _ => Error_fix g' e') v
       | OPathError p => PathError_Error (fun e' _ => Error_fix g' e') p
       end)).
    { apply refines_bind; [apply refines_load|].
      intros [s|w|d|v|p]; try apply refines_ret.
      + apply refines_Sprintf_with, HS.
      + apply refines_Sprintf_with, HS.
      + apply refines_PathError_Error, HS. }
    intros g0 h r h' Eq. cbn [Error_fix] in Eq.
    destruct (R _ _ _ _ Eq) as [-> R'].
    split; [reflexivity|].
    intros g1 l _. cbn [Error_fix]. apply (R' g' l). lia.
  - intros g0 h r h' Eq. cbn in Eq. injection Eq as <- <-.
    split; reflexivity.
Qed.

Lemma Error_reads e : reads (Error e).
Proof.
  intros g h r h' Eq. unfold Error in *.
  destruct (Error_fix_refines g g e (le_n g) 0 h r h' Eq) as [-> _].
  split; [reflexivity|].
  intros g' l Hg.
  destruct (Error_fix_refines g g' e Hg 0 h r h Eq) as [_ R].
  apply (R 0 l). lia.
Qed.

Lemma Error_frame e g h s h' : Error e g h = Ok (s, h') -> h' = h.
Proof. intros Eq. apply (Error_reads e _ _ _ _ Eq). Qed.

(** ** DatabaseError.Error *)

(** The format of [DatabaseError.Error] applied to its five operands. *)
Lemma doPrintf_DatabaseError op tbl c r ts :
  doPrintf false
    "database error [%s on %s]: %v (retryable: %v, timestamp: %s)"
    [ArgString op; ArgString tbl; c; ArgBool r; ArgString ts]
  = match fmt_verb false "v" c with
    | Some cause =>
        Some ("database error [" ++ op ++ " on " ++ tbl ++ "]: " ++ cause
              ++ " (retryable: " ++ fmt_bool r ++ ", timestamp: " ++ ts ++ ")")
    | None => None
    end.
Proof.
  destruct c; reflexivity.
Qed.

Lemma load_Ok g h a o : nth_error h a = Some o -> load a g h = Ok (o, h).
Proof. intros E. unfold load. rewrite E. reflexivity. Qed.

Lemma Error_DatabaseError g h a e cause :
  nth_error h a = Some (ODatabaseError e) ->
  cause_text g h (Err e) cause ->
  Error (Ref a) (S g) h
  = Ok ("database error [" ++ Operation e ++ " on " ++ Table e ++ "]: "
        ++ cause ++ " (retryable: " ++ fmt_bool (Retryable e)
        ++ ", timestamp: " ++ Format_RFC3339 (Timestamp e) ++ ")", h).
Proof.
  intros Ha Hc. unfold Error. cbn [Error_fix].
  rewrite (bind_Ok _ _ _ _ _ _ (load_Ok g h a _ Ha)).
  unfold DatabaseError_Error, Sprintf_with.
  assert (Ev : eval_operands (fun e' _ => Error_fix g e')
                 [OpString (Operation e); OpString (Table e); OpError (Err e);
                  OpBool (Retryable e);
                  OpString (Format_RFC3339 (Timestamp e))] g h
               = Ok ([ArgString (Operation e); ArgString (Table e);
                      match Err e with Nil => ArgNil | _ => ArgError cause end;
                      ArgBool (Retryable e);
                      ArgString (Format_RFC3339 (Timestamp e))], h)).
  { cbn [eval_operands eval_operand]. unfold cause_text, Error in Hc.
    destruct (Err e) as [|b|n]; unfold bind, ret, recovered;
      try rewrite Hc; reflexivity. }
  rewrite (bind_Ok _ _ _ _ _ _ Ev), doPrintf_DatabaseError.
  destruct (Err e); cbn [fmt_verb Ascii.eqb Bool.eqb lift]; cbn in Hc;
    subst; reflexivity.
Qed.


(** ** QueryUsers *)

Lemma QueryUsers_eq now limit g h :
  QueryUsers now limit g h
  = Ok (Ref (S (List.length h)),
        (h ++ [OerrorString "connection timeout";
               ODatabaseError
                 (mkDatabaseError "SELECT" "users"
                    ("SELECT * FROM users LIMIT " ++ itoa limit)
                    (Ref (List.length h)) now true)])%list).
Proof.
  unfold QueryUsers, Sprintf, Sprintf_with, New, new, bind, lift, ret.
  cbn. rewrite append_empty_r, length_app, Nat.add_1_r, <- app_assoc.
  reflexivity.
Qed.

Lemma QueryUsers_Error now limit g h :
  Error (Ref (S (List.length h))) (S (S g))
    (h ++ [OerrorString "connection timeout";
           ODatabaseError
             (mkDatabaseError "SELECT" "users"
                ("SELECT * FROM users LIMIT " ++ itoa limit)
                (Ref (List.length h)) now true)])%list
  = Ok ("database error [SELECT on users]: connection timeout (retryable: true, timestamp: "
        ++ Format_RFC3339 now ++ ")",
        (h ++ [OerrorString "connection timeout";
               ODatabaseError
                 (mkDatabaseError "SELECT" "users"
                    ("SELECT * FROM users LIMIT " ++ itoa limit)
                    (Ref (List.length h)) now true)])%list).
Proof.
  apply (Error_DatabaseError (S g) _ _
           (mkDatabaseError "SELECT" "users"
              ("SELECT * FROM users LIMIT " ++ itoa limit)
              (Ref (List.length h)) now true)
           "connection timeout").
  - rewrite nth_error_app2 by lia.
    replace (S (List.length h) - List.length h) with 1 by lia. reflexivity.
  - cbn [cause_text Err]. apply Error_errorString.
    rewrite nth_error_app2, Nat.sub_diag by lia. reflexivity.
Qed.

(** C1. For every [DatabaseError] in the heap whose cause prints as
    [cause] (["<nil>"] for a nil [Err], else what [Err.Error()] returns),
    [Error()] returns exactly
    "database error [<Operation> on <Table>]: <cause> (retryable: <bool>,
    timestamp: <Timestamp in RFC3339>)"; and for every limit and clock
    reading the error of [QueryUsers] renders as "database error [SELECT on
    users]: connection timeout (retryable: true, timestamp: " followed by
    the timestamp and a closing parenthesis. *)
Theorem DatabaseError_Error_exact :
  (forall g h a e cause,
      nth_error h a = Some (ODatabaseError e) ->
      cause_text g h (Err e) cause ->
      Error (Ref a) (S g) h
      = Ok ("database error [" ++ Operation e ++ " on " ++ Table e ++ "]: "
            ++ cause ++ " (retryable: " ++ fmt_bool (Retryable e)
            ++ ", timestamp: " ++ Format_RFC3339 (Timestamp e) ++ ")", h))
  /\ (forall now limit g h,
        exists e h',
          QueryUsers now limit g h = Ok (e, h')
          /\ Error e (S (S g)) h'
             = Ok ("database error [SELECT on users]: connection timeout (retryable: true, timestamp: "
                   ++ Format_RFC3339 now ++ ")", h')).
Proof.
  split; [exact Error_DatabaseError|].
  intros now limit g h. eexists _, _.
  split; [apply QueryUsers_eq | apply QueryUsers_Error].
Qed.

(** Instance: the error of the package's own test. *)
Lemma DatabaseError_Error_exact_witness :
  Error (Ref 1) 2
    [OerrorString "connection timeout";
     ODatabaseError
       (mkDatabaseError "SELECT" "users" "SELECT * FROM users WHERE id = ?"
          (Ref 0) (mkTime 2023 10 5 10 30 0 0) true)]
  = Ok ("database error [SELECT on users]: connection timeout (retryable: true, timestamp: 2023-10-05T10:30:00Z)",
        [OerrorString "connection timeout";
         ODatabaseError
           (mkDatabaseError "SELECT" "users" "SELECT * FROM users WHERE id = ?"
              (Ref 0) (mkTime 2023 10 5 10 30 0 0) true)]).
Proof.
  apply (proj1 DatabaseError_Error_exact 1 _ 1
           (mkDatabaseError "SELECT" "users" "SELECT * FROM users WHERE id = ?"
              (Ref 0) (mkTime 2023 10 5 10 30 0 0) true) "connection timeout");
    reflexivity.
Defined.

(** C9. [Error()] has no side effect: whatever value it is called on, if
    it returns then the heap is the one it started from; and for a
    [DatabaseError] whose cause prints, the call returns, the object still
    holds the same six fields afterwards, a second call returns the same
    string, and so does the call on any [DatabaseError] with the same
    [Operation], [Table], [Err], [Timestamp] and [Retryable], whatever its
    [Query]. *)
Theorem Error_has_no_side_effect :
  (forall e g h s h', Error e g h = Ok (s, h') -> h' = h)
  /\ (forall g h a e cause,
        nth_error h a = Some (ODatabaseError e) ->
        cause_text g h (Err e) cause ->
        exists s h',
          Error (Ref a) (S g) h = Ok (s, h')
          /\ nth_error h' a = Some (ODatabaseError e)
          /\ Error (Ref a) (S g) h' = Ok (s, h')
          /\ forall a2 e2,
              nth_error h' a2 = Some (ODatabaseError e2) ->
              Operation e2 = Operation e -> Table e2 = Table e ->
              Err e2 = Err e -> Timestamp e2 = Timestamp e ->
              Retryable e2 = Retryable e ->
              Error (Ref a2) (S g) h' = Ok (s, h')).
Proof.
  split; [exact Error_frame|].
  intros g h a e cause Ha Hc.
  pose proof (Error_DatabaseError g h a e cause Ha Hc) as E.
  eexists _, h. split; [exact E|]. split; [exact Ha|]. split; [exact E|].
  intros a2 e2 Ha2 Eo Et Ee Es Er.
  rewrite <- Eo, <- Et, <- Es, <- Er.
  apply Error_DatabaseError; [exact Ha2|]. rewrite Ee. exact Hc.
Qed.

(** Instance: rendering the error of the package's test leaves it as it
    was. *)
Lemma Error_has_no_side_effect_witness :
  exists s h',
    Error (Ref 1) 2
      [OerrorString "connection timeout";
       ODatabaseError
         (mkDatabaseError "SELECT" "users" "SELECT * FROM users WHERE id = ?"
            (Ref 0) (mkTime 2023 10 5 10 30 0 0) true)]
    = Ok (s, h')
    /\ nth_error h' 1
       = Some (ODatabaseError
                 (mkDatabaseError "SELECT" "users"
                    "SELECT * FROM users WHERE id = ?"
                    (Ref 0) (mkTime 2023 10 5 10 30 0 0) true)).
Proof.
  destruct (proj2 Error_has_no_side_effect 1
              [OerrorString "connection timeout";
               ODatabaseError
                 (mkDatabaseError "SELECT" "users"
                    "SELECT * FROM users WHERE id = ?"
                    (Ref 0) (mkTime 2023 10 5 10 30 0 0) true)]
              1 _ "connection timeout" eq_refl eq_refl)
    as (s & h' & E & F & _).
  exists s, h'. split; [exact E | exact F].
Defined.

(** ** Chains and errors.As *)

Lemma dyn_type_in g h e :
  e = Nil \/ type_in h e <> None ->
  dyn_type e g h = Ok (type_in h e, h).
Proof.
  destruct e as [|a|n]; cbn; intros V; try reflexivity.
  unfold bind, load. destruct (nth_error h a); [reflexivity|].
  destruct V as [V|V]; [discriminate | contradiction].
Qed.

Lemma has_Unwrap_cause_of o :
  has_Unwrap (type_of_object o)
  = match cause_of o with Some _ => true | None => false end.
Proof. destruct o; reflexivity. Qed.

Lemma implements_unwrapper_in g h e :
  e = Nil \/ type_in h e <> None ->
  implements_unwrapper e g h
  = Ok (match cause_in h e with Some _ => true | None => false end, h).
Proof.
  intros V. unfold implements_unwrapper.
  rewrite (bind_Ok _ _ _ _ _ _ (dyn_type_in g h e V)).
  destruct e as [|a|n]; cbn; try reflexivity.
  destruct (nth_error h a) as [o|]; cbn; [|reflexivity].
  rewrite has_Unwrap_cause_of. reflexivity.
Qed.

Lemma Unwrap_cause_in g h e c :
  cause_in h e = Some c -> Unwrap e g h = Ok (c, h).
Proof.
  destruct e as [|a|n]; cbn; try discriminate.
  unfold bind, load. destruct (nth_error h a) as [o|]; [|discriminate].
  destruct o; cbn; intros E; try discriminate; injection E as <-; reflexivity.
Qed.

Lemma cause_in_typed h e c : cause_in h e = Some c -> type_in h e <> None.
Proof.
  destruct e as [|a|n]; cbn; try discriminate.
  destruct (nth_error h a); cbn; discriminate.
Qed.

Lemma chain_Nil_inv h l : chain h Nil l -> l = [].
Proof. inversion 1; subst; [reflexivity | discriminate | discriminate]. Qed.

(** The loop of [errors.As] returns the first chain element of the target
    type. *)
Lemma as_loop_chain h T e l :
  chain h e l -> e <> Nil ->
  forall g g0, List.length l <= g ->
    as_loop g e T g0 h = Ok (find (has_type h T) l, h).
Proof.
  induction 1 as [|e t Ht Hc|e c l Hc Hl IH]; intros Hne g g0 Hg.
  - contradiction.
  - destruct g as [|g]; [cbn in Hg; lia|]. cbn [as_loop find].
    assert (V : e = Nil \/ type_in h e <> None) by (right; congruence).
    rewrite (bind_Ok _ _ _ _ _ _ (dyn_type_in g0 h e V)).
    unfold has_type. rewrite Ht.
    destruct (type_eqb t T); [reflexivity|].
    rewrite (bind_Ok _ _ _ _ _ _ (implements_unwrapper_in g0 h e V)), Hc.
    reflexivity.
  - destruct g as [|g]; [cbn in Hg; lia|]. cbn [as_loop find].
    pose proof (cause_in_typed _ _ _ Hc) as Ty.
    assert (V : e = Nil \/ type_in h e <> None) by (right; exact Ty).
    rewrite (bind_Ok _ _ _ _ _ _ (dyn_type_in g0 h e V)).
    pose proof (implements_unwrapper_in g0 h e V) as Ei.
    unfold has_type at 1.
    destruct (type_in h e) as [t|]; [|contradiction].
    destruct (type_eqb t T); [reflexivity|].
    rewrite (bind_Ok _ _ _ _ _ _ Ei), Hc.
    rewrite (bind_Ok _ _ _ _ _ _ (Unwrap_cause_in g0 h e c Hc)).
    destruct c as [|a|n].
    + rewrite (chain_Nil_inv _ _ Hl). reflexivity.
    + apply IH; [discriminate | cbn in Hg; lia].
    + apply IH; [discriminate | cbn in Hg; lia].
Qed.

Lemma As_chain h T e l g :
  chain h e l -> List.length l <= g ->
  As e T g h = Ok (find (has_type h T) l, h).
Proof.
  intros C Hg. destruct e as [|a|n].
  - rewrite (chain_Nil_inv _ _ C). reflexivity.
  - apply (as_loop_chain h T _ l C); [discriminate | exact Hg].
  - apply (as_loop_chain h T _ l C); [discriminate | exact Hg].
Qed.

(** C3. [errors.As] with a [*DatabaseError] target (more generally, any
    pointer type) returns the first element of the cause chain that has
    that type, or nothing when no element has it; and for every limit the
    error of [QueryUsers] is itself extracted, the [DatabaseError] it points
    to holding Operation "SELECT", Table "users", Retryable true and Query
    "SELECT * FROM users LIMIT <limit>". *)
Theorem As_extracts_first_of_type :
  (forall h e l T g,
      chain h e l -> List.length l <= g ->
      As e T g h = Ok (find (has_type h T) l, h))
  /\ (forall now limit g h,
        exists a d h',
          QueryUsers now limit g h = Ok (Ref a, h')
          /\ As (Ref a) T_DatabaseError (S g) h' = Ok (Some (Ref a), h')
          /\ nth_error h' a = Some (ODatabaseError d)
          /\ Operation d = "SELECT"
          /\ Table d = "users"
          /\ Retryable d = true
          /\ Query d = "SELECT * FROM users LIMIT " ++ itoa limit).
Proof.
  split; [intros; apply As_chain; assumption|].
  intros now limit g h. eexists _, _, _.
  split; [apply QueryUsers_eq|].
  assert (N : forall l : heap,
             nth_error (h ++ OerrorString "connection timeout" :: l)%list
               (S (List.length h)) = nth_error l 0).
  { intros l. rewrite nth_error_app2 by lia.
    replace (S (List.length h) - List.length h) with 1 by lia. reflexivity. }
  split.
  - cbn [As]. destruct g as [|g]; cbn [as_loop];
      unfold dyn_type, bind, load; rewrite N; reflexivity.
  - split; [rewrite N; reflexivity|]. repeat split.
Qed.

(** Instance: a wrapper over a [DatabaseError] over a leaf; the
    [DatabaseError] is the second element of the chain and the first of
    its type. *)
Lemma As_extracts_first_of_type_witness :
  As (Ref 2) T_DatabaseError 3
    [OerrorString "connection timeout";
     ODatabaseError
       (mkDatabaseError "SELECT" "users" "" (Ref 0)
          (mkTime 2023 10 5 10 30 0 0) true);
     OwrapError (mkWrapError "query failed" (Ref 1))]
  = Ok (Some (Ref 1),
        [OerrorString "connection timeout";
         ODatabaseError
           (mkDatabaseError "SELECT" "users" "" (Ref 0)
              (mkTime 2023 10 5 10 30 0 0) true);
         OwrapError (mkWrapError "query failed" (Ref 1))]).
Proof.
  refine (proj1 As_extracts_first_of_type
            [OerrorString "connection timeout";
             ODatabaseError
               (mkDatabaseError "SELECT" "users" "" (Ref 0)
                  (mkTime 2023 10 5 10 30 0 0) true);
             OwrapError (mkWrapError "query failed" (Ref 1))]
            (Ref 2) [Ref 2; Ref 1; Ref 0] T_DatabaseError 3 _ _).
  - apply chain_step with (c := Ref 1); [reflexivity|].
    apply chain_step with (c := Ref 0); [reflexivity|].
    apply chain_leaf with (t := T_errorString); reflexivity.
  - cbn. lia.
Defined.

(** ** Sentinels *)

Lemma sentinels_allocated h S :
  initialized h -> In S sentinels ->
  exists s txt, S = Ref s /\ nth_error h s = Some (OerrorString txt).
Proof.
  intros I HS. cbn in HS.
  destruct HS as [<-|[<-|[<-|[<-|[<-|[]]]]]];
    eexists _, _; (split; [reflexivity|]); apply I; reflexivity.
Qed.

Lemma wraps_Error h s txt e n g :
  nth_error h s = Some (OerrorString txt) ->
  wraps h (Ref s) e n ->
  exists t, Error e (S g) h = Ok (t, h).
Proof.
  intros Hs W. destruct W as [|a w n Ha _].
  - eexists. apply Error_errorString, Hs.
  - eexists. apply Error_wrapError, Ha.
Qed.

Lemma Errorf_wrap g h t a txt :
  Error (Ref a) g h = Ok (txt, h) ->
  Errorf "%s: %w" [OpString t; OpError (Ref a)] g h
  = Ok (Ref (List.length h),
        (h ++ [OwrapError (mkWrapError (t ++ ": " ++ txt) (Ref a))])%list).
Proof.
  intros E. unfold Errorf, Errorf_with.
  assert (Ev : eval_operands Error [OpString t; OpError (Ref a)] g h
               = Ok ([ArgString t; ArgError txt], h)).
  { cbn [eval_operands eval_operand]. unfold bind at 1, ret at 1.
    rewrite (bind_Ok _ _ _ _ _ _
               (bind_Ok _ _ _ _ _ _
                  (eval_operand_error g h (Ref a) txt ltac:(discriminate) E))).
    reflexivity. }
  rewrite (bind_Ok _ _ _ _ _ _ Ev).
  cbn. rewrite append_empty_r. reflexivity.
Qed.

Lemma wrap_all_wraps s txt texts :
  forall e n g h,
    nth_error h s = Some (OerrorString txt) ->
    wraps h (Ref s) e n ->
    exists e' l,
      wrap_all texts e (S g) h = Ok (e', (h ++ l)%list)
      /\ wraps (h ++ l)%list (Ref s) e' (List.length texts + n).
Proof.
  induction texts as [|t texts IH]; intros e n g h Hs W.
  - exists e, []. rewrite app_nil_r. split; [reflexivity | exact W].
  - destruct (wraps_Error h s txt e n g Hs W) as [te Ee].
    destruct (wraps_Ref _ _ _ _ W) as [a ->].
    cbn [wrap_all].
    rewrite (bind_Ok _ _ _ _ _ _ (Errorf_wrap (S g) h t a te Ee)).
    set (o := OwrapError (mkWrapError (t ++ ": " ++ te) (Ref a))).
    assert (W' : wraps (h ++ [o])%list (Ref s) (Ref (List.length h)) (S n)).
    { apply wraps_step with (w := mkWrapError (t ++ ": " ++ te) (Ref a)).
      - apply nth_error_new.
      - apply wraps_ext, W. }
    destruct (IH _ _ g _ (nth_error_ext h [o] s _ Hs) W') as (e' & l & E' & W'').
    exists e', (o :: l). rewrite <- app_assoc in E', W''. cbn [app] in E', W''.
    split; [exact E'|].
    replace (List.length (t :: texts) + n) with (List.length texts + S n)
      by (cbn; lia).
    exact W''.
Qed.

(** C2. Matching is by identity. For every sentinel of package utils,
    wrapped in any number of [fmt.Errorf("%s: %w", ...)] layers (none
    included), [errors.Is] finds that sentinel and finds no other one; the
    error of [FindUserByEmail("")] matches [ErrUserNotFound] and no other
    sentinel; two [errors.New] with the same text give different values
    that print alike and do not match each other; and a fresh
    [errors.New("user not found")] does not match [ErrUserNotFound]. *)
Theorem sentinel_matching_by_identity :
  (forall sentinel other texts g h,
      In sentinel sentinels -> In other sentinels -> other <> sentinel ->
      initialized h -> List.length texts < g ->
      exists e h',
        wrap_all texts sentinel g h = Ok (e, h')
        /\ Is e sentinel g h' = Ok (true, h')
        /\ Is e other g h' = Ok (false, h'))
  /\ (forall other g h,
        In other sentinels -> other <> ErrUserNotFound ->
        initialized h -> 2 <= g ->
        exists e h',
          FindUserByEmail "" g h = Ok ((None, e), h')
          /\ Is e ErrUserNotFound g h' = Ok (true, h')
          /\ Is e other g h' = Ok (false, h'))
  /\ (forall text g h,
        exists e1 e2 h',
          (e1 <- New text ;; e2 <- New text ;; ret (e1, e2)) g h
          = Ok ((e1, e2), h')
          /\ Error e1 (S g) h' = Ok (text, h')
          /\ Error e2 (S g) h' = Ok (text, h')
          /\ e1 <> e2
          /\ Is e1 e2 (S g) h' = Ok (false, h')
          /\ Is e2 e1 (S g) h' = Ok (false, h'))
  /\ (forall g h,
        initialized h ->
        exists e h',
          New "user not found" g h = Ok (e, h')
          /\ Error e (S g) h' = Ok ("user not found", h')
          /\ Is e ErrUserNotFound (S g) h' = Ok (false, h')).
Proof.
  split; [|split; [|split]].
  - intros S T texts g h HS HT Hne I Hg.
    destruct (sentinels_allocated h S I HS) as (s & txs & -> & Hs).
    destruct (sentinels_allocated h T I HT) as (t & txt & -> & Ht).
    destruct g as [|g]; [lia|].
    destruct (wrap_all_wraps s txs texts (Ref s) 0 g h Hs (wraps_here _ _))
      as (e & l & E & W).
    exists e, (h ++ l)%list. split; [exact E|].
    destruct (wraps_Ref _ _ _ _ W) as [a ->]. rewrite !Is_Ref.
    split.
    + apply (is_loop_wraps_true _ _ _ _ W). lia.
    + apply (is_loop_wraps_false _ s t _ _ txs txt W).
      * apply nth_error_ext, Hs.
      * apply nth_error_ext, Ht.
      * congruence.
      * lia.
  - intros T g h HT Hne I Hg.
    destruct (sentinels_allocated h T I HT) as (t & txt & -> & Ht).
    destruct g as [|g]; [lia|].
    pose proof (I 5 _ eq_refl) as H5.
    unfold FindUserByEmail. cbn [String.eqb].
    rewrite (bind_Ok _ _ _ _ _ _ (Errorf_sentinel g h 5 _ H5)).
    eexists _, _. split; [reflexivity|].
    assert (W : wraps (h ++ [OwrapError
                         (mkWrapError ("email cannot be empty: "
                                       ++ "user not found") (Ref 5))])%list
                  (Ref 5) (Ref (List.length h)) 1).
    { econstructor; [apply nth_error_new|]. constructor. }
    unfold ErrUserNotFound in *. rewrite !Is_Ref. split.
    + apply (is_loop_wraps_true _ _ _ _ W). lia.
    + apply (is_loop_wraps_false _ 5 t _ _ "user not found" txt W).
      * apply nth_error_ext, H5.
      * apply nth_error_ext, Ht.
      * congruence.
      * lia.
  - intros text g h.
    exists (Ref (List.length h)), (Ref (S (List.length h))),
      (h ++ [OerrorString text; OerrorString text])%list.
    assert (N0 : nth_error (h ++ [OerrorString text; OerrorString text])%list
                   (List.length h) = Some (OerrorString text)).
    { rewrite nth_error_app2, Nat.sub_diag by lia. reflexivity. }
    assert (N1 : nth_error (h ++ [OerrorString text; OerrorString text])%list
                   (S (List.length h)) = Some (OerrorString text)).
    { rewrite nth_error_app2 by lia.
      replace (S (List.length h) - List.length h) with 1 by lia. reflexivity. }
    split.
    { unfold New, new, bind, ret.
      rewrite length_app, Nat.add_1_r, <- app_assoc. reflexivity. }
    split; [apply Error_errorString, N0|].
    split; [apply Error_errorString, N1|].
    split; [intros C; injection C; lia|].
    split.
    + rewrite Is_Ref. cbn [is_loop].
      replace (error_eqb (Ref (List.length h)) (Ref (S (List.length h))))
        with false by (symmetry; apply Nat.eqb_neq; lia).
      rewrite (bind_Ok _ _ _ _ _ _ (implements_unwrapper_Ref _ _ _ _ N0)).
      reflexivity.
    + rewrite Is_Ref. cbn [is_loop].
      replace (error_eqb (Ref (S (List.length h))) (Ref (List.length h)))
        with false by (symmetry; apply Nat.eqb_neq; lia).
      rewrite (bind_Ok _ _ _ _ _ _ (implements_unwrapper_Ref _ _ _ _ N1)).
      reflexivity.
  - intros g h I.
    pose proof (initialized_length h I) as HL.
    eexists _, _. split; [reflexivity|].
    split; [apply Error_errorString, nth_error_new|].
    unfold ErrUserNotFound. rewrite Is_Ref. cbn [is_loop].
    replace (error_eqb (Ref (List.length h)) (Ref 5))
      with false by (symmetry; apply Nat.eqb_neq; lia).
    rewrite (bind_Ok _ _ _ _ _ _
               (implements_unwrapper_Ref _ _ _ _ (nth_error_new h _))).
    reflexivity.
Qed.

(** Instance: [ErrUserNotFound] under three layers, as in
    [TestSentinelErrors_InWrappedChain], against [ErrDuplicateEmail]. *)
Lemma sentinel_matching_by_identity_witness :
  exists e h',
    wrap_all ["database layer"; "service layer"; "handler layer"]
      ErrUserNotFound 4 init_heap = Ok (e, h')
    /\ Is e ErrUserNotFound 4 h' = Ok (true, h')
    /\ Is e ErrDuplicateEmail 4 h' = Ok (false, h').
Proof.
  apply (proj1 sentinel_matching_by_identity ErrUserNotFound ErrDuplicateEmail
           ["database layer"; "service layer"; "handler layer"] 4 init_heap).
  - cbn. auto.
  - cbn. auto.
  - discriminate.
  - exact initialized_init.
  - cbn. lia.
Defined.

(** ** Traversal only reads the heap *)

Lemma dyn_type_reads e : reads (dyn_type e).
Proof.
  destruct e as [|a|n]; cbn [dyn_type]; try apply refines_ret.
  apply refines_bind; [apply refines_load | intros; apply refines_ret].
Qed.

Lemma implements_unwrapper_reads e : reads (implements_unwrapper e).
Proof.
  apply refines_bind; [apply dyn_type_reads|].
  intros [t|]; apply refines_ret.
Qed.

Lemma Unwrap_reads e : reads (Unwrap e).
Proof.
  destruct e as [|a|n]; cbn [Unwrap];
    try (apply refines_stuck; discriminate).
  apply refines_bind; [apply refines_load|].
  intros [s|w|d|v|p]; try apply refines_ret; apply refines_stuck; discriminate.
Qed.

Lemma Unwramp_reads e : reads (Unwramp e).
Proof.
  apply refines_bind; [apply implements_unwrapper_reads|].
  intros [|]; [apply Unwrap_reads | apply refines_ret].
Qed.

Lemma WalkChain_loop_refines g :
  forall g2 acc e, g <= g2 ->
    refines (WalkChain_loop g acc e) (WalkChain_loop g2 acc e).
Proof.
  induction g as [|g IH]; intros g2 acc e Hg.
  { apply refines_stuck. discriminate. }
  destruct g2 as [|g2]; [lia|]. cbn [WalkChain_loop].
  assert (B : forall x, x <> Nil ->
    refines
      (s <- Error x ;;
       ok <- implements_unwrapper x ;;
       (if ok
        then next <- Unwrap x ;; WalkChain_loop g (acc ++ [s])%list next
        else ret (acc ++ [s])%list))
      (s <- Error x ;;
       ok <- implements_unwrapper x ;;
       (if ok
        then next <- Unwrap x ;; WalkChain_loop g2 (acc ++ [s])%list next
        else ret (acc ++ [s])%list))).
  { intros x _. apply refines_bind; [apply Error_reads|]. intros s.
    apply refines_bind; [apply implements_unwrapper_reads|].
    intros [|]; [|apply refines_ret].
    apply refines_bind; [apply Unwrap_reads|].
    intros next. apply IH. lia. }
  destruct e as [|a|n]; [apply refines_ret | |]; apply B; discriminate.
Qed.

Lemma WalkChain_reads e : reads (WalkChain e).
Proof.
  intros g h r h' Eq. unfold WalkChain in *.
  destruct (WalkChain_loop_refines g g [] e (le_n g) _ _ _ _ Eq) as [-> _].
  split; [reflexivity|].
  intros g' l Hg.
  apply (WalkChain_loop_refines g g' [] e Hg _ _ _ _ Eq). exact Hg.
Qed.

(** The levels collected so far are a prefix of the result. *)
Lemma WalkChain_loop_acc g :
  forall acc e G h l h',
    WalkChain_loop g acc e G h = Ok (l, h') ->
    exists l',
      l = (acc ++ l')%list
      /\ forall acc', WalkChain_loop g acc' e G h = Ok ((acc' ++ l')%list, h').
Proof.
  induction g as [|g IH]; intros acc e G h l h' Eq; [discriminate|].
  cbn [WalkChain_loop] in *.
  assert (B : forall x,
    (s <- Error x ;;
     ok <- implements_unwrapper x ;;
     (if ok
      then next <- Unwrap x ;; WalkChain_loop g (acc ++ [s])%list next
      else ret (acc ++ [s])%list)) G h = Ok (l, h') ->
    exists l',
      l = (acc ++ l')%list
      /\ forall acc',
          (s <- Error x ;;
           ok <- implements_unwrapper x ;;
           (if ok
            then next <- Unwrap x ;; WalkChain_loop g (acc' ++ [s])%list next
            else ret (acc' ++ [s])%list)) G h = Ok ((acc' ++ l')%list, h')).
  { intros x Ex.
    apply bind_Ok_inv in Ex. destruct Ex as (s & h1 & E1 & Ex).
    apply bind_Ok_inv in Ex. destruct Ex as (ok & h2 & E2 & Ex).
    destruct ok.
    - apply bind_Ok_inv in Ex. destruct Ex as (next & h3 & E3 & Ex).
      destruct (IH _ _ _ _ _ _ Ex) as (l' & -> & Hl).
      exists (s :: l'). split; [rewrite <- app_assoc; reflexivity|].
      intros acc'.
      rewrite (bind_Ok _ _ _ _ _ _ E1), (bind_Ok _ _ _ _ _ _ E2),
        (bind_Ok _ _ _ _ _ _ E3).
      destruct (IH _ _ _ _ _ _ (Hl (acc' ++ [s])%list)) as (l2 & El2 & _).
      rewrite Hl, <- app_assoc. reflexivity.
    - injection Ex as <- <-. exists [s]. split; [reflexivity|].
      intros acc'.
      rewrite (bind_Ok _ _ _ _ _ _ E1), (bind_Ok _ _ _ _ _ _ E2).
      reflexivity. }
  destruct e as [|a|n]; [|apply B, Eq|apply B, Eq].
  injection Eq as <- <-. exists []. split; [rewrite app_nil_r; reflexivity|].
  intros acc'. rewrite app_nil_r. reflexivity.
Qed.

(** One turn of the loop on a [*wrapError]. *)
Lemma WalkChain_loop_wrapError g acc a w G h :
  nth_error h a = Some (OwrapError w) ->
  WalkChain_loop (S g) acc (Ref a) (S G) h
  = WalkChain_loop g (acc ++ [msg w])%list (err w) (S G) h.
Proof.
  intros Ha. cbn [WalkChain_loop].
  rewrite (bind_Ok _ _ _ _ _ _ (Error_wrapError G h a w Ha)).
  rewrite (bind_Ok _ _ _ _ _ _ (implements_unwrapper_Ref (S G) h a _ Ha)).
  cbn [type_of_object has_Unwrap].
  rewrite (bind_Ok _ _ _ _ _ _ (Unwrap_wrapError (S G) h a w Ha)).
  reflexivity.
Qed.

(** ** ProcessUserData *)

(** [fmt.Errorf] with a scalar operand and one wrapped error. *)
Lemma Errorf_wraps_one g h f (o : operand) (a : arg) e t s :
  eval_operand Error o g h = Ok (a, h) ->
  e <> Nil -> Error e g h = Ok (t, h) ->
  doPrintf true f [a; ArgError t] = Some s ->
  wrappedErrs f [o; OpError e] = [e] ->
  Errorf f [o; OpError e] g h
  = Ok (Ref (List.length h), (h ++ [OwrapError (mkWrapError s e)])%list).
Proof.
  intros Eo Hne Ee Ep Ew. unfold Errorf, Errorf_with.
  assert (Ev : eval_operands Error [o; OpError e] g h
               = Ok ([a; ArgError t], h)).
  { cbn [eval_operands]. rewrite (bind_Ok _ _ _ _ _ _ Eo).
    rewrite (bind_Ok _ _ _ _ _ _
               (bind_Ok _ _ _ _ _ _ (eval_operand_error g h e t Hne Ee))).
    reflexivity. }
  rewrite (bind_Ok _ _ _ _ _ _ Ev), Ep, Ew. reflexivity.
Qed.

Section ProcessUserData_chain.

Variable os_ReadFile : string -> M error.
Variables (userID : Z) (G : nat) (h h1 : heap) (oserr : error).
Variables (t : string) (L : list string).

Hypothesis Hread : os_ReadFile (config_file userID) (3 + G) h = Ok (oserr, h1).
Hypothesis Hne : oserr <> Nil.
Hypothesis Hwalk : WalkChain oserr G h1 = Ok ((t :: L)%list, h1).

Lemma oserr_Error : Error oserr G h1 = Ok (t, h1).
Proof.
  unfold WalkChain in Hwalk. destruct G as [|G']; [discriminate|].
  cbn [WalkChain_loop] in Hwalk.
  assert (B : (s <- Error oserr ;;
               ok <- implements_unwrapper oserr ;;
               (if ok
                then next <- Unwrap oserr ;;
                     WalkChain_loop G' ([] ++ [s])%list next
                else ret ([] ++ [s])%list)) (S G') h1
              = Ok ((t :: L)%list, h1))
    by (destruct oserr; [contradiction | exact Hwalk | exact Hwalk]).
  apply bind_Ok_inv in B. destruct B as (s & hs & Es & B).
  pose proof (Error_frame _ _ _ _ _ Es) as ->.
  apply bind_Ok_inv in B. destruct B as (ok & hk & _ & B).
  destruct ok.
  - apply bind_Ok_inv in B. destruct B as (next & hn & _ & B).
    apply WalkChain_loop_acc in B. destruct B as (l' & El & _).
    cbn in El. injection El as <- _. exact Es.
  - unfold ret in B. cbn [app] in B. injection B as E1 _ _.
    rewrite <- E1. exact Es.
Qed.

Lemma ProcessUserData_eq :
  ProcessUserData os_ReadFile userID (3 + G) h
  = Ok (Ref (S (S (List.length h1))), (wrapped_heap h1 userID oserr t)).
Proof.
  pose proof oserr_Error as Et.
  destruct (Error_reads _ _ _ _ _ Et) as [_ Em].
  pose proof (Em (3 + G) [] ltac:(lia)) as Et3. rewrite app_nil_r in Et3.
  assert (Ef : Sprintf "user_%d.json" [OpInt userID] (3 + G) h
               = Ok ((config_file userID), h)) by reflexivity.
  assert (E3 : readConfigFile os_ReadFile (config_file userID) (3 + G) h
               = Ok (Ref (List.length h1),
                     (h1 ++ [OwrapError (mkWrapError (read_text userID t) oserr)])%list)).
  { unfold readConfigFile. rewrite (bind_Ok _ _ _ _ _ _ Hread).
    assert (X : Errorf "failed to read config file %s: %w"
                  [OpString (config_file userID); OpError oserr] (3 + G) h1
                = Ok (Ref (List.length h1),
                      (h1 ++ [OwrapError (mkWrapError (read_text userID t) oserr)])%list)).
    { apply (Errorf_wraps_one _ _ _ _ (ArgString (config_file userID)) _ t);
        [reflexivity | exact Hne | exact Et3 | | reflexivity].
      cbn. rewrite append_empty_r. reflexivity. }
    destruct oserr; [contradiction | exact X | exact X]. }
  assert (E2 : loadUserConfig os_ReadFile userID (3 + G) h
               = Ok (Ref (S (List.length h1)),
                     ((h1 ++ [OwrapError (mkWrapError (read_text userID t) oserr)])
                      ++ [OwrapError
                            (mkWrapError (load_text userID t) (Ref (List.length h1)))])%list)).
  { unfold loadUserConfig.
    rewrite (bind_Ok _ _ _ _ _ _ Ef), (bind_Ok _ _ _ _ _ _ E3).
    rewrite (Errorf_wraps_one _ _ _ _ (ArgInt userID) _ (read_text userID t) (load_text userID t));
      [rewrite length_app, Nat.add_1_r; reflexivity | reflexivity
      | discriminate | | | reflexivity].
    - exact (Error_wrapError _ _ _ (mkWrapError (read_text userID t) oserr)
               (nth_error_new h1 _)).
    - cbn. rewrite append_empty_r. reflexivity. }
  unfold ProcessUserData. rewrite (bind_Ok _ _ _ _ _ _ E2).
  rewrite (Errorf_wraps_one _ _ _ _ (ArgInt userID) _ (load_text userID t) (process_text userID t));
    [ | reflexivity | discriminate | | | reflexivity].
  - unfold wrapped_heap. rewrite !length_app. cbn [List.length].
    rewrite <- !app_assoc. cbn [app].
    replace (List.length h1 + 1 + 1) with (S (S (List.length h1))) by lia.
    reflexivity.
  - refine (Error_wrapError _ _ _
              (mkWrapError (load_text userID t) (Ref (List.length h1))) _).
    replace (S (List.length h1))
      with (List.length (h1 ++ [OwrapError (mkWrapError (read_text userID t) oserr)])%list)
      by (rewrite length_app, Nat.add_1_r; reflexivity).
    apply nth_error_new.
  - cbn. rewrite append_empty_r. reflexivity.
Qed.

Lemma ProcessUserData_WalkChain :
  WalkChain (Ref (S (S (List.length h1)))) (3 + G) (wrapped_heap h1 userID oserr t)
  = Ok (((process_text userID t) :: (load_text userID t) :: (read_text userID t) :: t :: L)%list, (wrapped_heap h1 userID oserr t)).
Proof.
  assert (N3 : nth_error (wrapped_heap h1 userID oserr t) (List.length h1)
               = Some (OwrapError (mkWrapError (read_text userID t) oserr))).
  { unfold wrapped_heap. rewrite nth_error_app2, Nat.sub_diag by lia. reflexivity. }
  assert (N2 : nth_error (wrapped_heap h1 userID oserr t) (S (List.length h1))
               = Some (OwrapError (mkWrapError (load_text userID t) (Ref (List.length h1))))).
  { unfold wrapped_heap. rewrite nth_error_app2 by lia.
    replace (S (List.length h1) - List.length h1) with 1 by lia.
    reflexivity. }
  assert (N1 : nth_error (wrapped_heap h1 userID oserr t) (S (S (List.length h1)))
               = Some (OwrapError
                         (mkWrapError (process_text userID t) (Ref (S (List.length h1)))))).
  { unfold wrapped_heap. rewrite nth_error_app2 by lia.
    replace (S (S (List.length h1)) - List.length h1) with 2 by lia.
    reflexivity. }
  unfold WalkChain. change (3 + G) with (S (S (S G))).
  rewrite (WalkChain_loop_wrapError _ _ _ _ _ _ N1). cbn [msg err app].
  rewrite (WalkChain_loop_wrapError _ _ _ _ _ _ N2). cbn [msg err app].
  rewrite (WalkChain_loop_wrapError _ _ _ _ _ _ N3). cbn [msg err app].
  unfold WalkChain in Hwalk.
  destruct (WalkChain_loop_refines G G [] oserr (le_n G) _ _ _ _ Hwalk)
    as [_ R].
  pose proof (R (S (S (S G)))
                [OwrapError (mkWrapError (read_text userID t) oserr);
                 OwrapError (mkWrapError (load_text userID t) (Ref (List.length h1)));
                 OwrapError (mkWrapError (process_text userID t) (Ref (S (List.length h1))))]
                ltac:(lia)) as R3.
  destruct (WalkChain_loop_acc _ _ _ _ _ _ _ R3) as (l' & El & Hacc).
  cbn [app] in El. subst l'.
  exact (Hacc [(process_text userID t); (load_text userID t); (read_text userID t)]).
Qed.

End ProcessUserData_chain.

(** C5 (as amended). [ProcessUserData] wraps three times, not twice: when
    [os.ReadFile] fails with an error whose own chain walks as [t :: L],
    [WalkChain] of the result yields the texts of the three wrappers, outer
    first, followed by [t :: L] - that is [4 + length L] levels - and its
    last element is the last element of the OS error's chain. *)
Theorem ProcessUserData_chain_levels :
  forall (os_ReadFile : string -> M error) userID G h h1 oserr t L,
    os_ReadFile ("user_" ++ itoa userID ++ ".json") (3 + G) h = Ok (oserr, h1) ->
    oserr <> Nil ->
    WalkChain oserr G h1 = Ok ((t :: L)%list, h1) ->
    exists e h2 levels,
      ProcessUserData os_ReadFile userID (3 + G) h = Ok (e, h2)
      /\ WalkChain e (3 + G) h2 = Ok (levels, h2)
      /\ levels
         = ("failed to process user " ++ itoa userID
            ++ ": failed to load config for user " ++ itoa userID
            ++ ": failed to read config file user_" ++ itoa userID
            ++ ".json: " ++ t)
           :: ("failed to load config for user " ++ itoa userID
               ++ ": failed to read config file user_" ++ itoa userID
               ++ ".json: " ++ t)
           :: ("failed to read config file user_" ++ itoa userID
               ++ ".json: " ++ t)
           :: t :: L
      /\ List.length levels = 4 + List.length L
      /\ last levels "" = last (t :: L)%list "".
Proof.
  intros rf userID G h h1 oserr t L Hread Hne Hwalk.
  eexists _, _, _.
  split; [exact (ProcessUserData_eq rf userID G h h1 oserr t L Hread Hne Hwalk)|].
  split; [exact (ProcessUserData_WalkChain userID G h1 oserr t L Hwalk)|].
  split.
  - unfold process_text, load_text, read_text, config_file.
    cbn [append]. rewrite !append_assoc. reflexivity.
  - split; [reflexivity|]. reflexivity.
Qed.

(** What [os.ReadFile] leaves for a missing [user_999.json], and how its
    error walks: the [*PathError], then the [Errno]. *)
Lemma ReadFile_missing_walk G :
  3 <= G ->
  WalkChain (Ref 10) G
    (init_heap
     ++ [OPathError (mkPathError "open" "user_999.json" (Sys ENOENT))])%list
  = Ok (["open user_999.json: no such file or directory";
         "no such file or directory"],
        (init_heap
         ++ [OPathError (mkPathError "open" "user_999.json" (Sys ENOENT))])%list).
Proof.
  intros HG.
  assert (E3 : WalkChain (Ref 10) 3
                 (init_heap
                  ++ [OPathError
                        (mkPathError "open" "user_999.json" (Sys ENOENT))])%list
               = Ok (["open user_999.json: no such file or directory";
                      "no such file or directory"],
                     (init_heap
                      ++ [OPathError
                            (mkPathError "open" "user_999.json"
                               (Sys ENOENT))])%list))
    by reflexivity.
  destruct (WalkChain_reads _ _ _ _ _ E3) as [_ R].
  specialize (R G [] HG). rewrite app_nil_r in R. exact R.
Qed.

(** Instance: user 999 with no config file, on the heap of a freshly
    started program; the chain has five levels. *)
Lemma ProcessUserData_chain_levels_witness :
  exists e h2 levels,
    ProcessUserData ReadFile_missing 999 6 init_heap = Ok (e, h2)
    /\ WalkChain e 6 h2 = Ok (levels, h2)
    /\ List.length levels = 5
    /\ last levels "" = "no such file or directory".
Proof.
  destruct (ProcessUserData_chain_levels ReadFile_missing 999 3 init_heap
              (init_heap
               ++ [OPathError
                     (mkPathError "open" "user_999.json" (Sys ENOENT))])%list
              (Ref 10) "open user_999.json: no such file or directory"
              ["no such file or directory"])
    as (e & h2 & levels & E1 & E2 & E3 & E4 & E5).
  - reflexivity.
  - discriminate.
  - apply ReadFile_missing_walk. lia.
  - exists e, h2, levels. repeat split; assumption.
Defined.

(** C5, the claim as stated fails: for user 999 with no config file the
    walk never yields exactly three levels, whatever the budget. *)
Lemma ProcessUserData_chain_is_not_three_levels :
  ~ (exists g l h',
        (x <- ProcessUserData ReadFile_missing 999 ;; WalkChain x) g init_heap
        = Ok (l, h')
        /\ List.length l = 3).
Proof.
  intros (g & l & h' & E & Len).
  destruct (Nat.lt_ge_cases g 6) as [Hlt | Hge].
  - do 6 (destruct g as [|g];
          [vm_compute in E; first [discriminate E | injection E as <- <-];
           discriminate Len|]).
    lia.
  - replace g with (3 + (g - 3)) in E by lia.
    apply bind_Ok_inv in E. destruct E as (x & hx & E1 & E2).
    assert (Hw := ReadFile_missing_walk (g - 3) ltac:(lia)).
    rewrite (ProcessUserData_eq ReadFile_missing 999 (g - 3) init_heap _
               (Ref 10) _ _ eq_refl ltac:(discriminate) Hw) in E1.
    injection E1 as <- <-.
    pose proof (ProcessUserData_WalkChain 999 (g - 3) _ (Ref 10) _ _ Hw) as E3.
    pose proof (eq_trans (eq_sym E2) E3) as E.
    injection E as -> _. discriminate Len.
Qed.

(** The five levels, computed. *)
Example ProcessUserData_999_levels :
  (x <- ProcessUserData ReadFile_missing 999 ;; WalkChain x) 6 init_heap
  = Ok (["failed to process user 999: failed to load config for user 999: failed to read config file user_999.json: open user_999.json: no such file or directory";
         "failed to load config for user 999: failed to read config file user_999.json: open user_999.json: no such file or directory";
         "failed to read config file user_999.json: open user_999.json: no such file or directory";
         "open user_999.json: no such file or directory";
         "no such file or directory"],
        (init_heap
         ++ [OPathError (mkPathError "open" "user_999.json" (Sys ENOENT));
             OwrapError
               (mkWrapError
                  "failed to read config file user_999.json: open user_999.json: no such file or directory"
                  (Ref 10));
             OwrapError
               (mkWrapError
                  "failed to load config for user 999: failed to read config file user_999.json: open user_999.json: no such file or directory"
                  (Ref 11));
             OwrapError
               (mkWrapError
                  "failed to process user 999: failed to load config for user 999: failed to read config file user_999.json: open user_999.json: no such file or directory"
                  (Ref 12))])%list).
Proof. vm_compute. reflexivity. Qed.

(** ** Termination of chain traversal *)

Lemma valid_typed h e : valid h e -> e = Nil \/ type_in h e <> None.
Proof.
  destruct e as [|a|n]; cbn; intros V; [left; reflexivity | right | right];
    [|discriminate].
  apply nth_error_Some in V. destruct (nth_error h a); [discriminate|].
  contradiction.
Qed.

Lemma closed_cause h e c : closed h -> cause_in h e = Some c -> valid h c.
Proof.
  intros C. destruct e as [|a|n]; cbn; try discriminate.
  destruct (nth_error h a) as [o|] eqn:E; [|discriminate].
  intros Ec. exact (C a o c E Ec).
Qed.

Lemma Unwramp_in g h e :
  e = Nil \/ type_in h e <> None ->
  Unwramp e g h
  = Ok (match cause_in h e with Some c => c | None => Nil end, h).
Proof.
  intros V. unfold Unwramp.
  rewrite (bind_Ok _ _ _ _ _ _ (implements_unwrapper_in g h e V)).
  destruct (cause_in h e) as [c|] eqn:E; [|reflexivity].
  apply Unwrap_cause_in, E.
Qed.

(** The guarded loop stops by itself: from depth [10 - n] it takes at most
    [n + 1] turns, on any heap without dangling pointers. *)
Lemma ErrorChain_loop_total h :
  closed h ->
  forall n depth e fuel g0,
    valid h e -> (depth = 10 - Z.of_nat n)%Z -> n <= 10 -> n < fuel ->
    exists d b,
      ErrorChain_loop fuel depth e g0 h = Ok ((d, b), h)
      /\ (depth <= d <= 11)%Z
      /\ (b = true <-> d = 11%Z).
Proof.
  intros C. induction n as [|n IH]; intros depth e fuel g0 V Hd Hn Hf;
    (destruct fuel as [|fuel]; [lia|]); cbn [ErrorChain_loop].
  - assert (X : exists d b,
        (if (10 <? depth + 1)%Z
         then ret ((depth + 1)%Z, true)
         else
           ok <- implements_unwrapper e ;;
           (if ok
            then next <- Unwrap e ;; ErrorChain_loop fuel (depth + 1) next
            else ret ((depth + 1)%Z, false))) g0 h = Ok ((d, b), h)
        /\ (depth <= d <= 11)%Z /\ (b = true <-> d = 11%Z)).
    { replace (10 <? depth + 1)%Z with true by (symmetry; apply Z.ltb_lt; lia).
      exists (depth + 1)%Z, true. split; [reflexivity|].
      split; [lia|]. split; [lia | reflexivity]. }
    destruct e as [|a|m]; [|exact X|exact X].
    exists depth, false. split; [reflexivity|]. split; [lia|].
    split; [discriminate | lia].
  - assert (X : exists d b,
        (if (10 <? depth + 1)%Z
         then ret ((depth + 1)%Z, true)
         else
           ok <- implements_unwrapper e ;;
           (if ok
            then next <- Unwrap e ;; ErrorChain_loop fuel (depth + 1) next
            else ret ((depth + 1)%Z, false))) g0 h = Ok ((d, b), h)
        /\ (depth <= d <= 11)%Z /\ (b = true <-> d = 11%Z)).
    { replace (10 <? depth + 1)%Z with false by (symmetry; apply Z.ltb_ge; lia).
      rewrite (bind_Ok _ _ _ _ _ _
                 (implements_unwrapper_in g0 h e (valid_typed h e V))).
      destruct (cause_in h e) as [c|] eqn:Ec.
      - rewrite (bind_Ok _ _ _ _ _ _ (Unwrap_cause_in g0 h e c Ec)).
        destruct (IH (depth + 1)%Z c fuel g0 (closed_cause h e c C Ec))
          as (d & b & E & Hb & Hi); try lia.
        exists d, b. split; [exact E|]. split; [lia | exact Hi].
      - exists (depth + 1)%Z, false. split; [reflexivity|].
        split; [lia|]. split; [discriminate | lia]. }
    destruct e as [|a|m]; [|exact X|exact X].
    exists depth, false. split; [reflexivity|]. split; [lia|].
    split; [discriminate | lia].
Qed.

(** [errors.Is] returns on every finite chain, within one turn per
    element. *)
Lemma is_loop_chain h target e l :
  chain h e l -> e <> Nil ->
  forall fuel g0,
    List.length l <= fuel ->
    exists b, is_loop fuel e target g0 h = Ok (b, h).
Proof.
  induction 1 as [|e t Ht Hc|e c l Hc Hl IH]; intros Hne fuel g0 Hf.
  - contradiction.
  - destruct fuel as [|fuel]; [cbn in Hf; lia|]. cbn [is_loop].
    destruct (error_eqb e target); [eexists; reflexivity|].
    destruct (match e with Sys n => Errno_Is n target | _ => false end);
      [eexists; reflexivity|].
    assert (V : e = Nil \/ type_in h e <> None) by (right; congruence).
    rewrite (bind_Ok _ _ _ _ _ _ (implements_unwrapper_in g0 h e V)), Hc.
    eexists; reflexivity.
  - destruct fuel as [|fuel]; [cbn in Hf; lia|]. cbn [is_loop].
    destruct (error_eqb e target); [eexists; reflexivity|].
    destruct (match e with Sys n => Errno_Is n target | _ => false end);
      [eexists; reflexivity|].
    pose proof (cause_in_typed _ _ _ Hc) as Ty.
    rewrite (bind_Ok _ _ _ _ _ _
               (implements_unwrapper_in g0 h e (or_intror Ty))), Hc.
    rewrite (bind_Ok _ _ _ _ _ _ (Unwrap_cause_in g0 h e c Hc)).
    destruct c as [|a|n]; [eexists; reflexivity| |];
      (apply IH; [discriminate | cbn in Hf; lia]).
Qed.

Lemma Is_chain h target e l g :
  chain h e l -> List.length l <= g ->
  exists b, Is e target g h = Ok (b, h).
Proof.
  intros C Hg.
  destruct e as [|a|n]; [eexists; reflexivity| |];
    (destruct target as [|t|m]; [eexists; reflexivity| |]);
    apply (is_loop_chain h _ _ l C); try discriminate; exact Hg.
Qed.

(** In an ordered heap every chain is finite: addresses strictly decrease
    along it. *)
Lemma ordered_chain h :
  ordered h ->
  forall n a, a < n -> a < List.length h ->
    exists l, chain h (Ref a) l /\ List.length l <= a + 2.
Proof.
  intros O. induction n as [|n IH]; intros a Ha Hl; [lia|].
  destruct (nth_error h a) as [o|] eqn:Eo;
    [|apply nth_error_None in Eo; lia].
  destruct (cause_of o) as [[|c|m]|] eqn:Ec.
  - exists [Ref a]. split; [|cbn; lia].
    apply chain_step with (c := Nil); [cbn; rewrite Eo; exact Ec|].
    constructor.
  - pose proof (O a o c Eo Ec) as Hc.
    destruct (IH c ltac:(lia) ltac:(lia)) as (l & Cl & Ll).
    exists (Ref a :: l). split; [|cbn; lia].
    apply chain_step with (c := Ref c); [cbn; rewrite Eo; exact Ec | exact Cl].
  - exists [Ref a; Sys m]. split; [|cbn; lia].
    apply chain_step with (c := Sys m); [cbn; rewrite Eo; exact Ec|].
    apply chain_leaf with (t := T_Errno); reflexivity.
  - exists [Ref a]. split; [|cbn; lia].
    apply chain_leaf with (t := type_of_object o); cbn; rewrite Eo;
      [reflexivity | exact Ec].
Qed.

(** Allocation keeps a heap ordered when the new object's cause is
    already there. *)
Lemma ordered_new h o :
  ordered h ->
  (forall c, cause_of o = Some c -> valid h c) ->
  ordered (h ++ [o])%list.
Proof.
  intros O V a x c Ea Ec.
  destruct (Nat.lt_ge_cases a (List.length h)) as [Hlt | Hge].
  - rewrite nth_error_app1 in Ea by exact Hlt. exact (O a x c Ea Ec).
  - rewrite nth_error_app2 in Ea by exact Hge.
    destruct (a - List.length h) as [|k] eqn:Ek; cbn in Ea.
    + injection Ea as <-. specialize (V _ Ec). cbn in V. lia.
    + destruct k; discriminate Ea.
Qed.

Lemma ordered_init : ordered init_heap.
Proof.
  intros a o c Ea Ec.
  do 10 (destruct a as [|a]; [injection Ea as <-; discriminate Ec|]).
  destruct a; discriminate Ea.
Qed.

(** An error that is its own cause: no unguarded traversal returns. *)
Lemma as_loop_self h a T :
  cause_in h (Ref a) = Some (Ref a) -> has_type h T (Ref a) = false ->
  forall fuel g0, as_loop fuel (Ref a) T g0 h = OutOfFuel.
Proof.
  intros Hc HT. pose proof (cause_in_typed _ _ _ Hc) as Ty.
  induction fuel as [|fuel IH]; intros g0; [reflexivity|].
  cbn [as_loop].
  rewrite (bind_Ok _ _ _ _ _ _ (dyn_type_in g0 h _ (or_intror Ty))).
  unfold has_type in HT. rewrite HT.
  rewrite (bind_Ok _ _ _ _ _ _
             (implements_unwrapper_in g0 h _ (or_intror Ty))), Hc.
  rewrite (bind_Ok _ _ _ _ _ _ (Unwrap_cause_in g0 h _ _ Hc)).
  apply IH.
Qed.

Lemma is_loop_self h a t :
  cause_in h (Ref a) = Some (Ref a) -> a <> t ->
  forall fuel g0, is_loop fuel (Ref a) (Ref t) g0 h = OutOfFuel.
Proof.
  intros Hc Hne. pose proof (cause_in_typed _ _ _ Hc) as Ty.
  induction fuel as [|fuel IH]; intros g0; [reflexivity|].
  cbn [is_loop].
  replace (error_eqb (Ref a) (Ref t)) with false
    by (symmetry; apply Nat.eqb_neq; exact Hne).
  rewrite (bind_Ok _ _ _ _ _ _
             (implements_unwrapper_in g0 h _ (or_intror Ty))), Hc.
  rewrite (bind_Ok _ _ _ _ _ _ (Unwrap_cause_in g0 h _ _ Hc)).
  apply IH.
Qed.

Lemma Error_self h a d :
  nth_error h a = Some (ODatabaseError d) -> Err d = Ref a ->
  forall g, Error (Ref a) g h = OutOfFuel.
Proof.
  intros Ha Hd. unfold Error.
  induction g as [|g IH]; [reflexivity|].
  cbn [Error_fix]. rewrite (bind_Ok _ _ _ _ _ _ (load_Ok g h a _ Ha)).
  unfold DatabaseError_Error, Sprintf_with.
  cbn [eval_operands eval_operand]. rewrite Hd.
  unfold bind, ret, recovered. rewrite IH. reflexivity.
Qed.

Lemma WalkChain_self h a d :
  nth_error h a = Some (ODatabaseError d) -> Err d = Ref a ->
  forall g, WalkChain (Ref a) g h = OutOfFuel.
Proof.
  intros Ha Hd g. unfold WalkChain.
  destruct g as [|g]; [reflexivity|]. cbn [WalkChain_loop].
  unfold bind at 1. rewrite (Error_self h a d Ha Hd). reflexivity.
Qed.

Lemma closed_cyclic_heap : closed cyclic_heap.
Proof.
  intros a o c Ea Ec.
  do 10 (destruct a as [|a]; [injection Ea as <-; discriminate Ec|]).
  destruct a as [|a]; [|destruct a; discriminate Ea].
  injection Ea as <-. injection Ec as <-. cbn. lia.
Qed.

(** C6 (as amended). The code caps traversal in one place only: the
    depth-counting loop of [TestProcessUserData_ErrorChain] gives up, with
    a report, when the depth passes 10; that loop returns on every heap
    without dangling pointers, cyclic chains included, with a depth of at
    most 11, and it reports exactly when the depth is 11. The other
    traversals have no bound: on a finite chain [errors.Is] and
    [errors.As] return within one turn per element, however many there
    are; every chain of a heap built by allocation alone is finite, with
    at most one element more than the heap has objects; and on a
    [DatabaseError] that is its own cause [errors.Is] (for another target),
    [errors.As] (for another type) and the [Error()]-collecting walk never
    return. *)
Theorem chain_traversal_termination :
  (forall h e g,
      closed h -> valid h e -> 11 <= g ->
      exists d b,
        ErrorChain_depth e g h = Ok ((d, b), h)
        /\ (0 <= d <= 11)%Z
        /\ (b = true <-> d = 11%Z))
  /\ (forall h e l target T g,
        chain h e l -> List.length l <= g ->
        (exists b, Is e target g h = Ok (b, h))
        /\ As e T g h = Ok (find (has_type h T) l, h))
  /\ (forall h e,
        ordered h -> valid h e ->
        exists l, chain h e l /\ List.length l <= List.length h + 1)
  /\ (forall h a d t T,
        nth_error h a = Some (ODatabaseError d) -> Err d = Ref a ->
        a <> t -> T <> T_DatabaseError ->
        forall g,
          Is (Ref a) (Ref t) g h = OutOfFuel
          /\ As (Ref a) T g h = OutOfFuel
          /\ WalkChain (Ref a) g h = OutOfFuel).
Proof.
  split; [|split; [|split]].
  - intros h e g C V Hg. unfold ErrorChain_depth.
    apply (ErrorChain_loop_total h C 10 0%Z e g g V); lia.
  - intros h e l target T g C Hg.
    split; [apply (Is_chain h target e l g C Hg) | apply As_chain; assumption].
  - intros h e O V. destruct e as [|a|n].
    + exists []. split; [constructor | cbn; lia].
    + cbn in V.
      destruct (ordered_chain h O (S a) a ltac:(lia) V) as (l & Cl & Ll).
      exists l. split; [exact Cl | lia].
    + exists [Sys n]. split; [|cbn; lia].
      apply chain_leaf with (t := T_Errno); reflexivity.
  - intros h a d t T Ha Hd Hne HT g.
    assert (Hc : cause_in h (Ref a) = Some (Ref a))
      by (cbn; rewrite Ha; cbn; rewrite Hd; reflexivity).
    split; [rewrite Is_Ref; apply is_loop_self; assumption|].
    split; [|apply (WalkChain_self h a d Ha Hd)].
    cbn [As]. apply as_loop_self; [exact Hc|].
    unfold has_type. cbn. rewrite Ha. cbn. destruct T; try reflexivity.
    contradiction.
Qed.

(** Instance: the guarded loop on the error that is its own cause stops at
    depth 11 with the report. *)
Lemma chain_traversal_termination_witness :
  exists d b,
    ErrorChain_depth (Ref 10) 11 cyclic_heap = Ok ((d, b), cyclic_heap)
    /\ (0 <= d <= 11)%Z
    /\ (b = true <-> d = 11%Z).
Proof.
  apply (proj1 chain_traversal_termination cyclic_heap (Ref 10) 11).
  - exact closed_cyclic_heap.
  - cbn. lia.
  - lia.
Defined.

(** C6, the claim as stated fails: nothing bounds traversal by 32 to 64
    hops. The error built by [e := &DatabaseError{...}; e.Err = e] is its
    own cause, and on it [errors.Is], [errors.As] and the collecting walk
    return for no budget; and under 65 wrappers [ErrUserNotFound] is still
    reached, at the 66th level, without any fault. *)
Lemma traversal_is_not_bounded :
  self_caused (mkTime 2023 10 5 10 30 0 0) 0 init_heap
  = Ok (Ref 10, cyclic_heap)
  /\ ~ (exists g r, Is (Ref 10) ErrUserNotFound g cyclic_heap = Ok r)
  /\ ~ (exists g r, As (Ref 10) T_ValidationError g cyclic_heap = Ok r)
  /\ ~ (exists g r, WalkChain (Ref 10) g cyclic_heap = Ok r)
  /\ (exists e h,
        wrap_all (List.repeat "layer" 65) ErrUserNotFound 70 init_heap
        = Ok (e, h)
        /\ Is e ErrUserNotFound 70 h = Ok (true, h)
        /\ As e T_errorString 70 h = Ok (Some ErrUserNotFound, h)
        /\ Is e ErrUserNotFound 65 h = OutOfFuel).
Proof.
  assert (Hc : cause_in cyclic_heap (Ref 10) = Some (Ref 10)) by reflexivity.
  split; [reflexivity|].
  split.
  { intros (g & r & E). unfold ErrUserNotFound in E. rewrite Is_Ref in E.
    rewrite (is_loop_self _ 10 5 Hc) in E by lia. discriminate E. }
  split.
  { intros (g & r & E). cbn [As] in E.
    rewrite (as_loop_self _ 10 T_ValidationError Hc eq_refl) in E.
    discriminate E. }
  split.
  { intros (g & r & E).
    rewrite (WalkChain_self cyclic_heap 10 _ eq_refl eq_refl) in E.
    discriminate E. }
  eexists _, _. split; [vm_compute; reflexivity|].
  repeat split; vm_compute; reflexivity.
Qed.

(** ** Substrings of the rendering *)

Lemma Contains_app_r x y w : Contains y w = true -> Contains (x ++ y) w = true.
Proof.
  intros H. induction x as [|c x IH]; [exact H|].
  cbn [append Contains]. rewrite IH. apply orb_true_r.
Qed.

Lemma prefix_no_straddle w t :
  no_straddle w t = true ->
  forall x, String.prefix w (x ++ t) = String.prefix w x.
Proof.
  induction w as [|c w IH]; intros N x.
  { destruct x, t; reflexivity. }
  cbn [no_straddle] in N. apply andb_true_iff in N. destruct N as [N1 N2].
  apply negb_true_iff in N1.
  destruct x as [|d x]; [exact N1|].
  cbn [append String.prefix].
  destruct (ascii_dec c d); [apply IH, N2 | reflexivity].
Qed.

Lemma Contains_app_closed w t :
  no_straddle w t = true -> Contains t w = false ->
  forall x, Contains (x ++ t) w = Contains x w.
Proof.
  intros N C. induction x as [|d x IH].
  - cbn [append]. rewrite C. destruct w as [|c w]; [|reflexivity].
    destruct t; discriminate C.
  - cbn [append Contains]. rewrite IH.
    change (String d (x ++ t)) with (String d x ++ t).
    rewrite (prefix_no_straddle w t N). reflexivity.
Qed.

Lemma Contains_head_mem s c w :
  Contains s (String c w) = true -> mem c s = true.
Proof.
  induction s as [|d s IH]; [discriminate|].
  cbn [Contains String.prefix mem].
  destruct (ascii_dec c d) as [->|Hne].
  - intros _. rewrite Ascii.eqb_refl. reflexivity.
  - cbn [orb]. intros H. rewrite (IH H). apply orb_true_r.
Qed.

Lemma all_chars_mem p s c :
  all_chars p s = true -> p c = false -> mem c s = false.
Proof.
  intros A Pc. induction s as [|d s IH]; [reflexivity|].
  cbn [all_chars mem] in *. apply andb_true_iff in A. destruct A as [Pd A].
  rewrite (IH A), orb_false_r.
  apply Ascii.eqb_neq. intros ->. congruence.
Qed.

Lemma all_chars_app p x y :
  all_chars p (x ++ y) = all_chars p x && all_chars p y.
Proof.
  induction x as [|c x IH]; [reflexivity|].
  cbn [append all_chars]. rewrite IH, andb_assoc. reflexivity.
Qed.

Lemma mem_no_straddle d w rest :
  mem d w = false -> no_straddle w (String d rest) = true.
Proof.
  induction w as [|c w IH]; [reflexivity|].
  cbn [mem no_straddle String.prefix]. intros M.
  apply orb_false_iff in M. destruct M as [M1 M2].
  rewrite (IH M2), andb_true_r.
  destruct (ascii_dec c d) as [->|Hne]; [|reflexivity].
  rewrite Ascii.eqb_refl in M1. discriminate M1.
Qed.

(** *** The characters of a timestamp *)

Lemma string_of_uint_digits u :
  all_chars is_digit (NilEmpty.string_of_uint u) = true.
Proof. induction u; cbn; auto. Qed.

Lemma is_digit_stamp s :
  all_chars is_digit s = true -> all_chars is_stamp_char s = true.
Proof.
  induction s as [|c s IH]; [reflexivity|]. cbn [all_chars].
  intros H. apply andb_true_iff in H. destruct H as [H1 H2].
  rewrite (IH H2), andb_true_r. unfold is_stamp_char. rewrite H1.
  reflexivity.
Qed.

Lemma itoa_nonneg_digits z :
  (0 <= z)%Z ->
  all_chars is_digit (itoa z) = true
  /\ exists d rest, itoa z = String d rest.
Proof.
  intros Hz. unfold itoa, Z.to_int.
  destruct z as [|p|p]; [split; [reflexivity | eexists _, _; reflexivity]| |lia].
  cbn [NilZero.string_of_int NilZero.string_of_uint].
  pose proof (string_of_uint_digits (Pos.to_uint p)) as D.
  pose proof (Unsigned.to_uint_nonnil p) as NN.
  destruct (Pos.to_uint p) eqn:E; try contradiction;
    (split; [exact D | eexists _, _; reflexivity]).
Qed.

Lemma zeros_digits n : all_chars is_digit (zeros n) = true.
Proof. induction n; [reflexivity | exact IHn]. Qed.

Lemma appendInt_stamp x width :
  all_chars is_stamp_char (appendInt x width) = true
  /\ exists d rest,
      appendInt x width = String d rest
      /\ (is_digit d || (d =? "-")%char) = true.
Proof.
  unfold appendInt.
  destruct (itoa_nonneg_digits (Z.abs x) (Z.abs_nonneg x))
    as (D & d & rest & E).
  split.
  - rewrite !all_chars_app.
    rewrite (is_digit_stamp _ (zeros_digits _)), (is_digit_stamp _ D).
    destruct (x <? 0)%Z; reflexivity.
  - destruct (x <? 0)%Z; [eexists _, _; split; reflexivity|].
    cbn [append].
    destruct (width - String.length (itoa (Z.abs x))) as [|k].
    + cbn [zeros append]. rewrite E in *. exists d, rest.
      split; [reflexivity|].
      cbn [all_chars] in D. apply andb_true_iff in D. destruct D as [D _].
      rewrite D. reflexivity.
    + cbn [zeros append]. eexists _, _. split; reflexivity.
Qed.

Lemma appendZone_stamp offset :
  all_chars is_stamp_char (appendZone offset) = true.
Proof.
  unfold appendZone. destruct (offset =? 0)%Z; [reflexivity|].
  rewrite !all_chars_app.
  rewrite (proj1 (appendInt_stamp _ _)), (proj1 (appendInt_stamp _ _)).
  destruct (_ <? 0)%Z; reflexivity.
Qed.

Lemma Format_RFC3339_stamp t :
  all_chars is_stamp_char (Format_RFC3339 t ++ ")") = true
  /\ exists d rest,
      Format_RFC3339 t ++ ")" = String d rest
      /\ (is_digit d || (d =? "-")%char) = true.
Proof.
  unfold Format_RFC3339. split.
  - rewrite !all_chars_app, !(proj1 (appendInt_stamp _ _)), appendZone_stamp.
    reflexivity.
  - destruct (proj2 (appendInt_stamp (Year t) 4)) as (d & rest & E & Hd).
    rewrite E. cbn [append]. eexists _, _. split; [reflexivity | exact Hd].
Qed.

(** *** The flag in the rendering *)

Lemma stamp_head_not_in_flag d b :
  (is_digit d || (d =? "-")%char) = true ->
  mem d ("retryable: " ++ fmt_bool b) = false.
Proof.
  destruct b; destruct d as [[] [] [] [] [] [] [] []]; cbn; intros H;
    try reflexivity; discriminate H.
Qed.

(** From the flag on, the rendering is closed: the text
    " (retryable: <r>, timestamp: <stamp>)" neither contains the opposite
    flag nor completes one begun before it. *)
Lemma flag_tail_closed r t :
  no_straddle ("retryable: " ++ fmt_bool (negb r))
    (" (retryable: " ++ fmt_bool r ++ ", timestamp: "
     ++ Format_RFC3339 t ++ ")") = true
  /\ Contains
       (" (retryable: " ++ fmt_bool r ++ ", timestamp: "
        ++ Format_RFC3339 t ++ ")")
       ("retryable: " ++ fmt_bool (negb r)) = false.
Proof.
  destruct (Format_RFC3339_stamp t) as (A & d & rest & E & Hd).
  assert (N2 : forall b,
             no_straddle ("retryable: " ++ fmt_bool b)
               (Format_RFC3339 t ++ ")") = true).
  { intros b. rewrite E. apply mem_no_straddle, stamp_head_not_in_flag, Hd. }
  assert (C2 : forall b,
             Contains (Format_RFC3339 t ++ ")") ("retryable: " ++ fmt_bool b)
             = false).
  { intros b.
    destruct (Contains (Format_RFC3339 t ++ ")") ("retryable: " ++ fmt_bool b))
      eqn:C; [|reflexivity].
    apply Contains_head_mem in C.
    rewrite (all_chars_mem _ _ "r"%char A eq_refl) in C. discriminate C. }
  destruct r; cbn [fmt_bool negb]; (split; [reflexivity|]).
  - change (" (retryable: " ++ "true" ++ ", timestamp: "
            ++ Format_RFC3339 t ++ ")")
      with (" (retryable: true, timestamp: " ++ (Format_RFC3339 t ++ ")")).
    rewrite (Contains_app_closed _ _ (N2 false) (C2 false)). reflexivity.
  - change (" (retryable: " ++ "false" ++ ", timestamp: "
            ++ Format_RFC3339 t ++ ")")
      with (" (retryable: false, timestamp: " ++ (Format_RFC3339 t ++ ")")).
    rewrite (Contains_app_closed _ _ (N2 true) (C2 true)). reflexivity.
Qed.

Lemma flag_tail_has_flag r t x :
  Contains
    (x ++ " (retryable: " ++ fmt_bool r ++ ", timestamp: "
     ++ Format_RFC3339 t ++ ")")
    ("retryable: " ++ fmt_bool r) = true.
Proof. apply Contains_app_r. destruct r; reflexivity. Qed.

Lemma cause_text_ext g h l c t :
  cause_text g h c t -> cause_text g (h ++ l)%list c t.
Proof.
  destruct c as [|a|n]; cbn [cause_text]; [auto| |];
    intros E; destruct (Error_reads _ _ _ _ _ E) as [_ R];
    apply R, le_n.
Qed.

(** C8 (as amended). For both values of the flag, a [DatabaseError]
    constructed with [Retryable = b] and rendered at once gives a string
    that contains "retryable: true" when [b] is true and "retryable: false"
    when [b] is false; the literal for the opposite flag occurs in the
    rendering exactly when it already occurs in the text in front of the
    flag, "database error [<Operation> on <Table>]: <cause>" - so never
    when those three texts are free of it. *)
Theorem retryable_flag_in_rendering :
  forall op tbl q c now b g h cause,
    cause_text g h c cause ->
    exists p h' s,
      new (ODatabaseError (mkDatabaseError op tbl q c now b)) g h = Ok (p, h')
      /\ Error p (S g) h' = Ok (s, h')
      /\ Contains s ("retryable: " ++ fmt_bool b) = true
      /\ Contains s ("retryable: " ++ fmt_bool (negb b))
         = Contains ("database error [" ++ op ++ " on " ++ tbl ++ "]: " ++ cause)
             ("retryable: " ++ fmt_bool (negb b)).
Proof.
  intros op tbl q c now b g h cause Hc.
  eexists _, _, _. split; [reflexivity|].
  split.
  { apply (Error_DatabaseError g _ _ (mkDatabaseError op tbl q c now b) cause).
    - apply nth_error_new.
    - apply cause_text_ext, Hc. }
  cbn [Operation Table Retryable Timestamp].
  replace ("database error [" ++ op ++ " on " ++ tbl ++ "]: " ++ cause
           ++ " (retryable: " ++ fmt_bool b ++ ", timestamp: "
           ++ Format_RFC3339 now ++ ")")
    with (("database error [" ++ op ++ " on " ++ tbl ++ "]: " ++ cause)
          ++ " (retryable: " ++ fmt_bool b ++ ", timestamp: "
          ++ Format_RFC3339 now ++ ")")
    by (rewrite !append_assoc; reflexivity).
  split; [apply flag_tail_has_flag|].
  destruct (flag_tail_closed b now) as [N C].
  apply (Contains_app_closed _ _ N C).
Qed.

(** Instance: the error of [QueryUsers]; the opposite flag does not
    occur. *)
Lemma retryable_flag_in_rendering_witness :
  exists p h' s,
    new (ODatabaseError
           (mkDatabaseError "SELECT" "users" "SELECT * FROM users LIMIT 10"
              (Ref 0) (mkTime 2023 10 5 10 30 0 0) true)) 1
      [OerrorString "connection timeout"] = Ok (p, h')
    /\ Error p 2 h' = Ok (s, h')
    /\ Contains s "retryable: true" = true
    /\ Contains s "retryable: false" = false.
Proof.
  destruct (retryable_flag_in_rendering "SELECT" "users"
              "SELECT * FROM users LIMIT 10" (Ref 0)
              (mkTime 2023 10 5 10 30 0 0) true 1
              [OerrorString "connection timeout"] "connection timeout"
              eq_refl)
    as (p & h' & s & E1 & E2 & E3 & E4).
  exists p, h', s. split; [exact E1|]. split; [exact E2|].
  split; [exact E3 | exact E4].
Defined.

(** C8, the claim as stated fails: a retryable [DatabaseError] whose cause
    is a non-retryable [DatabaseError] renders the cause inside its own
    text, so the rendering contains both "retryable: true" and
    "retryable: false". *)
Lemma rendering_can_contain_both_flags :
  exists s h,
    (leaf <- New "constraint violation" ;;
     inner <- new (ODatabaseError
                     (mkDatabaseError "INSERT" "orders" "" leaf
                        (mkTime 2023 10 5 10 30 0 0) false)) ;;
     outer <- new (ODatabaseError
                     (mkDatabaseError "SELECT" "users" "" inner
                        (mkTime 2023 10 5 10 30 1 0) true)) ;;
     Error outer) 3 [] = Ok (s, h)
    /\ Contains s "retryable: true" = true
    /\ Contains s "retryable: false" = true.
Proof.
  eexists _, _. split; [vm_compute; reflexivity|].
  split; vm_compute; reflexivity.
Qed.

(** ** The repository's own test cases, replayed on the model *)

(** [TestValidationError_Error]: string, integer and nil values. *)
Example ValidationError_Error_tests :
  (e <- new (OValidationError
               (mkValidationError "username" "Username is required" 1001
                  (AnyString ""))) ;;
   Error e) 1 []
  = Ok ("Validation error on field 'username': Username is required (code: 1001, value: )",
        [OValidationError
           (mkValidationError "username" "Username is required" 1001
              (AnyString ""))])
  /\ (e <- new (OValidationError
                  (mkValidationError "age" "Age must be positive" 1002
                     (AnyInt (-5)))) ;;
      Error e) 1 []
     = Ok ("Validation error on field 'age': Age must be positive (code: 1002, value: -5)",
           [OValidationError
              (mkValidationError "age" "Age must be positive" 1002
                 (AnyInt (-5)))])
  /\ (e <- new (OValidationError
                  (mkValidationError "data" "Data cannot be nil" 1004 AnyNil)) ;;
      Error e) 1 []
     = Ok ("Validation error on field 'data': Data cannot be nil (code: 1004, value: <nil>)",
           [OValidationError
              (mkValidationError "data" "Data cannot be nil" 1004 AnyNil)]).
Proof. repeat split; vm_compute; reflexivity. Qed.

(** [TestUnwramp_Function]: the cause of a [DatabaseError], and nil for an
    error without [Unwrap]. *)
Example Unwramp_Function_test :
  (baseErr <- New "base error" ;;
   dbErr <- new (ODatabaseError
                   (mkDatabaseError "SELECT" "test" "" baseErr
                      (mkTime 2023 10 5 10 30 0 0) false)) ;;
   unwrapped <- Unwramp dbErr ;;
   simpleErr <- New "simple error" ;;
   result <- Unwramp simpleErr ;;
   ret (error_eqb unwrapped baseErr, result)) 0 []
  = Ok ((true, Nil),
        [OerrorString "base error";
         ODatabaseError
           (mkDatabaseError "SELECT" "test" "" (Ref 0)
              (mkTime 2023 10 5 10 30 0 0) false);
         OerrorString "simple error"]).
Proof. vm_compute. reflexivity. Qed.

(** [TestProcessUserData_FileNotFound] and
    [TestProcessUserData_ErrorChain]: the error wraps [os.ErrNotExist], its
    text names the user and the file, and the depth loop counts five
    levels without a report. *)
Example ProcessUserData_FileNotFound_test :
  exists e h s,
    ProcessUserData ReadFile_missing 999 6 init_heap = Ok (e, h)
    /\ Is e oserror_ErrNotExist 6 h = Ok (true, h)
    /\ Is e oserror_ErrPermission 6 h = Ok (false, h)
    /\ Error e 6 h = Ok (s, h)
    /\ Contains s "failed to process user" = true
    /\ Contains s "999" = true
    /\ Contains s "failed to load config for user" = true
    /\ Contains s "failed to read config file" = true
    /\ Contains s "user_999.json" = true
    /\ ErrorChain_depth e 6 h = Ok ((5%Z, false), h).
Proof.
  eexists _, _, _. split; [vm_compute; reflexivity|].
  repeat split; vm_compute; reflexivity.
Qed.

(** [TestQueryUsers_ReturnsError] for limit 1000, and a negative limit. *)
Example QueryUsers_tests :
  QueryUsers (mkTime 2023 10 5 10 30 0 0) 1000 0 []
  = Ok (Ref 1,
        [OerrorString "connection timeout";
         ODatabaseError
           (mkDatabaseError "SELECT" "users" "SELECT * FROM users LIMIT 1000"
              (Ref 0) (mkTime 2023 10 5 10 30 0 0) true)])
  /\ QueryUsers (mkTime 2023 10 5 10 30 0 7200) (-1) 0 []
     = Ok (Ref 1,
           [OerrorString "connection timeout";
            ODatabaseError
              (mkDatabaseError "SELECT" "users" "SELECT * FROM users LIMIT -1"
                 (Ref 0) (mkTime 2023 10 5 10 30 0 7200) true)])
  /\ Format_RFC3339 (mkTime 2023 10 5 10 30 0 7200) = "2023-10-05T10:30:00+02:00"
  /\ Format_RFC3339 (mkTime 987 1 2 3 4 5 (-19800)) = "0987-01-02T03:04:05-05:30".
Proof. repeat split; vm_compute; reflexivity. Qed.

(** * Further properties of the packages *)

(** ** Substrings *)

Lemma prefix_app w b : String.prefix w (w ++ b) = true.
Proof.
  induction w as [|c w IH]; [destruct b; reflexivity|].
  cbn [append String.prefix]. destruct (ascii_dec c c); [exact IH | contradiction].
Qed.

Lemma Contains_prefix s w : String.prefix w s = true -> Contains s w = true.
Proof. intros P. destruct s; cbn [Contains]; rewrite P; reflexivity. Qed.

Lemma Contains_infix a w b : Contains (a ++ w ++ b) w = true.
Proof. apply Contains_app_r, Contains_prefix, prefix_app. Qed.

(** ** ValidationError.Error *)

Lemma doPrintf_ValidationError f m c (x : any) :
  doPrintf false "Validation error on field '%s': %s (code: %d, value: %v)"
    [ArgString f; ArgString m; ArgInt c;
     match x with
     | AnyNil => ArgNil
     | AnyInt z => ArgInt z
     | AnyString s => ArgString s
     end]
  = Some ("Validation error on field '" ++ f ++ "': " ++ m ++ " (code: "
          ++ itoa c ++ ", value: " ++ any_text x ++ ")").
Proof. destruct x; reflexivity. Qed.

Lemma Error_ValidationError g h a v :
  nth_error h a = Some (OValidationError v) ->
  Error (Ref a) (S g) h
  = Ok ("Validation error on field '" ++ Field v ++ "': " ++ Message v
        ++ " (code: " ++ itoa (Code v) ++ ", value: " ++ any_text (Value v)
        ++ ")", h).
Proof.
  intros Ha. unfold Error. cbn [Error_fix].
  rewrite (bind_Ok _ _ _ _ _ _ (load_Ok g h a _ Ha)).
  unfold ValidationError_Error, Sprintf_with.
  assert (Ev : eval_operands (fun e' _ => Error_fix g e')
                 [OpString (Field v); OpString (Message v); OpInt (Code v);
                  OpAny (Value v)] g h
               = Ok ([ArgString (Field v); ArgString (Message v);
                      ArgInt (Code v);
                      match Value v with
                      | AnyNil => ArgNil
                      | AnyInt z => ArgInt z
                      | AnyString s => ArgString s
                      end], h))
    by (cbn [eval_operands eval_operand]; destruct (Value v); reflexivity).
  rewrite (bind_Ok _ _ _ _ _ _ Ev), doPrintf_ValidationError. reflexivity.
Qed.

(** X1. [ValidationError.Error] returns exactly "Validation error on field
    '<Field>': <Message> (code: <Code>, value: <Value>)", the code in
    decimal and the value as [%v] prints it (an integer in decimal, a
    string as it is, nil as "<nil>"); the call leaves the heap as it was,
    and the text contains the field name, the message and the code. *)
Theorem ValidationError_Error_exact :
  forall g h a v,
    nth_error h a = Some (OValidationError v) ->
    exists s,
      Error (Ref a) (S g) h = Ok (s, h)
      /\ s = "Validation error on field '" ++ Field v ++ "': " ++ Message v
             ++ " (code: " ++ itoa (Code v) ++ ", value: "
             ++ any_text (Value v) ++ ")"
      /\ Contains s (Field v) = true
      /\ Contains s (Message v) = true
      /\ Contains s (itoa (Code v)) = true.
Proof.
  intros g h a v Ha. eexists. split; [apply Error_ValidationError, Ha|].
  split; [reflexivity|].
  split; [apply Contains_infix|].
  split.
  - rewrite <- (append_assoc _ (Field v)), <- (append_assoc _ "': ").
    apply Contains_infix.
  - rewrite <- (append_assoc _ (Field v)), <- (append_assoc _ "': "),
      <- (append_assoc _ (Message v)), <- (append_assoc _ " (code: ").
    apply Contains_infix.
Qed.

(** Instance: the integer case of [TestValidationError_Error]. *)
Lemma ValidationError_Error_exact_witness :
  exists s,
    Error (Ref 0) 1
      [OValidationError
         (mkValidationError "age" "Age must be positive" 1002 (AnyInt (-5)))]
    = Ok (s,
          [OValidationError
             (mkValidationError "age" "Age must be positive" 1002
                (AnyInt (-5)))])
    /\ s = "Validation error on field 'age': Age must be positive (code: 1002, value: -5)".
Proof.
  destruct (ValidationError_Error_exact 0
              [OValidationError
                 (mkValidationError "age" "Age must be positive" 1002
                    (AnyInt (-5)))] 0 _ eq_refl)
    as (s & E & Es & _).
  exists s. split; [exact E | exact Es].
Defined.

(** ** Errors that are fresh leaves *)

Lemma Is_leaf g h a t o :
  nth_error h a = Some o -> cause_of o = None -> a <> t ->
  Is (Ref a) (Ref t) (S g) h = Ok (false, h).
Proof.
  intros Ha Hc Hne. rewrite Is_Ref. cbn [is_loop].
  replace (error_eqb (Ref a) (Ref t)) with false
    by (symmetry; apply Nat.eqb_neq; exact Hne).
  rewrite (bind_Ok _ _ _ _ _ _ (implements_unwrapper_Ref (S g) h a o Ha)).
  rewrite has_Unwrap_cause_of, Hc. reflexivity.
Qed.

Lemma As_leaf g h a o T :
  nth_error h a = Some o -> cause_of o = None ->
  As (Ref a) T (S g) h
  = Ok (if type_eqb (type_of_object o) T then Some (Ref a) else None, h).
Proof.
  intros Ha Hc.
  assert (C : chain h (Ref a) [Ref a]).
  { apply chain_leaf with (t := type_of_object o); cbn; rewrite Ha;
      [reflexivity | exact Hc]. }
  rewrite (As_chain h T (Ref a) [Ref a] (S g) C) by (cbn; lia).
  cbn [find]. unfold has_type. cbn [type_in]. rewrite Ha. reflexivity.
Qed.

(** A leaf allocated on an initialised heap is no sentinel, offers no
    cause, and is found by [errors.As] exactly under its own type. *)
Lemma fresh_leaf g h o :
  initialized h -> cause_of o = None ->
  (forall T,
      As (Ref (List.length h)) T (S g) (h ++ [o])%list
      = Ok (if type_eqb (type_of_object o) T
            then Some (Ref (List.length h)) else None, (h ++ [o])%list))
  /\ Unwramp (Ref (List.length h)) g (h ++ [o])%list
     = Ok (Nil, (h ++ [o])%list)
  /\ (forall s,
        In s sentinels ->
        Is (Ref (List.length h)) s (S g) (h ++ [o])%list
        = Ok (false, (h ++ [o])%list)).
Proof.
  intros I Hc. pose proof (nth_error_new h o) as Hn.
  split; [intros T; apply As_leaf; assumption|].
  split; [rewrite (Unwramp_Ref _ _ _ _ Hn), Hc; reflexivity|].
  intros s Hs. pose proof (initialized_length h I) as HL.
  cbn in Hs.
  destruct Hs as [<-|[<-|[<-|[<-|[<-|[]]]]]];
    apply (Is_leaf g _ _ _ o Hn Hc); lia.
Qed.

(** ** ValidateUser, continued *)

Lemma ValidateUser_cases (u : User) g h :
  ValidateUser u g h
  = if (Age u <? 0)%Z then
      Ok (Ref (List.length h),
          (h ++ [OValidationError
                   (mkValidationError "Age" "Age cannot be negative" 2001
                      (AnyInt (Age u)))])%list)
    else if (130 <? Age u)%Z then
      Ok (Ref (List.length h),
          (h ++ [OValidationError
                   (mkValidationError "Age" "Age cannot be greater than 130"
                      2002 (AnyInt (Age u)))])%list)
    else if (Email u =? "")%string then
      Ok (Ref (List.length h),
          (h ++ [OValidationError
                   (mkValidationError "Email" "Email cannot be empty" 2003
                      (AnyString (Email u)))])%list)
    else Ok (Nil, h).
Proof.
  unfold ValidateUser.
  destruct (Age u <? 0)%Z; [reflexivity|].
  destruct (130 <? Age u)%Z; [reflexivity|].
  destruct (Email u =? "")%string; reflexivity.
Qed.

(** X2. The text a rejected user sees: [Error()] of the error of
    [ValidateUser] is "Validation error on field 'Age': Age cannot be
    negative (code: 2001, value: <age>)" for a negative age, "Validation
    error on field 'Age': Age cannot be greater than 130 (code: 2002,
    value: <age>)" for an age over 130, and "Validation error on field
    'Email': Email cannot be empty (code: 2003, value: )" for an age in
    range with an empty email. *)
Theorem ValidateUser_messages :
  forall (u : User) g h,
    exists e h',
      ValidateUser u g h = Ok (e, h')
      /\ ((Age u < 0)%Z ->
          Error e (S g) h'
          = Ok ("Validation error on field 'Age': Age cannot be negative (code: 2001, value: "
                ++ itoa (Age u) ++ ")", h'))
      /\ ((130 < Age u)%Z ->
          Error e (S g) h'
          = Ok ("Validation error on field 'Age': Age cannot be greater than 130 (code: 2002, value: "
                ++ itoa (Age u) ++ ")", h'))
      /\ ((0 <= Age u <= 130)%Z -> Email u = "" ->
          Error e (S g) h'
          = Ok ("Validation error on field 'Email': Email cannot be empty (code: 2003, value: )",
                h')).
Proof.
  intros u g h. rewrite ValidateUser_cases.
  destruct (Z.ltb_spec (Age u) 0) as [Hneg|Hnn].
  { eexists _, _. split; [reflexivity|].
    split; [intros _|split; intros; lia].
    exact (Error_ValidationError g _ _ (mkValidationError _ _ _ _)
             (nth_error_new h _)). }
  destruct (Z.ltb_spec 130 (Age u)) as [Hold|Hle].
  { eexists _, _. split; [reflexivity|].
    split; [intros; lia|]. split; [intros _|intros; lia].
    exact (Error_ValidationError g _ _ (mkValidationError _ _ _ _)
             (nth_error_new h _)). }
  destruct (String.eqb_spec (Email u) "") as [Hemp|Hne].
  { eexists _, _. split; [reflexivity|].
    split; [intros; lia|]. split; [intros; lia|]. intros _ _.
    rewrite (Error_ValidationError g _ _ (mkValidationError _ _ _ _)
               (nth_error_new h _)).
    cbn [Field Message Code Value any_text]. rewrite Hemp. reflexivity. }
  exists Nil, h. split; [reflexivity|].
  split; [intros; lia|]. split; [intros; lia|]. intros _ C. contradiction.
Qed.

(** Instance: a user of age -5. *)
Lemma ValidateUser_messages_witness :
  exists e h',
    ValidateUser (mkUser 1 "test@example.com" (-5)) 0 [] = Ok (e, h')
    /\ Error e 1 h'
       = Ok ("Validation error on field 'Age': Age cannot be negative (code: 2001, value: -5)",
             h').
Proof.
  destruct (ValidateUser_messages (mkUser 1 "test@example.com" (-5)) 0 [])
    as (e & h' & E & Hneg & _).
  exists e, h'. split; [exact E|]. apply Hneg. cbn. lia.
Defined.

(** X3. Whenever [ValidateUser] rejects a user on an initialised heap, the
    error is one freshly allocated [ValidationError]: the heap grows by
    that one object, [errors.As] with a [*ValidationError] target returns
    the error itself and with a [*DatabaseError] target nothing, [Unwramp]
    answers nil, and no sentinel of package utils matches it. *)
Theorem ValidateUser_error_is_a_leaf :
  forall (u : User) g h e h',
    initialized h ->
    ValidateUser u g h = Ok (e, h') -> e <> Nil ->
    exists v,
      e = Ref (List.length h)
      /\ h' = (h ++ [OValidationError v])%list
      /\ As e T_ValidationError (S g) h' = Ok (Some e, h')
      /\ As e T_DatabaseError (S g) h' = Ok (None, h')
      /\ Unwramp e g h' = Ok (Nil, h')
      /\ (forall s, In s sentinels -> Is e s (S g) h' = Ok (false, h')).
Proof.
  intros u g h e h' I E Hne. rewrite ValidateUser_cases in E.
  assert (F : forall v,
             Ref (List.length h) = Ref (List.length h)
             /\ (h ++ [OValidationError v])%list
                = (h ++ [OValidationError v])%list
             /\ As (Ref (List.length h)) T_ValidationError (S g)
                  (h ++ [OValidationError v])%list
                = Ok (Some (Ref (List.length h)),
                      (h ++ [OValidationError v])%list)
             /\ As (Ref (List.length h)) T_DatabaseError (S g)
                  (h ++ [OValidationError v])%list
                = Ok (None, (h ++ [OValidationError v])%list)
             /\ Unwramp (Ref (List.length h)) g
                  (h ++ [OValidationError v])%list
                = Ok (Nil, (h ++ [OValidationError v])%list)
             /\ (forall s,
                   In s sentinels ->
                   Is (Ref (List.length h)) s (S g)
                     (h ++ [OValidationError v])%list
                   = Ok (false, (h ++ [OValidationError v])%list))).
  { intros v.
    destruct (fresh_leaf g h (OValidationError v) I eq_refl) as (A & U & S0).
    split; [reflexivity|]. split; [reflexivity|].
    split; [apply (A T_ValidationError)|].
    split; [apply (A T_DatabaseError)|].
    split; [exact U | exact S0]. }
  destruct (Age u <? 0)%Z;
    [|destruct (130 <? Age u)%Z; [|destruct (Email u =? "")%string]];
    injection E as <- <-; try contradiction; eexists; apply F.
Qed.

(** Instance: a user of age 150 on the heap of a freshly started
    program. *)
Lemma ValidateUser_error_is_a_leaf_witness :
  exists v,
    Ref 10 = Ref (List.length init_heap)
    /\ (init_heap
        ++ [OValidationError
              (mkValidationError "Age" "Age cannot be greater than 130" 2002
                 (AnyInt 150))])%list
       = (init_heap ++ [OValidationError v])%list
    /\ As (Ref 10) T_ValidationError 1
         (init_heap
          ++ [OValidationError
                (mkValidationError "Age" "Age cannot be greater than 130" 2002
                   (AnyInt 150))])%list
       = Ok (Some (Ref 10),
             (init_heap
              ++ [OValidationError
                    (mkValidationError "Age" "Age cannot be greater than 130"
                       2002 (AnyInt 150))])%list).
Proof.
  destruct (ValidateUser_error_is_a_leaf (mkUser 2 "user@domain.org" 150) 0
              init_heap (Ref 10)
              (init_heap
               ++ [OValidationError
                     (mkValidationError "Age" "Age cannot be greater than 130"
                        2002 (AnyInt 150))])%list
              initialized_init eq_refl ltac:(discriminate))
    as (v & E1 & E2 & E3 & _).
  exists v. split; [exact E1|]. split; [exact E2 | exact E3].
Defined.

(** ** ValidateAge *)

Lemma ValidateAge_cases (age : Z) g h :
  ValidateAge age g h
  = if (age <? 0)%Z then
      Ok (Ref (List.length h),
          (h ++ [OerrorString
                   ("invalid age: " ++ itoa age
                    ++ ". Age cannot be negative")])%list)
    else if (130 <? age)%Z then
      Ok (Ref (List.length h),
          (h ++ [OerrorString
                   ("invalid age: " ++ itoa age
                    ++ ". Age cannot be greater than 130")])%list)
    else Ok (Nil, h).
Proof.
  unfold ValidateAge.
  destruct (age <? 0)%Z; [reflexivity|].
  destruct (130 <? age)%Z; reflexivity.
Qed.

(** X4. [ValidateAge] returns nil exactly for ages from 0 to 130. For any
    other age it returns one freshly allocated error whose text is
    "invalid age: <age>. Age cannot be negative" (age below 0) or "invalid
    age: <age>. Age cannot be greater than 130" (age above 130); in both
    cases the text contains "invalid age" and the decimal form of the
    age. *)
Theorem ValidateAge_result :
  forall (age : Z) g h,
    (ValidateAge age g h = Ok (Nil, h) <-> (0 <= age <= 130)%Z)
    /\ ((age < 0)%Z ->
        ValidateAge age g h
        = Ok (Ref (List.length h),
              (h ++ [OerrorString
                       ("invalid age: " ++ itoa age
                        ++ ". Age cannot be negative")])%list))
    /\ ((130 < age)%Z ->
        ValidateAge age g h
        = Ok (Ref (List.length h),
              (h ++ [OerrorString
                       ("invalid age: " ++ itoa age
                        ++ ". Age cannot be greater than 130")])%list))
    /\ (forall e h',
          ValidateAge age g h = Ok (e, h') -> e <> Nil ->
          exists s,
            Error e (S g) h' = Ok (s, h')
            /\ Contains s "invalid age" = true
            /\ Contains s (itoa age) = true
            /\ (Contains s "Age cannot be negative" = true
                \/ Contains s "Age cannot be greater than 130" = true)).
Proof.
  intros age g h. rewrite ValidateAge_cases.
  destruct (Z.ltb_spec age 0) as [Hneg|Hnn].
  { split; [split; [discriminate | lia]|].
    split; [reflexivity|]. split; [intros; lia|].
    intros e h' E _. injection E as <- <-.
    eexists. split; [apply Error_errorString, nth_error_new|].
    split; [reflexivity|].
    split; [apply (Contains_infix "invalid age: ")|].
    left. apply (Contains_app_r "invalid age: "), (Contains_app_r (itoa age)).
    reflexivity. }
  destruct (Z.ltb_spec 130 age) as [Hold|Hle].
  { split; [split; [discriminate | lia]|].
    split; [intros; lia|]. split; [reflexivity|].
    intros e h' E _. injection E as <- <-.
    eexists. split; [apply Error_errorString, nth_error_new|].
    split; [reflexivity|].
    split; [apply (Contains_infix "invalid age: ")|].
    right. apply (Contains_app_r "invalid age: "), (Contains_app_r (itoa age)).
    reflexivity. }
  split; [split; [lia | reflexivity]|].
  split; [intros; lia|]. split; [intros; lia|].
  intros e h' E Hne. injection E as <- <-. contradiction.
Qed.

(** Instance: age -10, as in [TestValidateAge_ErrorMessages]. *)
Lemma ValidateAge_result_witness :
  ValidateAge (-10) 0 []
  = Ok (Ref 0, [OerrorString "invalid age: -10. Age cannot be negative"]).
Proof.
  apply (proj1 (proj2 (ValidateAge_result (-10) 0 []))). lia.
Defined.

(** X5. The error of [ValidateAge] carries no structure: on an
    initialised heap [errors.As] finds neither a [*ValidationError] nor a
    [*DatabaseError] in it, [Unwramp] answers nil, and no sentinel of
    package utils matches it. *)
Theorem ValidateAge_error_is_opaque :
  forall (age : Z) g h e h',
    initialized h ->
    ValidateAge age g h = Ok (e, h') -> e <> Nil ->
    As e T_ValidationError (S g) h' = Ok (None, h')
    /\ As e T_DatabaseError (S g) h' = Ok (None, h')
    /\ Unwramp e g h' = Ok (Nil, h')
    /\ (forall s, In s sentinels -> Is e s (S g) h' = Ok (false, h')).
Proof.
  intros age g h e h' I E Hne. rewrite ValidateAge_cases in E.
  assert (F : forall t,
             As (Ref (List.length h)) T_ValidationError (S g)
               (h ++ [OerrorString t])%list
             = Ok (None, (h ++ [OerrorString t])%list)
             /\ As (Ref (List.length h)) T_DatabaseError (S g)
                  (h ++ [OerrorString t])%list
                = Ok (None, (h ++ [OerrorString t])%list)
             /\ Unwramp (Ref (List.length h)) g (h ++ [OerrorString t])%list
                = Ok (Nil, (h ++ [OerrorString t])%list)
             /\ (forall s,
                   In s sentinels ->
                   Is (Ref (List.length h)) s (S g)
                     (h ++ [OerrorString t])%list
                   = Ok (false, (h ++ [OerrorString t])%list))).
  { intros t.
    destruct (fresh_leaf g h (OerrorString t) I eq_refl) as (A & U & S0).
    split; [apply (A T_ValidationError)|].
    split; [apply (A T_DatabaseError)|].
    split; [exact U | exact S0]. }
  destruct (age <? 0)%Z; [|destruct (130 <? age)%Z];
    injection E as <- <-; try contradiction; apply F.
Qed.

(** Instance: age 150 on the heap of a freshly started program. *)
Lemma ValidateAge_error_is_opaque_witness :
  As (Ref 10) T_ValidationError 1
    (init_heap
     ++ [OerrorString "invalid age: 150. Age cannot be greater than 130"])%list
  = Ok (None,
        (init_heap
         ++ [OerrorString
               "invalid age: 150. Age cannot be greater than 130"])%list).
Proof.
  apply (ValidateAge_error_is_opaque 150 0 init_heap (Ref 10)
           (init_heap
            ++ [OerrorString
                  "invalid age: 150. Age cannot be greater than 130"])%list
           initialized_init eq_refl ltac:(discriminate)).
Defined.

(** X6. The two validators agree on the age: [ValidateUser] accepts a user
    exactly when [ValidateAge] accepts the user's age and the email is not
    empty; and whenever [ValidateAge] rejects an age, [ValidateUser] rejects
    every user of that age with a [ValidationError] on field "Age". *)
Theorem validators_agree_on_age :
  forall (u : User) g h,
    (ValidateUser u g h = Ok (Nil, h)
     <-> ValidateAge (Age u) g h = Ok (Nil, h) /\ Email u <> "")
    /\ (ValidateAge (Age u) g h <> Ok (Nil, h) ->
        exists m c,
          ValidateUser u g h
          = Ok (Ref (List.length h),
                (h ++ [OValidationError
                         (mkValidationError "Age" m c (AnyInt (Age u)))])%list)).
Proof.
  intros u g h. rewrite ValidateUser_cases, ValidateAge_cases.
  destruct (Age u <? 0)%Z.
  { split; [split; [discriminate | intros [C _]; discriminate C]|].
    intros _. eexists _, _. reflexivity. }
  destruct (130 <? Age u)%Z.
  { split; [split; [discriminate | intros [C _]; discriminate C]|].
    intros _. eexists _, _. reflexivity. }
  split; [|intros C; contradiction].
  destruct (String.eqb_spec (Email u) "") as [Hemp|Hne].
  - split; [discriminate | intros [_ C]; contradiction].
  - split; [intros _; split; [reflexivity | exact Hne] | reflexivity].
Qed.

(** Instance: a user of age 131 is rejected by both. *)
Lemma validators_agree_on_age_witness :
  exists m c,
    ValidateUser (mkUser 1 "test@example.com" 131) 0 []
    = Ok (Ref 0,
          [OValidationError (mkValidationError "Age" m c (AnyInt 131))]).
Proof.
  apply (proj2 (validators_agree_on_age (mkUser 1 "test@example.com" 131) 0 [])).
  discriminate.
Defined.

(** ** CustomErrorExample *)

(** X7. [CustomErrorExample] returns nil exactly for values from 0 to 100.
    Below 0 it returns a fresh [ValidationError] that renders as
    "Validation error on field 'value': Value cannot be negative (code:
    1001, value: <value>)", above 100 one that renders as "Validation
    error on field 'value': Value cannot be greater than 100 (code: 1002,
    value: <value>)". *)
Theorem CustomErrorExample_result :
  forall (value : Z) g h,
    (CustomErrorExample value g h = Ok (Nil, h) <-> (0 <= value <= 100)%Z)
    /\ ((value < 0)%Z ->
        exists h',
          CustomErrorExample value g h = Ok (Ref (List.length h), h')
          /\ h' = (h ++ [OValidationError
                           (mkValidationError "value"
                              "Value cannot be negative" 1001
                              (AnyInt value))])%list
          /\ Error (Ref (List.length h)) (S g) h'
             = Ok ("Validation error on field 'value': Value cannot be negative (code: 1001, value: "
                   ++ itoa value ++ ")", h'))
    /\ ((100 < value)%Z ->
        exists h',
          CustomErrorExample value g h = Ok (Ref (List.length h), h')
          /\ h' = (h ++ [OValidationError
                           (mkValidationError "value"
                              "Value cannot be greater than 100" 1002
                              (AnyInt value))])%list
          /\ Error (Ref (List.length h)) (S g) h'
             = Ok ("Validation error on field 'value': Value cannot be greater than 100 (code: 1002, value: "
                   ++ itoa value ++ ")", h')).
Proof.
  intros value g h. unfold CustomErrorExample.
  destruct (Z.ltb_spec value 0) as [Hneg|Hnn].
  { split; [split; [discriminate | lia]|].
    split; [intros _|intros; lia].
    eexists. split; [reflexivity|]. split; [reflexivity|].
    exact (Error_ValidationError g _ _ (mkValidationError _ _ _ _)
             (nth_error_new h _)). }
  destruct (Z.ltb_spec 100 value) as [Hbig|Hle].
  { split; [split; [discriminate | lia]|].
    split; [intros; lia|intros _].
    eexists. split; [reflexivity|]. split; [reflexivity|].
    exact (Error_ValidationError g _ _ (mkValidationError _ _ _ _)
             (nth_error_new h _)). }
  split; [split; [lia | reflexivity]|].
  split; intros; lia.
Qed.

(** Instance: the value 999 that [main] passes. *)
Lemma CustomErrorExample_result_witness :
  exists h',
    CustomErrorExample 999 0 [] = Ok (Ref 0, h')
    /\ Error (Ref 0) 1 h'
       = Ok ("Validation error on field 'value': Value cannot be greater than 100 (code: 1002, value: 999)",
             h').
Proof.
  destruct (proj2 (proj2 (CustomErrorExample_result 999 0 [])) ltac:(lia))
    as (h' & E & _ & R).
  exists h'. split; [exact E | exact R].
Defined.

(** ** The loops of the tests, along a chain *)

Lemma WalkChain_loop_chain h g0 e l :
  chain h e l ->
  forall texts,
    Forall2 (fun x t => Error x g0 h = Ok (t, h)) l texts ->
    forall fuel acc,
      List.length l < fuel ->
      WalkChain_loop fuel acc e g0 h = Ok ((acc ++ texts)%list, h).
Proof.
  induction 1 as [|e t Ht Hc|e c l Hc Hl IH]; intros texts F fuel acc Hf;
    (destruct fuel as [|fuel]; [lia|]); cbn [WalkChain_loop].
  - inversion F; subst. rewrite app_nil_r. reflexivity.
  - inversion F as [|x s l0 ts Es F0]; subst. inversion F0; subst.
    assert (V : e = Nil \/ type_in h e <> None) by (right; congruence).
    assert (X : (s0 <- Error e ;;
                 ok <- implements_unwrapper e ;;
                 (if ok
                  then next <- Unwrap e ;;
                       WalkChain_loop fuel (acc ++ [s0])%list next
                  else ret (acc ++ [s0])%list)) g0 h
                = Ok ((acc ++ [s])%list, h)).
    { rewrite (bind_Ok _ _ _ _ _ _ Es).
      rewrite (bind_Ok _ _ _ _ _ _ (implements_unwrapper_in g0 h e V)), Hc.
      reflexivity. }
    destruct e; [discriminate Ht | exact X | exact X].
  - inversion F as [|x s l0 ts Es F0]; subst.
    pose proof (cause_in_typed _ _ _ Hc) as Ty.
    assert (X : (s0 <- Error e ;;
                 ok <- implements_unwrapper e ;;
                 (if ok
                  then next <- Unwrap e ;;
                       WalkChain_loop fuel (acc ++ [s0])%list next
                  else ret (acc ++ [s0])%list)) g0 h
                = Ok ((acc ++ s :: ts)%list, h)).
    { rewrite (bind_Ok _ _ _ _ _ _ Es).
      rewrite (bind_Ok _ _ _ _ _ _
                 (implements_unwrapper_in g0 h e (or_intror Ty))), Hc.
      rewrite (bind_Ok _ _ _ _ _ _ (Unwrap_cause_in g0 h e c Hc)).
      rewrite (IH ts F0 fuel (acc ++ [s])%list) by (cbn in Hf; lia).
      rewrite <- app_assoc. reflexivity. }
    destruct e; [discriminate Hc | exact X | exact X].
Qed.

(** X8. The collecting loop of [TestErrorChain_UnwrapBehavior] returns
    exactly one text per element of the cause chain, in chain order: when
    the chain from [e] is [l] and each element's [Error()] returns, the
    loop returns the list of those texts, so it has as many levels as the
    chain has elements, and it leaves the heap unchanged. *)
Theorem WalkChain_follows_chain :
  forall h e l texts g,
    chain h e l ->
    Forall2 (fun x t => Error x g h = Ok (t, h)) l texts ->
    List.length l < g ->
    WalkChain e g h = Ok (texts, h)
    /\ List.length texts = List.length l.
Proof.
  intros h e l texts g C F Hg. split.
  - unfold WalkChain.
    exact (WalkChain_loop_chain h g e l C texts F g [] Hg).
  - symmetry. exact (Forall2_length F).
Qed.

(** Instance: a wrapper over a [DatabaseError] over a leaf. *)
Lemma WalkChain_follows_chain_witness :
  WalkChain (Ref 2) 4
    [OerrorString "connection timeout";
     ODatabaseError
       (mkDatabaseError "SELECT" "users" "" (Ref 0)
          (mkTime 2023 10 5 10 30 0 0) true);
     OwrapError (mkWrapError "query failed" (Ref 1))]
  = Ok (["query failed";
         "database error [SELECT on users]: connection timeout (retryable: true, timestamp: 2023-10-05T10:30:00Z)";
         "connection timeout"],
        [OerrorString "connection timeout";
         ODatabaseError
           (mkDatabaseError "SELECT" "users" "" (Ref 0)
              (mkTime 2023 10 5 10 30 0 0) true);
         OwrapError (mkWrapError "query failed" (Ref 1))]).
Proof.
  refine (proj1 (WalkChain_follows_chain
            [OerrorString "connection timeout";
             ODatabaseError
               (mkDatabaseError "SELECT" "users" "" (Ref 0)
                  (mkTime 2023 10 5 10 30 0 0) true);
             OwrapError (mkWrapError "query failed" (Ref 1))]
            (Ref 2) [Ref 2; Ref 1; Ref 0] _ 4 _ _ _)).
  - apply chain_step with (c := Ref 1); [reflexivity|].
    apply chain_step with (c := Ref 0); [reflexivity|].
    apply chain_leaf with (t := T_errorString); reflexivity.
  - repeat constructor.
  - cbn. lia.
Defined.

Lemma ErrorChain_loop_chain h g0 e l :
  chain h e l ->
  forall fuel k,
    k <= 10 -> Nat.min (List.length l) (10 - k) < fuel ->
    ErrorChain_loop fuel (Z.of_nat k) e g0 h
    = Ok (if (k + List.length l <=? 10)%nat
          then (Z.of_nat (k + List.length l), false)
          else (11%Z, true), h).
Proof.
  induction 1 as [|e t Ht Hc|e c l Hc Hl IH]; intros fuel k Hk Hf;
    (destruct fuel as [|fuel]; [lia|]); cbn [ErrorChain_loop].
  - cbn [List.length]. rewrite Nat.add_0_r.
    replace (k <=? 10)%nat with true by (symmetry; apply Nat.leb_le; lia).
    reflexivity.
  - assert (V : e = Nil \/ type_in h e <> None) by (right; congruence).
    assert (X : (if (10 <? Z.of_nat k + 1)%Z
                 then ret ((Z.of_nat k + 1)%Z, true)
                 else
                   ok <- implements_unwrapper e ;;
                   (if ok
                    then next <- Unwrap e ;;
                         ErrorChain_loop fuel (Z.of_nat k + 1) next
                    else ret ((Z.of_nat k + 1)%Z, false))) g0 h
                = Ok (if (k + List.length [e] <=? 10)%nat
                      then (Z.of_nat (k + List.length [e]), false)
                      else (11%Z, true), h)).
    { cbn [List.length].
      destruct (Z.ltb_spec 10 (Z.of_nat k + 1)) as [Hd|Hd].
      - replace (k + 1 <=? 10)%nat with false by (symmetry; apply Nat.leb_gt; lia).
        replace (Z.of_nat k + 1)%Z with 11%Z by lia. reflexivity.
      - replace (k + 1 <=? 10)%nat with true by (symmetry; apply Nat.leb_le; lia).
        rewrite (bind_Ok _ _ _ _ _ _ (implements_unwrapper_in g0 h e V)), Hc.
        replace (Z.of_nat (k + 1)) with (Z.of_nat k + 1)%Z by lia.
        reflexivity. }
    destruct e; [discriminate Ht | exact X | exact X].
  - pose proof (cause_in_typed _ _ _ Hc) as Ty.
    assert (X : (if (10 <? Z.of_nat k + 1)%Z
                 then ret ((Z.of_nat k + 1)%Z, true)
                 else
                   ok <- implements_unwrapper e ;;
                   (if ok
                    then next <- Unwrap e ;;
                         ErrorChain_loop fuel (Z.of_nat k + 1) next
                    else ret ((Z.of_nat k + 1)%Z, false))) g0 h
                = Ok (if (k + List.length (e :: l) <=? 10)%nat
                      then (Z.of_nat (k + List.length (e :: l)), false)
                      else (11%Z, true), h)).
    { cbn [List.length]. cbn [List.length] in Hf.
      destruct (Z.ltb_spec 10 (Z.of_nat k + 1)) as [Hd|Hd].
      - replace (k + S (List.length l) <=? 10)%nat with false
          by (symmetry; apply Nat.leb_gt; lia).
        replace (Z.of_nat k + 1)%Z with 11%Z by lia. reflexivity.
      - rewrite (bind_Ok _ _ _ _ _ _
                   (implements_unwrapper_in g0 h e (or_intror Ty))), Hc.
        rewrite (bind_Ok _ _ _ _ _ _ (Unwrap_cause_in g0 h e c Hc)).
        replace (Z.of_nat k + 1)%Z with (Z.of_nat (S k)) by lia.
        rewrite (IH fuel (S k)) by lia.
        replace (S k + List.length l) with (k + S (List.length l)) by lia.
        reflexivity. }
    destruct e; [discriminate Hc | exact X | exact X].
Qed.

(** X9. The depth-counting loop of [TestProcessUserData_ErrorChain] counts
    the elements of the cause chain as long as there are at most 10 of
    them, without a report; on a longer chain it stops at depth 11 and
    reports "Error chain too deep". *)
Theorem ErrorChain_depth_counts_chain :
  forall h e l g,
    chain h e l ->
    Nat.min (List.length l) 10 < g ->
    ErrorChain_depth e g h
    = Ok (if (List.length l <=? 10)%nat
          then (Z.of_nat (List.length l), false)
          else (11%Z, true), h).
Proof.
  intros h e l g C Hg. unfold ErrorChain_depth.
  exact (ErrorChain_loop_chain h g e l C g 0 ltac:(lia) Hg).
Qed.

(** Instance: a chain of three elements has depth 3. *)
Lemma ErrorChain_depth_counts_chain_witness :
  ErrorChain_depth (Ref 2) 4
    [OerrorString "connection timeout";
     ODatabaseError
       (mkDatabaseError "SELECT" "users" "" (Ref 0)
          (mkTime 2023 10 5 10 30 0 0) true);
     OwrapError (mkWrapError "query failed" (Ref 1))]
  = Ok ((3%Z, false),
        [OerrorString "connection timeout";
         ODatabaseError
           (mkDatabaseError "SELECT" "users" "" (Ref 0)
              (mkTime 2023 10 5 10 30 0 0) true);
         OwrapError (mkWrapError "query failed" (Ref 1))]).
Proof.
  refine (ErrorChain_depth_counts_chain
            [OerrorString "connection timeout";
             ODatabaseError
               (mkDatabaseError "SELECT" "users" "" (Ref 0)
                  (mkTime 2023 10 5 10 30 0 0) true);
             OwrapError (mkWrapError "query failed" (Ref 1))]
            (Ref 2) [Ref 2; Ref 1; Ref 0] 4 _ _).
  - apply chain_step with (c := Ref 1); [reflexivity|].
    apply chain_step with (c := Ref 0); [reflexivity|].
    apply chain_leaf with (t := T_errorString); reflexivity.
  - cbn. lia.
Defined.

(** ** errors.Is along a chain *)

Lemma chain_head_not_Nil h e l x : chain h e l -> In x l -> x <> Nil.
Proof.
  induction 1 as [|e t Ht Hc|e c l Hc Hl IH]; cbn; intros Hx.
  - contradiction.
  - destruct Hx as [<-|[]]. intros ->. discriminate Ht.
  - destruct Hx as [<-|Hx]; [intros ->; discriminate Hc | exact (IH Hx)].
Qed.

Lemma is_loop_chain_exact h target e l :
  chain h e l -> e <> Nil ->
  forall fuel g0,
    List.length l <= fuel ->
    is_loop fuel e target g0 h = Ok (existsb (matches target) l, h).
Proof.
  induction 1 as [|e t Ht Hc|e c l Hc Hl IH]; intros Hne fuel g0 Hf.
  - contradiction.
  - destruct fuel as [|fuel]; [cbn in Hf; lia|]. cbn [is_loop existsb].
    unfold matches at 1.
    destruct (error_eqb e target); [reflexivity|]. cbn [orb].
    destruct (match e with Sys n => Errno_Is n target | _ => false end);
      [reflexivity|].
    assert (V : e = Nil \/ type_in h e <> None) by (right; congruence).
    rewrite (bind_Ok _ _ _ _ _ _ (implements_unwrapper_in g0 h e V)), Hc.
    reflexivity.
  - destruct fuel as [|fuel]; [cbn in Hf; lia|]. cbn [is_loop existsb].
    unfold matches at 1.
    destruct (error_eqb e target); [reflexivity|]. cbn [orb].
    destruct (match e with Sys n => Errno_Is n target | _ => false end);
      [reflexivity|].
    pose proof (cause_in_typed _ _ _ Hc) as Ty.
    rewrite (bind_Ok _ _ _ _ _ _
               (implements_unwrapper_in g0 h e (or_intror Ty))), Hc.
    rewrite (bind_Ok _ _ _ _ _ _ (Unwrap_cause_in g0 h e c Hc)).
    destruct c as [|a|n].
    + rewrite (chain_Nil_inv _ _ Hl). reflexivity.
    + apply IH; [discriminate | cbn in Hf; lia].
    + apply IH; [discriminate | cbn in Hf; lia].
Qed.

Lemma existsb_matches_Nil h e l :
  chain h e l -> existsb (matches Nil) l = false.
Proof.
  intros C. apply not_true_is_false. intros E.
  apply existsb_exists in E. destruct E as (x & Hx & Mx).
  pose proof (chain_head_not_Nil h e l x C Hx) as Nx.
  destruct x as [|a|[]]; [contradiction | discriminate Mx | | | |];
    discriminate Mx.
Qed.

Lemma Is_chain_exact h e l target g :
  chain h e l -> e <> Nil -> List.length l <= g ->
  Is e target g h = Ok (existsb (matches target) l, h).
Proof.
  intros C Hne Hg.
  destruct target as [|t|m].
  - rewrite (existsb_matches_Nil h e l C).
    destruct e as [|a|[]]; try contradiction; reflexivity.
  - destruct e; [contradiction | |];
      apply (is_loop_chain_exact h _ _ l C); try discriminate; exact Hg.
  - destruct e; [contradiction | |];
      apply (is_loop_chain_exact h _ _ l C); try discriminate; exact Hg.
Qed.

(** X10. [errors.Is] answers whether some element of the cause chain
    matches: for a non-nil [e] whose chain is [l], [errors.Is(e, target)]
    returns true exactly when some element of [l] is identical to the
    target (or is an [Errno] whose [Is] method accepts it), and it leaves
    the heap unchanged; in particular a non-nil error always matches
    itself. *)
Theorem Is_follows_chain :
  forall h e l target g,
    chain h e l -> e <> Nil -> List.length l <= g ->
    Is e target g h = Ok (existsb (matches target) l, h)
    /\ Is e e g h = Ok (true, h).
Proof.
  intros h e l target g C Hne Hg.
  split; [exact (Is_chain_exact h e l target g C Hne Hg)|].
  rewrite (Is_chain_exact h e l e g C Hne Hg).
  destruct C as [|e t Ht Hc|e c l Hc Hl]; [contradiction| |];
    cbn [existsb]; unfold matches at 1; rewrite error_eqb_refl; reflexivity.
Qed.

(** Instance: [ENOENT] under a [*PathError] under a wrapper matches
    [os.ErrNotExist]. *)
Lemma Is_follows_chain_witness :
  Is (Ref 11) oserror_ErrNotExist 3
    (init_heap
     ++ [OPathError (mkPathError "open" "user_999.json" (Sys ENOENT));
         OwrapError (mkWrapError "failed to read config file" (Ref 10))])%list
  = Ok (true,
        (init_heap
         ++ [OPathError (mkPathError "open" "user_999.json" (Sys ENOENT));
             OwrapError
               (mkWrapError "failed to read config file" (Ref 10))])%list).
Proof.
  refine (proj1 (Is_follows_chain
            (init_heap
             ++ [OPathError (mkPathError "open" "user_999.json" (Sys ENOENT));
                 OwrapError
                   (mkWrapError "failed to read config file" (Ref 10))])%list
            (Ref 11) [Ref 11; Ref 10; Sys ENOENT] oserror_ErrNotExist 3
            _ _ _)).
  - apply chain_step with (c := Ref 10); [reflexivity|].
    apply chain_step with (c := Sys ENOENT); [reflexivity|].
    apply chain_leaf with (t := T_Errno); reflexivity.
  - discriminate.
  - cbn. lia.
Defined.

(** ** DatabaseError under errors.Is *)

Lemma chain_DatabaseError h a d l :
  nth_error h a = Some (ODatabaseError d) ->
  chain h (Err d) l -> chain h (Ref a) (Ref a :: l).
Proof.
  intros Ha C. apply chain_step with (c := Err d); [|exact C].
  cbn. rewrite Ha. reflexivity.
Qed.

(** X11. A [DatabaseError] is transparent to [errors.Is]: it matches
    itself, and any other target exactly when its cause does. With a nil
    [Err] it matches nothing but itself. *)
Theorem DatabaseError_transparent_to_Is :
  forall h a d l target g,
    nth_error h a = Some (ODatabaseError d) ->
    chain h (Err d) l -> List.length l < g ->
    Is (Ref a) (Ref a) g h = Ok (true, h)
    /\ (target <> Ref a ->
        Is (Ref a) target g h = Ok (existsb (matches target) l, h))
    /\ (target <> Ref a -> Err d <> Nil ->
        Is (Ref a) target g h = Is (Err d) target g h).
Proof.
  intros h a d l target g Ha C Hg.
  pose proof (chain_DatabaseError h a d l Ha C) as Ca.
  assert (E : Is (Ref a) target g h
              = Ok (existsb (matches target) (Ref a :: l), h))
    by (apply (Is_chain_exact h _ _ target g Ca);
        [discriminate | cbn; lia]).
  split.
  - rewrite (Is_chain_exact h _ _ (Ref a) g Ca) by (try discriminate; cbn; lia).
    cbn [existsb]. unfold matches at 1. rewrite error_eqb_refl. reflexivity.
  - assert (M : target <> Ref a -> matches target (Ref a) = false).
    { intros Hne. unfold matches. rewrite orb_false_r.
      apply not_true_is_false. intros X. apply error_eqb_eq in X.
      congruence. }
    split.
    + intros Hne. rewrite E. cbn [existsb]. rewrite (M Hne). reflexivity.
    + intros Hne Hc. rewrite E. cbn [existsb]. rewrite (M Hne). cbn [orb].
      symmetry. apply (Is_chain_exact h _ _ target g C Hc). lia.
Qed.

(** Instance: [TestDatabaseError_Unwrap], where [errors.Is(dbErr, baseErr)]
    holds. *)
Lemma DatabaseError_transparent_to_Is_witness :
  Is (Ref 1) (Ref 0) 2
    [OerrorString "original error";
     ODatabaseError
       (mkDatabaseError "INSERT" "products" "" (Ref 0)
          (mkTime 2023 10 5 10 30 0 0) false)]
  = Ok (true,
        [OerrorString "original error";
         ODatabaseError
           (mkDatabaseError "INSERT" "products" "" (Ref 0)
              (mkTime 2023 10 5 10 30 0 0) false)]).
Proof.
  refine (proj1 (proj2 (DatabaseError_transparent_to_Is
            [OerrorString "original error";
             ODatabaseError
               (mkDatabaseError "INSERT" "products" "" (Ref 0)
                  (mkTime 2023 10 5 10 30 0 0) false)]
            1 _ [Ref 0] (Ref 0) 2 eq_refl _ _)) _).
  - apply chain_leaf with (t := T_errorString); reflexivity.
  - cbn. lia.
  - discriminate.
Defined.

(** ** QueryUsers, continued *)

Lemma QueryUsers_chain now limit h :
  chain
    (h ++ [OerrorString "connection timeout";
           ODatabaseError
             (mkDatabaseError "SELECT" "users"
                ("SELECT * FROM users LIMIT " ++ itoa limit)
                (Ref (List.length h)) now true)])%list
    (Ref (S (List.length h)))
    [Ref (S (List.length h)); Ref (List.length h)].
Proof.
  apply chain_step with (c := Ref (List.length h)).
  - cbn [cause_in]. rewrite nth_error_app2 by lia.
    replace (S (List.length h) - List.length h) with 1 by lia. reflexivity.
  - apply chain_leaf with (t := T_errorString); cbn [cause_in type_in];
      rewrite nth_error_app2, Nat.sub_diag by lia; reflexivity.
Qed.

Lemma matches_Ref t a : matches (Ref t) (Ref a) = (a =? t)%nat.
Proof. unfold matches. cbn. apply orb_false_r. Qed.

Lemma chain_ext h x e l : chain h e l -> chain (h ++ x)%list e l.
Proof.
  induction 1 as [|e t Ht Hc|e c l Hc Hl IH]; [constructor| |].
  - destruct e as [|a|n]; [discriminate Ht| |].
    + cbn in Ht, Hc. destruct (nth_error h a) as [o|] eqn:Ea; [|discriminate].
      apply chain_leaf with (t := t); cbn; rewrite (nth_error_ext h x a o Ea);
        assumption.
    + apply chain_leaf with (t := t); assumption.
  - destruct e as [|a|n]; [discriminate Hc| |discriminate Hc].
    cbn in Hc. destruct (nth_error h a) as [o|] eqn:Ea; [|discriminate].
    apply chain_step with (c := c); [|exact IH].
    cbn. rewrite (nth_error_ext h x a o Ea). exact Hc.
Qed.

(** X12. Every call of [QueryUsers] allocates exactly two objects, the
    timeout leaf and the [DatabaseError] over it, and returns a non-nil
    error that no earlier pointer can equal; the objects already in the
    heap stay as they are. Two calls in a row, even with the same limit
    and clock reading, return different errors that print the same text
    and do not match each other under [errors.Is]. *)
Theorem QueryUsers_allocates_fresh_error :
  forall now limit g h,
    exists a h',
      QueryUsers now limit g h = Ok (Ref a, h')
      /\ a = S (List.length h)
      /\ List.length h' = List.length h + 2
      /\ (forall b o, nth_error h b = Some o -> nth_error h' b = Some o)
      /\ exists a2 h2 s,
          QueryUsers now limit g h' = Ok (Ref a2, h2)
          /\ a2 <> a
          /\ Error (Ref a) (S (S g)) h2 = Ok (s, h2)
          /\ Error (Ref a2) (S (S g)) h2 = Ok (s, h2)
          /\ Is (Ref a) (Ref a2) (S (S g)) h2 = Ok (false, h2)
          /\ Is (Ref a2) (Ref a) (S (S g)) h2 = Ok (false, h2).
Proof.
  intros now limit g h.
  eexists _, _. split; [apply QueryUsers_eq|].
  split; [reflexivity|].
  split; [rewrite length_app; reflexivity|].
  split; [intros b o Hb; apply nth_error_ext, Hb|].
  eexists _, _, _. split; [apply QueryUsers_eq|].
  set (h1 := (h ++ [OerrorString "connection timeout";
                    ODatabaseError
                      (mkDatabaseError "SELECT" "users"
                         ("SELECT * FROM users LIMIT " ++ itoa limit)
                         (Ref (List.length h)) now true)])%list).
  assert (L1 : List.length h1 = S (S (List.length h)))
    by (unfold h1; rewrite length_app; cbn; lia).
  split; [lia|].
  pose proof (QueryUsers_Error now limit g h) as E1. fold h1 in E1.
  pose proof (QueryUsers_Error now limit g h1) as E2.
  pose proof (QueryUsers_chain now limit h) as C1. fold h1 in C1.
  pose proof (QueryUsers_chain now limit h1) as C2.
  split.
  { destruct (Error_reads _ _ _ _ _ E1) as [_ R]. apply R, le_n. }
  split; [exact E2|].
  assert (C1' : chain
                  (h1 ++ [OerrorString "connection timeout";
                          ODatabaseError
                            (mkDatabaseError "SELECT" "users"
                               ("SELECT * FROM users LIMIT " ++ itoa limit)
                               (Ref (List.length h1)) now true)])%list
                  (Ref (S (List.length h)))
                  [Ref (S (List.length h)); Ref (List.length h)]).
  { apply chain_ext, C1. }
  split.
  - rewrite (Is_chain_exact _ _ _ (Ref (S (List.length h1))) _ C1')
      by (try discriminate; cbn; lia).
    cbn [existsb]. rewrite !matches_Ref.
    replace (S (List.length h) =? S (List.length h1))%nat with false
      by (symmetry; apply Nat.eqb_neq; lia).
    replace (List.length h =? S (List.length h1))%nat with false
      by (symmetry; apply Nat.eqb_neq; lia).
    reflexivity.
  - rewrite (Is_chain_exact _ _ _ (Ref (S (List.length h))) _ C2)
      by (try discriminate; cbn; lia).
    cbn [existsb]. rewrite !matches_Ref.
    replace (S (List.length h1) =? S (List.length h))%nat with false
      by (symmetry; apply Nat.eqb_neq; lia).
    replace (List.length h1 =? S (List.length h))%nat with false
      by (symmetry; apply Nat.eqb_neq; lia).
    reflexivity.
Qed.

(** X13. The error of [QueryUsers] has a chain of exactly two levels, its
    own rendering and the leaf "connection timeout": the collecting loop
    returns these two texts, the depth loop counts 2 without a report,
    [Unwramp] gives the leaf and then nil. On an initialised heap it
    matches its own cause under [errors.Is] but none of the sentinels of
    package utils, [ErrDatabaseTimeout] included. *)
Theorem QueryUsers_error_chain :
  forall now limit g h,
    initialized h ->
    exists e cause h',
      QueryUsers now limit g h = Ok (e, h')
      /\ Unwramp e g h' = Ok (cause, h')
      /\ cause <> Nil
      /\ Unwramp cause g h' = Ok (Nil, h')
      /\ WalkChain e (3 + g) h'
         = Ok (["database error [SELECT on users]: connection timeout (retryable: true, timestamp: "
                ++ Format_RFC3339 now ++ ")";
                "connection timeout"], h')
      /\ ErrorChain_depth e (3 + g) h' = Ok ((2%Z, false), h')
      /\ Is e cause (3 + g) h' = Ok (true, h')
      /\ (forall s, In s sentinels -> Is e s (3 + g) h' = Ok (false, h')).
Proof.
  intros now limit g h I.
  pose proof (initialized_length h I) as HL.
  pose proof (QueryUsers_chain now limit h) as C.
  set (h' := (h ++ [OerrorString "connection timeout";
                    ODatabaseError
                      (mkDatabaseError "SELECT" "users"
                         ("SELECT * FROM users LIMIT " ++ itoa limit)
                         (Ref (List.length h)) now true)])%list) in *.
  assert (N0 : nth_error h' (List.length h)
               = Some (OerrorString "connection timeout"))
    by (unfold h'; rewrite nth_error_app2, Nat.sub_diag by lia; reflexivity).
  assert (N1 : nth_error h' (S (List.length h))
               = Some (ODatabaseError
                         (mkDatabaseError "SELECT" "users"
                            ("SELECT * FROM users LIMIT " ++ itoa limit)
                            (Ref (List.length h)) now true))).
  { unfold h'. rewrite nth_error_app2 by lia.
    replace (S (List.length h) - List.length h) with 1 by lia. reflexivity. }
  exists (Ref (S (List.length h))), (Ref (List.length h)), h'.
  split; [apply QueryUsers_eq|].
  split; [rewrite (Unwramp_Ref _ _ _ _ N1); reflexivity|].
  split; [discriminate|].
  split; [rewrite (Unwramp_Ref _ _ _ _ N0); reflexivity|].
  split.
  { unfold WalkChain.
    refine (WalkChain_loop_chain h' (3 + g) _ _ C
              ["database error [SELECT on users]: connection timeout (retryable: true, timestamp: "
               ++ Format_RFC3339 now ++ ")"; "connection timeout"]
              _ (3 + g) [] _); [|cbn; lia].
    constructor; [|constructor; [|constructor]].
    - apply (QueryUsers_Error now limit (S g) h).
    - apply Error_errorString, N0. }
  split.
  { unfold ErrorChain_depth.
    apply (ErrorChain_loop_chain h' (3 + g) _ _ C (3 + g) 0); cbn; lia. }
  split.
  { rewrite (Is_chain_exact _ _ _ (Ref (List.length h)) _ C)
      by (try discriminate; cbn; lia).
    cbn [existsb]. rewrite !matches_Ref. rewrite Nat.eqb_refl.
    rewrite orb_true_r. reflexivity. }
  intros s Hs.
  destruct (sentinels_allocated h s I Hs) as (a & txt & -> & Ha).
  assert (a < List.length h) by (apply nth_error_Some; congruence).
  rewrite (Is_chain_exact _ _ _ (Ref a) _ C) by (try discriminate; cbn; lia).
  cbn [existsb]. rewrite !matches_Ref.
  replace (S (List.length h) =? a)%nat with false
    by (symmetry; apply Nat.eqb_neq; lia).
  replace (List.length h =? a)%nat with false
    by (symmetry; apply Nat.eqb_neq; lia).
  reflexivity.
Qed.

(** Instance: limit 10 on the heap of a freshly started program; the
    error does not match [ErrDatabaseTimeout]. *)
Lemma QueryUsers_error_chain_witness :
  exists e h',
    QueryUsers (mkTime 2023 10 5 10 30 0 0) 10 0 init_heap = Ok (e, h')
    /\ ErrorChain_depth e 3 h' = Ok ((2%Z, false), h')
    /\ Is e ErrDatabaseTimeout 3 h' = Ok (false, h').
Proof.
  destruct (QueryUsers_error_chain (mkTime 2023 10 5 10 30 0 0) 10 0 init_heap
              initialized_init)
    as (e & cause & h' & E & _ & _ & _ & _ & D & _ & S0).
  exists e, h'. split; [exact E|]. split; [exact D|].
  apply S0. cbn. auto 6.
Defined.

(** ** The parts of the rendering *)

(** X14. The rendering of a [DatabaseError] shows every part the
    package's test looks for: it contains "database error", the operation,
    the table, the text of the cause and the RFC3339 timestamp. The
    [Query] is not among them: two errors that differ only in [Query]
    render alike. *)
Theorem DatabaseError_Error_components :
  forall g h a e cause,
    nth_error h a = Some (ODatabaseError e) ->
    cause_text g h (Err e) cause ->
    exists s,
      Error (Ref a) (S g) h = Ok (s, h)
      /\ Contains s "database error" = true
      /\ Contains s (Operation e) = true
      /\ Contains s (Table e) = true
      /\ Contains s cause = true
      /\ Contains s (Format_RFC3339 (Timestamp e)) = true
      /\ forall q h2 a2,
          nth_error h2 a2
          = Some (ODatabaseError
                    (mkDatabaseError (Operation e) (Table e) q (Err e)
                       (Timestamp e) (Retryable e))) ->
          cause_text g h2 (Err e) cause ->
          Error (Ref a2) (S g) h2 = Ok (s, h2).
Proof.
  intros g h a e cause Ha Hc.
  eexists. split; [apply (Error_DatabaseError g h a e cause Ha Hc)|].
  split; [reflexivity|].
  split; [apply (Contains_infix "database error [")|].
  split.
  { apply (Contains_app_r "database error ["), (Contains_app_r (Operation e)).
    apply (Contains_infix " on "). }
  split.
  { apply (Contains_app_r "database error ["), (Contains_app_r (Operation e)),
      (Contains_app_r " on "), (Contains_app_r (Table e)).
    apply (Contains_infix "]: "). }
  split.
  { apply (Contains_app_r "database error ["), (Contains_app_r (Operation e)),
      (Contains_app_r " on "), (Contains_app_r (Table e)),
      (Contains_app_r "]: "), (Contains_app_r cause),
      (Contains_app_r " (retryable: "),
      (Contains_app_r (fmt_bool (Retryable e))).
    apply (Contains_infix ", timestamp: "). }
  intros q h2 a2 Ha2 Hc2.
  exact (Error_DatabaseError g h2 a2 _ cause Ha2 Hc2).
Qed.

(** Instance: the error of [TestDatabaseError_Error]. *)
Lemma DatabaseError_Error_components_witness :
  exists s,
    Error (Ref 1) 2
      [OerrorString "connection timeout";
       ODatabaseError
         (mkDatabaseError "SELECT" "users" "SELECT * FROM users WHERE id = ?"
            (Ref 0) (mkTime 2023 10 5 10 30 0 0) true)]
    = Ok (s,
          [OerrorString "connection timeout";
           ODatabaseError
             (mkDatabaseError "SELECT" "users"
                "SELECT * FROM users WHERE id = ?"
                (Ref 0) (mkTime 2023 10 5 10 30 0 0) true)])
    /\ Contains s "connection timeout" = true
    /\ Contains s "2023-10-05T10:30:00Z" = true.
Proof.
  destruct (DatabaseError_Error_components 1
              [OerrorString "connection timeout";
               ODatabaseError
                 (mkDatabaseError "SELECT" "users"
                    "SELECT * FROM users WHERE id = ?"
                    (Ref 0) (mkTime 2023 10 5 10 30 0 0) true)]
              1 _ "connection timeout" eq_refl eq_refl)
    as (s & E & _ & _ & _ & Cc & Ct & _).
  exists s. split; [exact E|]. split; [exact Cc | exact Ct].
Defined.

(** ** Package wrapping, continued *)

Lemma Error_needs_fuel e h r : Error e 0 h <> Ok r.
Proof. discriminate. Qed.

Lemma readConfigFile_fails os f g h h1 oserr t :
  os f g h = Ok (oserr, h1) -> oserr <> Nil ->
  Error oserr g h1 = Ok (t, h1) ->
  readConfigFile os f g h
  = Ok (Ref (List.length h1),
        (h1 ++ [OwrapError
                  (mkWrapError ("failed to read config file " ++ f ++ ": " ++ t)
                     oserr)])%list).
Proof.
  intros Hr Hne Et. unfold readConfigFile. rewrite (bind_Ok _ _ _ _ _ _ Hr).
  assert (X : Errorf "failed to read config file %s: %w"
                [OpString f; OpError oserr] g h1
              = Ok (Ref (List.length h1),
                    (h1 ++ [OwrapError
                              (mkWrapError
                                 ("failed to read config file " ++ f ++ ": "
                                  ++ t) oserr)])%list)).
  { apply (Errorf_wraps_one _ _ _ _ (ArgString f) _ t);
      [reflexivity | exact Hne | exact Et | | reflexivity].
    cbn. rewrite append_empty_r. reflexivity. }
  destruct oserr; [contradiction | exact X | exact X].
Qed.

Lemma loadUserConfig_fails os userID g h h1 oserr t :
  os (config_file userID) g h = Ok (oserr, h1) -> oserr <> Nil ->
  Error oserr g h1 = Ok (t, h1) ->
  loadUserConfig os userID g h
  = Ok (Ref (S (List.length h1)),
        (h1 ++ [OwrapError (mkWrapError (read_text userID t) oserr);
                OwrapError
                  (mkWrapError (load_text userID t)
                     (Ref (List.length h1)))])%list).
Proof.
  intros Hr Hne Et.
  destruct g as [|g]; [destruct (Error_needs_fuel _ _ _ Et)|].
  unfold loadUserConfig.
  assert (Ef : Sprintf "user_%d.json" [OpInt userID] (S g) h
               = Ok (config_file userID, h)) by reflexivity.
  rewrite (bind_Ok _ _ _ _ _ _ Ef).
  rewrite (bind_Ok _ _ _ _ _ _
             (readConfigFile_fails os _ _ h h1 oserr t Hr Hne Et)).
  rewrite (Errorf_wraps_one _ _ _ _ (ArgInt userID) _ (read_text userID t)
             (load_text userID t));
    [ | reflexivity | discriminate | | | reflexivity].
  - rewrite length_app, Nat.add_1_r, <- app_assoc. reflexivity.
  - exact (Error_wrapError _ _ _ (mkWrapError (read_text userID t) oserr)
             (nth_error_new h1 _)).
  - cbn. rewrite append_empty_r. reflexivity.
Qed.

Lemma ProcessUserData_fails os userID g h h1 oserr t :
  os (config_file userID) g h = Ok (oserr, h1) -> oserr <> Nil ->
  Error oserr g h1 = Ok (t, h1) ->
  ProcessUserData os userID g h
  = Ok (Ref (S (S (List.length h1))), wrapped_heap h1 userID oserr t).
Proof.
  intros Hr Hne Et.
  pose proof (loadUserConfig_fails os userID g h h1 oserr t Hr Hne Et) as E2.
  destruct g as [|g]; [destruct (Error_needs_fuel _ _ _ Et)|].
  unfold ProcessUserData. rewrite (bind_Ok _ _ _ _ _ _ E2).
  rewrite (Errorf_wraps_one _ _ _ _ (ArgInt userID) _ (load_text userID t)
             (process_text userID t));
    [ | reflexivity | discriminate | | | reflexivity].
  - unfold wrapped_heap. rewrite length_app. cbn [List.length].
    rewrite <- app_assoc. cbn [app].
    replace (List.length h1 + 2) with (S (S (List.length h1))) by lia.
    reflexivity.
  - refine (Error_wrapError _ _ _
              (mkWrapError (load_text userID t) (Ref (List.length h1))) _).
    rewrite nth_error_app2 by lia.
    replace (S (List.length h1) - List.length h1) with 1 by lia. reflexivity.
  - cbn. rewrite append_empty_r. reflexivity.
Qed.

Lemma ProcessUserData_succeeds os userID g h h1 :
  os (config_file userID) g h = Ok (Nil, h1) ->
  readConfigFile os (config_file userID) g h = Ok (Nil, h1)
  /\ loadUserConfig os userID g h = Ok (Nil, h1)
  /\ ProcessUserData os userID g h = Ok (Nil, h1).
Proof.
  intros Hr.
  assert (E1 : readConfigFile os (config_file userID) g h = Ok (Nil, h1))
    by (unfold readConfigFile; rewrite (bind_Ok _ _ _ _ _ _ Hr); reflexivity).
  assert (Ef : Sprintf "user_%d.json" [OpInt userID] g h
               = Ok (config_file userID, h)) by reflexivity.
  assert (E2 : loadUserConfig os userID g h = Ok (Nil, h1)).
  { unfold loadUserConfig.
    rewrite (bind_Ok _ _ _ _ _ _ Ef), (bind_Ok _ _ _ _ _ _ E1). reflexivity. }
  split; [exact E1|]. split; [exact E2|].
  unfold ProcessUserData. rewrite (bind_Ok _ _ _ _ _ _ E2). reflexivity.
Qed.

(** X15. [ProcessUserData] reads one file, "user_<id>.json". When
    [os.ReadFile] returns nil, all three functions of the package return
    nil and allocate nothing. When it returns an error that prints as [t],
    [readConfigFile], [loadUserConfig] and [ProcessUserData] allocate one,
    two and three wrappers and return the last one, whose texts are
    "failed to read config file user_<id>.json: <t>", "failed to load
    config for user <id>: " and "failed to process user <id>: " each put
    in front of the previous text, and each wrapper's [Unwramp] is the
    error below it. *)
Theorem ProcessUserData_result :
  forall (os : string -> M error) userID g h h1 oserr t,
    os (config_file userID) g h = Ok (oserr, h1) ->
    (oserr = Nil ->
     readConfigFile os (config_file userID) g h = Ok (Nil, h1)
     /\ loadUserConfig os userID g h = Ok (Nil, h1)
     /\ ProcessUserData os userID g h = Ok (Nil, h1))
    /\ (oserr <> Nil -> Error oserr g h1 = Ok (t, h1) ->
        exists e h2,
          ProcessUserData os userID g h = Ok (e, h2)
          /\ e = Ref (S (S (List.length h1)))
          /\ h2 = (h1 ++ [OwrapError
                            (mkWrapError
                               ("failed to read config file user_"
                                ++ itoa userID ++ ".json: " ++ t) oserr);
                          OwrapError
                            (mkWrapError
                               ("failed to load config for user "
                                ++ itoa userID
                                ++ ": failed to read config file user_"
                                ++ itoa userID ++ ".json: " ++ t)
                               (Ref (List.length h1)));
                          OwrapError
                            (mkWrapError
                               ("failed to process user " ++ itoa userID
                                ++ ": failed to load config for user "
                                ++ itoa userID
                                ++ ": failed to read config file user_"
                                ++ itoa userID ++ ".json: " ++ t)
                               (Ref (S (List.length h1))))])%list
          /\ Unwramp e g h2 = Ok (Ref (S (List.length h1)), h2)
          /\ Unwramp (Ref (S (List.length h1))) g h2
             = Ok (Ref (List.length h1), h2)
          /\ Unwramp (Ref (List.length h1)) g h2 = Ok (oserr, h2)).
Proof.
  intros os userID g h h1 oserr t Hr. split.
  - intros ->. apply ProcessUserData_succeeds, Hr.
  - intros Hne Et.
    eexists _, _.
    split; [apply (ProcessUserData_fails os userID g h h1 oserr t Hr Hne Et)|].
    split; [reflexivity|].
    split.
    { unfold wrapped_heap, process_text, load_text, read_text, config_file.
      cbn [append]. rewrite !append_assoc. reflexivity. }
    unfold wrapped_heap.
    split.
    { rewrite (Unwramp_Ref _ _ (S (S (List.length h1)))
                 (OwrapError (mkWrapError (process_text userID t)
                                (Ref (S (List.length h1))))));
        [reflexivity|].
      rewrite nth_error_app2 by lia.
      replace (S (S (List.length h1)) - List.length h1) with 2 by lia.
      reflexivity. }
    split.
    { rewrite (Unwramp_Ref _ _ (S (List.length h1))
                 (OwrapError (mkWrapError (load_text userID t)
                                (Ref (List.length h1)))));
        [reflexivity|].
      rewrite nth_error_app2 by lia.
      replace (S (List.length h1) - List.length h1) with 1 by lia.
      reflexivity. }
    rewrite (Unwramp_Ref _ _ (List.length h1)
               (OwrapError (mkWrapError (read_text userID t) oserr)));
      [reflexivity|].
    rewrite nth_error_app2, Nat.sub_diag by lia. reflexivity.
Qed.

(** Instance: user 7 whose config file can be read. *)
Lemma ProcessUserData_result_witness :
  ProcessUserData (fun _ => ret Nil) 7 0 init_heap = Ok (Nil, init_heap).
Proof.
  apply (proj1 (ProcessUserData_result (fun _ => ret Nil) 7 0 init_heap
                  init_heap Nil "" eq_refl) eq_refl).
Defined.

Lemma matches_fresh h target a :
  valid h target -> List.length h <= a -> matches target (Ref a) = false.
Proof.
  intros V Ha. unfold matches. rewrite orb_false_r.
  destruct target as [|t|m]; cbn in *; try reflexivity.
  apply Nat.eqb_neq. lia.
Qed.

Lemma wrapped_heap_chain h1 userID oserr t l :
  chain h1 oserr l ->
  chain (wrapped_heap h1 userID oserr t) (Ref (S (S (List.length h1))))
    (Ref (S (S (List.length h1))) :: Ref (S (List.length h1))
     :: Ref (List.length h1) :: l).
Proof.
  intros C. unfold wrapped_heap.
  apply chain_step with (c := Ref (S (List.length h1))).
  { cbn [cause_in]. rewrite nth_error_app2 by lia.
    replace (S (S (List.length h1)) - List.length h1) with 2 by lia.
    reflexivity. }
  apply chain_step with (c := Ref (List.length h1)).
  { cbn [cause_in]. rewrite nth_error_app2 by lia.
    replace (S (List.length h1) - List.length h1) with 1 by lia.
    reflexivity. }
  apply chain_step with (c := oserr).
  { cbn [cause_in]. rewrite nth_error_app2, Nat.sub_diag by lia.
    reflexivity. }
  apply chain_ext, C.
Qed.

Lemma wrapped_heap_Is h1 userID oserr t l target g :
  chain h1 oserr l -> valid h1 target -> 3 + List.length l <= g ->
  Is (Ref (S (S (List.length h1)))) target g
    (wrapped_heap h1 userID oserr t)
  = Ok (existsb (matches target) l, wrapped_heap h1 userID oserr t).
Proof.
  intros C V Hg.
  rewrite (Is_chain_exact _ _ _ target g
             (wrapped_heap_chain h1 userID oserr t l C))
    by (try discriminate; cbn; lia).
  cbn [existsb].
  rewrite !(matches_fresh h1 target) by (try exact V; lia).
  reflexivity.
Qed.

(** X16. Wrapping keeps identity checks: for a target that existed before
    the call (a sentinel, for instance), the error of [ProcessUserData]
    matches it under [errors.Is] exactly when the error [os.ReadFile]
    returned does - that is, when some element of the OS error's chain
    matches. *)
Theorem ProcessUserData_preserves_Is :
  forall (os : string -> M error) userID g h h1 oserr t l target,
    os (config_file userID) g h = Ok (oserr, h1) ->
    oserr <> Nil ->
    Error oserr g h1 = Ok (t, h1) ->
    chain h1 oserr l ->
    3 + List.length l <= g ->
    valid h1 target ->
    exists e h2,
      ProcessUserData os userID g h = Ok (e, h2)
      /\ Is e target g h2 = Ok (existsb (matches target) l, h2)
      /\ Is oserr target g h1 = Ok (existsb (matches target) l, h1).
Proof.
  intros os userID g h h1 oserr t l target Hr Hne Et C Hg V.
  eexists _, _.
  split; [apply (ProcessUserData_fails os userID g h h1 oserr t Hr Hne Et)|].
  split; [apply wrapped_heap_Is; assumption|].
  apply Is_chain_exact; [exact C | exact Hne | lia].
Qed.

(** Instance: [TestProcessUserData_FileNotFound]; the error for a missing
    file matches [os.ErrNotExist]. *)
Lemma ProcessUserData_preserves_Is_witness :
  exists e h2,
    ProcessUserData ReadFile_missing 999 5 init_heap = Ok (e, h2)
    /\ Is e oserror_ErrNotExist 5 h2 = Ok (true, h2).
Proof.
  destruct (ProcessUserData_preserves_Is ReadFile_missing 999 5 init_heap
              (init_heap
               ++ [OPathError
                     (mkPathError "open" "user_999.json" (Sys ENOENT))])%list
              (Ref 10) "open user_999.json: no such file or directory"
              [Ref 10; Sys ENOENT] oserror_ErrNotExist)
    as (e & h2 & E & I & _).
  - reflexivity.
  - discriminate.
  - reflexivity.
  - apply chain_step with (c := Sys ENOENT); [reflexivity|].
    apply chain_leaf with (t := T_Errno); reflexivity.
  - cbn. lia.
  - cbn. lia.
  - exists e, h2. split; [exact E | exact I].
Defined.

(** ** The example functions *)

Lemma Sprintf_error f e t g h s :
  e <> Nil -> Error e g h = Ok (t, h) ->
  doPrintf false f [ArgError t] = Some s ->
  Sprintf f [OpError e] g h = Ok (s, h).
Proof.
  intros Hne Et Ep. unfold Sprintf, Sprintf_with.
  assert (Ev : eval_operands Error [OpError e] g h = Ok ([ArgError t], h)).
  { cbn [eval_operands].
    rewrite (bind_Ok _ _ _ _ _ _ (eval_operand_error g h e t Hne Et)).
    reflexivity. }
  rewrite (bind_Ok _ _ _ _ _ _ Ev), Ep. reflexivity.
Qed.

(** X17. [FormattedErrorExample] writes exactly one line: for an age from
    0 to 130 it prints "Valid age: <age>" to standard output and allocates
    nothing; for any other age it prints nothing and logs "Error: "
    followed by the text of the error of [ValidateAge]. *)
Theorem FormattedErrorExample_output :
  forall (age : Z) g h,
    ((0 <= age <= 130)%Z ->
     FormattedErrorExample age (S g) h
     = Ok ([Printed ("Valid age: " ++ itoa age ++ newline)], h))
    /\ ((age < 0)%Z ->
        FormattedErrorExample age (S g) h
        = Ok ([Logged ("Error: invalid age: " ++ itoa age
                       ++ ". Age cannot be negative" ++ newline)],
              (h ++ [OerrorString
                       ("invalid age: " ++ itoa age
                        ++ ". Age cannot be negative")])%list))
    /\ ((130 < age)%Z ->
        FormattedErrorExample age (S g) h
        = Ok ([Logged ("Error: invalid age: " ++ itoa age
                       ++ ". Age cannot be greater than 130" ++ newline)],
              (h ++ [OerrorString
                       ("invalid age: " ++ itoa age
                        ++ ". Age cannot be greater than 130")])%list)).
Proof.
  intros age g h. unfold FormattedErrorExample.
  assert (L : forall t,
             (s <- Sprintf ("Error: %v" ++ newline)
                    [OpError (Ref (List.length h))] ;;
              ret [Logged s]) (S g) (h ++ [OerrorString t])%list
             = Ok ([Logged ("Error: " ++ t ++ newline)],
                   (h ++ [OerrorString t])%list)).
  { intros t.
    rewrite (bind_Ok _ _ _ _ _ _
               (Sprintf_error ("Error: %v" ++ newline)
                  (Ref (List.length h)) t (S g) _
                  ("Error: " ++ t ++ newline) ltac:(discriminate)
                  (Error_errorString g _ _ t (nth_error_new h _))
                  eq_refl)).
    reflexivity. }
  split; [|split]; intros Ha.
  - rewrite (bind_Ok _ _ (S g) h Nil h).
    + unfold Sprintf, Sprintf_with, bind, lift, ret. cbn. reflexivity.
    + rewrite ValidateAge_cases.
      replace (age <? 0)%Z with false by (symmetry; apply Z.ltb_ge; lia).
      replace (130 <? age)%Z with false by (symmetry; apply Z.ltb_ge; lia).
      reflexivity.
  - rewrite (bind_Ok _ _ (S g) h (Ref (List.length h))
               (h ++ [OerrorString
                        ("invalid age: " ++ itoa age
                         ++ ". Age cannot be negative")])%list).
    + rewrite L. rewrite !append_assoc. reflexivity.
    + rewrite ValidateAge_cases.
      replace (age <? 0)%Z with true by (symmetry; apply Z.ltb_lt; lia).
      reflexivity.
  - rewrite (bind_Ok _ _ (S g) h (Ref (List.length h))
               (h ++ [OerrorString
                        ("invalid age: " ++ itoa age
                         ++ ". Age cannot be greater than 130")])%list).
    + rewrite L. rewrite !append_assoc. reflexivity.
    + rewrite ValidateAge_cases.
      replace (age <? 0)%Z with false by (symmetry; apply Z.ltb_ge; lia).
      replace (130 <? age)%Z with true by (symmetry; apply Z.ltb_lt; lia).
      reflexivity.
Qed.

(** Instance: ages 25 and -10. *)
Lemma FormattedErrorExample_output_witness :
  FormattedErrorExample 25 1 [] = Ok ([Printed ("Valid age: 25" ++ newline)], [])
  /\ FormattedErrorExample (-10) 1 []
     = Ok ([Logged ("Error: invalid age: -10. Age cannot be negative"
                    ++ newline)],
           [OerrorString "invalid age: -10. Age cannot be negative"]).
Proof.
  split.
  - apply (proj1 (FormattedErrorExample_output 25 0 [])). lia.
  - apply (proj1 (proj2 (FormattedErrorExample_output (-10) 0 []))). lia.
Defined.

(** X18. [WrappingErrorExample] never looks at its [filename] argument: it
    always processes user 123, so what it writes depends only on what
    [os.ReadFile] returns for "user_123.json". When the read succeeds it
    writes nothing. When the read fails with an error that prints as [t],
    it logs "Full error chain: failed to process user 123: failed to load
    config for user 123: failed to read config file user_123.json: <t>",
    and after it "File not found - using defaults" exactly when some
    element of the OS error's chain matches [os.ErrNotExist]. *)
Theorem WrappingErrorExample_output :
  forall (os : string -> M error) (filename : string) g h h1 oserr,
    os "user_123.json" g h = Ok (oserr, h1) ->
    (oserr = Nil -> WrappingErrorExample os filename g h = Ok ([], h1))
    /\ (forall t l,
          oserr <> Nil ->
          Error oserr g h1 = Ok (t, h1) ->
          chain h1 oserr l ->
          3 + List.length l <= g ->
          initialized h1 ->
          exists h2,
            WrappingErrorExample os filename g h
            = Ok (Logged
                    ("Full error chain: failed to process user 123: failed to load config for user 123: failed to read config file user_123.json: "
                     ++ t ++ newline)
                  :: (if existsb (matches oserror_ErrNotExist) l
                      then [Logged ("File not found - using defaults"
                                    ++ newline)]
                      else []), h2)).
Proof.
  intros os filename g h h1 oserr Hr. split.
  - intros ->. unfold WrappingErrorExample.
    rewrite (bind_Ok _ _ _ _ _ _
               (proj2 (proj2 (ProcessUserData_succeeds os 123 g h h1 Hr)))).
    reflexivity.
  - intros t l Hne Et C Hg I.
    pose proof (initialized_length h1 I) as HL.
    exists (wrapped_heap h1 123 oserr t). unfold WrappingErrorExample.
    rewrite (bind_Ok _ _ _ _ _ _
               (ProcessUserData_fails os 123 g h h1 oserr t Hr Hne Et)).
    destruct g as [|g]; [lia|].
    assert (Ee : Error (Ref (S (S (List.length h1)))) (S g)
                   (wrapped_heap h1 123 oserr t)
                 = Ok (process_text 123 t, wrapped_heap h1 123 oserr t)).
    { refine (Error_wrapError g _ _
                (mkWrapError (process_text 123 t) (Ref (S (List.length h1))))
                _).
      unfold wrapped_heap. rewrite nth_error_app2 by lia.
      replace (S (S (List.length h1)) - List.length h1) with 2 by lia.
      reflexivity. }
    rewrite (bind_Ok _ _ _ _ _ _
               (Sprintf_error ("Full error chain: %v" ++ newline)
                  (Ref (S (S (List.length h1)))) (process_text 123 t) (S g) _
                  ("Full error chain: " ++ process_text 123 t ++ newline)
                  ltac:(discriminate) Ee eq_refl)).
    rewrite (bind_Ok _ _ _ _ _ _
               (wrapped_heap_Is h1 123 oserr t l oserror_ErrNotExist (S g) C
                  ltac:(cbn; lia) Hg)).
    unfold process_text, load_text, read_text, config_file.
    change (itoa 123) with "123". cbn [append].
    destruct (existsb (matches oserror_ErrNotExist) l); reflexivity.
Qed.

(** Instance: [main]'s call with "non_existent_file.txt" when
    user_123.json is missing; both lines are logged. *)
Lemma WrappingErrorExample_output_witness :
  exists h2,
    WrappingErrorExample ReadFile_missing "non_existent_file.txt" 5 init_heap
    = Ok ([Logged
             ("Full error chain: failed to process user 123: failed to load config for user 123: failed to read config file user_123.json: open user_123.json: no such file or directory"
              ++ newline);
           Logged ("File not found - using defaults" ++ newline)], h2).
Proof.
  destruct (proj2 (WrappingErrorExample_output ReadFile_missing
                     "non_existent_file.txt" 5 init_heap
                     (init_heap
                      ++ [OPathError
                            (mkPathError "open" "user_123.json"
                               (Sys ENOENT))])%list
                     (Ref 10) eq_refl)
              "open user_123.json: no such file or directory"
              [Ref 10; Sys ENOENT])
    as (h2 & E).
  - discriminate.
  - reflexivity.
  - apply chain_step with (c := Sys ENOENT); [reflexivity|].
    apply chain_leaf with (t := T_Errno); reflexivity.
  - cbn. lia.
  - apply initialized_ext, initialized_init.
  - exists h2. exact E.
Defined.

(** ** The sentinels of package utils *)

(** X19. On every initialised heap the five sentinels print their fixed
    texts - "user not found", "email already exists", "invalid password",
    "unauthorized access", "database operation timed out" - each is a leaf
    ([Unwramp] answers nil), and two different sentinels never print the
    same text. *)
Theorem sentinels_print_their_texts :
  forall g h,
    initialized h ->
    Error ErrUserNotFound (S g) h = Ok ("user not found", h)
    /\ Error ErrDuplicateEmail (S g) h = Ok ("email already exists", h)
    /\ Error ErrInvalidPassword (S g) h = Ok ("invalid password", h)
    /\ Error ErrUnauthorized (S g) h = Ok ("unauthorized access", h)
    /\ Error ErrDatabaseTimeout (S g) h
       = Ok ("database operation timed out", h)
    /\ (forall s, In s sentinels -> Unwramp s g h = Ok (Nil, h))
    /\ (forall s1 s2 t1 t2,
          In s1 sentinels -> In s2 sentinels -> s1 <> s2 ->
          Error s1 (S g) h = Ok (t1, h) -> Error s2 (S g) h = Ok (t2, h) ->
          t1 <> t2).
Proof.
  intros g h I.
  assert (E5 := Error_errorString g h 5 _ (I 5 _ eq_refl)).
  assert (E6 := Error_errorString g h 6 _ (I 6 _ eq_refl)).
  assert (E7 := Error_errorString g h 7 _ (I 7 _ eq_refl)).
  assert (E8 := Error_errorString g h 8 _ (I 8 _ eq_refl)).
  assert (E9 := Error_errorString g h 9 _ (I 9 _ eq_refl)).
  split; [exact E5|]. split; [exact E6|]. split; [exact E7|].
  split; [exact E8|]. split; [exact E9|].
  split.
  - intros s Hs. destruct (sentinels_allocated h s I Hs) as (a & txt & -> & Ha).
    rewrite (Unwramp_Ref _ _ _ _ Ha). reflexivity.
  - intros s1 s2 t1 t2 H1 H2 Hne X1 X2. cbn in H1, H2.
    unfold ErrUserNotFound, ErrDuplicateEmail, ErrInvalidPassword,
      ErrUnauthorized, ErrDatabaseTimeout in *.
    destruct H1 as [<-|[<-|[<-|[<-|[<-|[]]]]]];
      destruct H2 as [<-|[<-|[<-|[<-|[<-|[]]]]]];
      try contradiction; congruence.
Qed.

(** Instance: the heap of a freshly started program. *)
Lemma sentinels_print_their_texts_witness :
  Error ErrUserNotFound 1 init_heap = Ok ("user not found", init_heap).
Proof.
  apply (proj1 (sentinels_print_their_texts 0 init_heap initialized_init)).
Defined.

(** ** Wrapping under errors.As and the depth loop *)

Lemma chain_typed h e l x : chain h e l -> In x l -> type_in h x <> None.
Proof.
  induction 1 as [|e t Ht Hc|e c l Hc Hl IH]; cbn; intros Hx.
  - contradiction.
  - destruct Hx as [<-|[]]. congruence.
  - destruct Hx as [<-|Hx]; [exact (cause_in_typed _ _ _ Hc) | exact (IH Hx)].
Qed.

Lemma has_type_ext h x T e :
  type_in h e <> None -> has_type (h ++ x)%list T e = has_type h T e.
Proof.
  unfold has_type. destruct e as [|a|n]; cbn; try reflexivity.
  destruct (nth_error h a) as [o|] eqn:Ea; [|contradiction].
  intros _. rewrite (nth_error_ext h x a o Ea). reflexivity.
Qed.

Lemma find_has_type_ext h x T l :
  (forall y, In y l -> type_in h y <> None) ->
  find (has_type (h ++ x)%list T) l = find (has_type h T) l.
Proof.
  induction l as [|y l IH]; intros Ty; [reflexivity|].
  cbn [find]. rewrite (has_type_ext h x T y) by (apply Ty; left; reflexivity).
  destruct (has_type h T y); [reflexivity|].
  apply IH. intros z Hz. apply Ty. right. exact Hz.
Qed.

Lemma wrapped_heap_As h1 userID oserr t l T g :
  chain h1 oserr l -> 3 + List.length l <= g -> T <> T_wrapError ->
  As (Ref (S (S (List.length h1)))) T g (wrapped_heap h1 userID oserr t)
  = Ok (find (has_type h1 T) l, wrapped_heap h1 userID oserr t).
Proof.
  intros C Hg HT.
  pose proof (wrapped_heap_chain h1 userID oserr t l C) as Cw.
  rewrite (As_chain _ T _ _ g Cw) by (cbn [List.length]; lia).
  assert (W : forall a o,
             nth_error (wrapped_heap h1 userID oserr t) a
             = Some (OwrapError o) ->
             has_type (wrapped_heap h1 userID oserr t) T (Ref a) = false).
  { intros a o Ha. unfold has_type. cbn [type_in]. rewrite Ha. cbn.
    destruct T; try reflexivity. contradiction. }
  cbn [find].
  rewrite (W (S (S (List.length h1)))
             (mkWrapError (process_text userID t)
                (Ref (S (List.length h1)))))
    by (unfold wrapped_heap; rewrite nth_error_app2 by lia;
        replace (S (S (List.length h1)) - List.length h1) with 2 by lia;
        reflexivity).
  rewrite (W (S (List.length h1))
             (mkWrapError (load_text userID t) (Ref (List.length h1))))
    by (unfold wrapped_heap; rewrite nth_error_app2 by lia;
        replace (S (List.length h1) - List.length h1) with 1 by lia;
        reflexivity).
  rewrite (W (List.length h1) (mkWrapError (read_text userID t) oserr))
    by (unfold wrapped_heap; rewrite nth_error_app2, Nat.sub_diag by lia;
        reflexivity).
  unfold wrapped_heap.
  rewrite (find_has_type_ext h1 _ T l (fun y => chain_typed h1 oserr l y C)).
  reflexivity.
Qed.

(** X20. For the error of [ProcessUserData], [errors.As] with a target
    type other than [*wrapError] finds exactly what it finds in the error
    [os.ReadFile] returned, and the depth loop counts three levels more
    than the OS error's chain has - at least 3, as the package's test
    expects - reporting "too deep" only when that exceeds 10. *)
Theorem ProcessUserData_As_and_depth :
  forall (os : string -> M error) userID g h h1 oserr t l T,
    os (config_file userID) g h = Ok (oserr, h1) ->
    oserr <> Nil ->
    Error oserr g h1 = Ok (t, h1) ->
    chain h1 oserr l ->
    3 + List.length l < g ->
    T <> T_wrapError ->
    exists e h2 d b,
      ProcessUserData os userID g h = Ok (e, h2)
      /\ As e T g h2 = Ok (find (has_type h1 T) l, h2)
      /\ As oserr T g h1 = Ok (find (has_type h1 T) l, h1)
      /\ ErrorChain_depth e g h2 = Ok ((d, b), h2)
      /\ (3 <= d)%Z
      /\ (3 + List.length l <= 10 ->
          d = Z.of_nat (3 + List.length l) /\ b = false)
      /\ (10 < 3 + List.length l -> d = 11%Z /\ b = true).
Proof.
  intros os userID g h h1 oserr t l T Hr Hne Et C Hg HT.
  pose proof (wrapped_heap_chain h1 userID oserr t l C) as Cw.
  pose proof (ErrorChain_loop_chain _ g _ _ Cw g 0 ltac:(lia)
                ltac:(cbn [List.length]; lia)) as D.
  cbn [List.length Nat.add] in D.
  pose proof (ProcessUserData_fails os userID g h h1 oserr t Hr Hne Et) as P.
  pose proof (wrapped_heap_As h1 userID oserr t l T g C ltac:(lia) HT) as A.
  pose proof (As_chain h1 T oserr l g C ltac:(lia)) as A0.
  exists (Ref (S (S (List.length h1)))), (wrapped_heap h1 userID oserr t).
  cbn [List.length Nat.add].
  destruct (Nat.leb_spec (S (S (S (List.length l)))) 10) as [Hle|Hgt];
    eexists _, _;
    (split; [exact P|]); (split; [exact A|]); (split; [exact A0|]);
    (split; [exact D|]).
  - split; [lia|]. split; [intros _; split; reflexivity | intros; lia].
  - split; [lia|]. split; [intros; lia | intros _; split; reflexivity].
Qed.

(** Instance: user 999 with no config file; [errors.As] finds the
    [*PathError] and the depth is 5. *)
Lemma ProcessUserData_As_and_depth_witness :
  exists e h2,
    ProcessUserData ReadFile_missing 999 6 init_heap = Ok (e, h2)
    /\ As e T_PathError 6 h2 = Ok (Some (Ref 10), h2)
    /\ ErrorChain_depth e 6 h2 = Ok ((5%Z, false), h2).
Proof.
  destruct (ProcessUserData_As_and_depth ReadFile_missing 999 6 init_heap
              (init_heap
               ++ [OPathError
                     (mkPathError "open" "user_999.json" (Sys ENOENT))])%list
              (Ref 10) "open user_999.json: no such file or directory"
              [Ref 10; Sys ENOENT] T_PathError)
    as (e & h2 & d & b & E & A & _ & D & _ & Hs & _).
  - reflexivity.
  - discriminate.
  - reflexivity.
  - apply chain_step with (c := Sys ENOENT); [reflexivity|].
    apply chain_leaf with (t := T_Errno); reflexivity.
  - cbn. lia.
  - discriminate.
  - destruct (Hs ltac:(cbn; lia)) as [-> ->].
    exists e, h2. split; [exact E|]. split; [exact A | exact D].
Defined.
